(** * EasyDB: a shallow embedding of [easydb.py]

    The development models the persistence core of EasyDB: the two SQLite
    tables [kv_store] and [list_store], the list facade [EasyDBList], the
    attribute router ([__setattr__] / [__getattr__]) and the snapshot and
    report builders ([_get_all_data] / [_generate_html_report]).

    Conventions.
    - A Python [int] is a [Z]; a Python [float] is a [pyfloat].
    - A Python [str] is a [string] holding its UTF-8 bytes.  A [str] may
      hold surrogate code points (U+D800 to U+DFFF), which UTF-8 proper
      leaves out: they are written in the same scheme, on three bytes.
      The keys and list names, which [sqlite3] binds to a statement as
      TEXT, are taken to hold none ([sqlite3] cannot encode them).
    - [json.dumps] produces a JSON document; the stored TEXT column is
      modelled by the document it denotes (type [json]), so the concrete
      spelling of the text (separators, escapes) is not part of the model.
    - Every method that opens a connection is a computation in the monad
      [M]: it takes the store, and returns an outcome together with the
      store as committed when the method returns or raises. *)

From Stdlib Require Import List String Ascii NArith ZArith Lia Bool.
From Stdlib Require Import Permutation Sorted DecimalString.
Import ListNotations.
Set Warnings "-register-all".
Open Scope string_scope.
Open Scope Z_scope.

(* ================================================================== *)
(** ** Python values and JSON documents *)

(** The keys of a [dict] that the embedding covers: [str], and the
    [int], [bool] and [None] keys that [json.dumps] accepts as well (it
    also accepts a [float] key, which is left out). *)
Inductive pykey : Type :=
| KStr (s : string)
| KInt (z : Z)
| KBool (b : bool)
| KNone.

(** A Python [float], an IEEE 754 double: not a number, an infinity, or
    the finite number [(-1)^negative * mantissa * 2^exponent] (a zero has
    a sign too). *)
Inductive pyfloat : Type :=
| FNan
| FInf (negative : bool)
| FFinite (negative : bool) (mantissa : N) (exponent : Z).

(** The Python values that flow through the library.  [PyBytes] stands
    for the values [json.dumps] rejects (a BLOB cell read from a foreign
    table is one of them). *)
Inductive pyval : Type :=
| PyNone
| PyBool (b : bool)
| PyInt (z : Z)
| PyStr (s : string)
| PyList (l : list pyval)
| PyTuple (l : list pyval)
| PyDict (d : list (pykey * pyval))
| PyBytes (b : string)
| PyFloat (x : pyfloat).

(** A JSON document: what a stored [value] / [item_value] TEXT denotes.
    [JNum] is a number written as an integer, [JFloat] any other number
    token ([NaN] and [Infinity], which Python writes and reads, among
    them), by the double Python reads from it.  [JStr] and the member
    names hold the characters as the text spells them, each [\uXXXX]
    escape a code point of its own. *)
Inductive json : Type :=
| JNull
| JBool (b : bool)
| JNum (z : Z)
| JStr (s : string)
| JArr (l : list json)
| JObj (m : list (string * json))
| JFloat (x : pyfloat).

Definition pykey_eqb (a b : pykey) : bool :=
  match a, b with
  | KStr s, KStr t => String.eqb s t
  | KInt x, KInt y => Z.eqb x y
  | KBool x, KBool y => Bool.eqb x y
  | KNone, KNone => true
  | _, _ => false
  end.

(** Python [str(z)] for an [int]. *)
Definition str_of_int (z : Z) : string := NilZero.string_of_int (Z.to_int z).

(** The text [json.dumps] writes for a dictionary key: strings as they
    are, the other accepted keys coerced to a string. *)
Definition key_text (k : pykey) : string :=
  match k with
  | KStr s => s
  | KInt z => str_of_int z
  | KBool true => "true"
  | KBool false => "false"
  | KNone => "null"
  end.

(** [json.dumps(value)]: [None] stands for the [TypeError] raised on a
    value that is not JSON serializable.  Lists and tuples are both
    written as arrays. *)
Fixpoint json_dumps (v : pyval) : option json :=
  match v with
  | PyNone => Some JNull
  | PyBool b => Some (JBool b)
  | PyInt z => Some (JNum z)
  | PyStr s => Some (JStr s)
  | PyList l | PyTuple l =>
      option_map JArr
        ((fix items (l : list pyval) : option (list json) :=
            match l with
            | [] => Some []
            | x :: r =>
                match json_dumps x, items r with
                | Some j, Some js => Some (j :: js)
                | _, _ => None
                end
            end) l)
  | PyDict d =>
      option_map JObj
        ((fix members (d : list (pykey * pyval)) : option (list (string * json)) :=
            match d with
            | [] => Some []
            | (k, x) :: r =>
                match json_dumps x, members r with
                | Some j, Some js => Some ((key_text k, j) :: js)
                | _, _ => None
                end
            end) d)
  | PyBytes _ => None
  | PyFloat x => Some (JFloat x)
  end.

(** Python dictionaries keep insertion order: [d[k] = v] replaces the
    value in place when [k] is present and adds the entry at the end
    otherwise. *)
Fixpoint dict_set {K V : Type} (eqb : K -> K -> bool)
         (d : list (K * V)) (k : K) (v : V) : list (K * V) :=
  match d with
  | [] => [(k, v)]
  | (k', v') :: r =>
      if eqb k' k then (k', v) :: r else (k', v') :: dict_set eqb r k v
  end.

Fixpoint dict_get {K V : Type} (eqb : K -> K -> bool)
         (d : list (K * V)) (k : K) : option V :=
  match d with
  | [] => None
  | (k', v') :: r => if eqb k' k then Some v' else dict_get eqb r k
  end.

(** Building a dictionary from pairs read left to right. *)
Definition dict_of_pairs {K V : Type} (eqb : K -> K -> bool)
           (ps : list (K * V)) : list (K * V) :=
  fold_left (fun d p => dict_set eqb d (fst p) (snd p)) ps [].

(* ------------------------------------------------------------------ *)
(** *** Surrogates in a [str]

    [json.dumps] writes every character outside ASCII as [\uXXXX]
    escapes, a surrogate as one escape, a character above U+FFFF as the
    two escapes of its surrogate pair.  [json.loads] reads a high
    surrogate escape followed by a low one as the one character of the
    pair, so two such code points of a [str] come back joined. *)

Definition byte (a : ascii) : N := N_of_ascii a.

Definition is_continuation (a : ascii) : bool :=
  ((128 <=? byte a) && (byte a <=? 191))%N.

(** U+D800 to U+DBFF on three bytes: [ED A0..AF 80..BF]. *)
Definition is_high_surrogate (a b c : ascii) : bool :=
  ((byte a =? 237) && (160 <=? byte b) && (byte b <=? 175))%N
  && is_continuation c.

(** U+DC00 to U+DFFF on three bytes: [ED B0..BF 80..BF]. *)
Definition is_low_surrogate (a b c : ascii) : bool :=
  ((byte a =? 237) && (176 <=? byte b) && (byte b <=? 191))%N
  && is_continuation c.

Definition starts_pair (l : list ascii) : bool :=
  match l with
  | a :: b :: c :: d :: e :: f :: _ =>
      is_high_surrogate a b c && is_low_surrogate d e f
  | _ => false
  end.

Fixpoint has_pair (l : list ascii) : bool :=
  match l with
  | [] => false
  | _ :: t => starts_pair l || has_pair t
  end.

(** The four bytes of the character of a pair:
    U+10000 + (high - U+D800) * 1024 + (low - U+DC00). *)
Definition joined (b c e f : ascii) : list ascii :=
  let high := ((byte b - 160) * 64 + (byte c - 128))%N in
  let low := ((byte e - 176) * 64 + (byte f - 128))%N in
  let code := (65536 + high * 1024 + low)%N in
  [ascii_of_N (240 + code / 262144);
   ascii_of_N (128 + (code / 4096) mod 64);
   ascii_of_N (128 + (code / 64) mod 64);
   ascii_of_N (128 + code mod 64)].

(** The pairs are joined from left to right. *)
Fixpoint join_units (l : list ascii) : list ascii :=
  match l with
  | [] => []
  | a :: t =>
      match t with
      | b :: c :: d :: e :: f :: rest =>
          if is_high_surrogate a b c && is_low_surrogate d e f
          then (joined b c e f ++ join_units rest)%list
          else a :: join_units t
      | _ => a :: join_units t
      end
  end.

(** A lead byte of a character on four bytes. *)
Definition is_lead4 (a : ascii) : bool := (240 <=? byte a)%N.

Definition join_surrogates (s : string) : string :=
  string_of_list_ascii (join_units (list_ascii_of_string s)).

Definition has_surrogate_pair (s : string) : bool :=
  has_pair (list_ascii_of_string s).



(** [json.loads(text)]: arrays become lists, objects become dictionaries
    with string keys (a repeated member name keeps its last value). *)
Fixpoint json_loads (j : json) : pyval :=
  match j with
  | JNull => PyNone
  | JBool b => PyBool b
  | JNum z => PyInt z
  | JStr s => PyStr (join_surrogates s)
  | JArr l => PyList (map json_loads l)
  | JObj m =>
      PyDict (dict_of_pairs pykey_eqb
                (map (fun p => let '(k, x) := p in
                               (KStr (join_surrogates k), json_loads x)) m))
  | JFloat x => PyFloat x
  end.


Definition is_text_key (k : pykey) : bool :=
  match k with KStr s => negb (has_surrogate_pair s) | _ => false end.

Fixpoint distinct_keys (ks : list pykey) : bool :=
  match ks with
  | [] => true
  | k :: r => negb (existsb (pykey_eqb k) r) && distinct_keys r
  end.

Fixpoint json_shaped (v : pyval) : bool :=
  match v with
  | PyNone | PyBool _ | PyInt _ | PyFloat _ => true
  | PyStr s => negb (has_surrogate_pair s)
  | PyList l => forallb json_shaped l
  | PyTuple _ => false
  | PyDict d =>
      forallb is_text_key (map fst d) && distinct_keys (map fst d)
      && forallb (fun p => json_shaped (snd p)) d
  | PyBytes _ => false
  end.

(* ------------------------------------------------------------------ *)
(** *** Python's [==]

    The numbers ([bool], [int], [float]) are compared by value, whatever
    their type; a NaN equals nothing, itself included.  Lists and tuples
    are equal when they have the same type and equal elements at every
    place, dictionaries when they have the same keys with equal values.
    ([==] is taken between values that share no object: a container
    holds an element equal to itself without asking it.) *)






(* ================================================================== *)
(** ** The store *)

(** A row of [list_store].  The rows are kept in [id] order, the order
    in which SQLite hands them out: an INSERT adds a row at the end, an
    UPDATE changes a row where it stands. *)
Record list_row : Type := mk_row {
  list_name : string;
  item_index : Z;
  item_value : json
}.

(** A table of the database file other than [kv_store] and [list_store],
    as [sqlite_master] lists it.  [table_readable] is [false] for a table
    on which [PRAGMA table_info] or [SELECT *] raises
    [sqlite3.OperationalError] (the statement is built by pasting the
    table name into the SQL text, and a table can vanish between the
    listing and the read). *)
Record foreign_table : Type := mk_table {
  table_name : string;
  table_columns : list string;
  table_rows : list (list pyval);
  table_readable : bool
}.

(** The database file together with the instance dictionary of the
    [EasyDB] object. *)
Record db : Type := mk_db {
  kv_store : list (string * json);
  list_store : list list_row;
  tables : list foreign_table;
  attrs : list (string * pyval)
}.

Definition with_kv (s : db) (kv : list (string * json)) : db :=
  mk_db kv (list_store s) (tables s) (attrs s).

Definition with_rows (s : db) (rows : list list_row) : db :=
  mk_db (kv_store s) rows (tables s) (attrs s).

Definition with_attrs (s : db) (a : list (string * pyval)) : db :=
  mk_db (kv_store s) (list_store s) (tables s) a.

(** The exceptions the code raises or lets through. *)
Inductive exn : Type :=
| KeyError
| IndexError
| AttributeError
| TypeError
| IntegrityError
| OperationalError
| OverflowError
| Failure (msg : string).

Inductive res (A : Type) : Type :=
| Ok (a : A)
| Raise (e : exn).
Arguments Ok {A} a.
Arguments Raise {A} e.

(** A method call: an outcome and the store it leaves behind.  A method
    that raises before [conn.commit()] leaves the store as it found it. *)
Definition M (A : Type) : Type := db -> res A * db.

Definition ret {A : Type} (a : A) : M A := fun s => (Ok a, s).
Definition raise {A : Type} (e : exn) : M A := fun s => (Raise e, s).
Definition bind {A B : Type} (m : M A) (f : A -> M B) : M B :=
  fun s =>
    match m s with
    | (Ok a, s') => f a s'
    | (Raise e, s') => (Raise e, s')
    end.

Notation "x <- m ;; k" := (bind m (fun x => k))
  (at level 61, m at next level, right associativity).
Notation "m ;;; k" := (bind m (fun _ => k))
  (at level 61, right associativity).

(** [COUNT( * ) ... WHERE list_name = ?] and the rows it counts. *)
Definition rows_of (name : string) (rows : list list_row) : list list_row :=
  filter (fun r => String.eqb (list_name r) name) rows.

Definition count_rows (name : string) (rows : list list_row) : Z :=
  Z.of_nat (List.length (rows_of name rows)).

(** [WHERE list_name = ? AND item_index = ?]. *)
Definition at_index (name : string) (index : Z) (r : list_row) : bool :=
  String.eqb (list_name r) name && Z.eqb (item_index r) index.

Definition find_row (name : string) (index : Z) (rows : list list_row)
  : option list_row := find (at_index name index) rows.

(** [ORDER BY item_index]: a stable sort on the index (rows of equal
    index, which UNIQUE(list_name, item_index) excludes within a list,
    would stay in [id] order). *)
Fixpoint insert_row (r : list_row) (l : list list_row) : list list_row :=
  match l with
  | [] => [r]
  | x :: t =>
      if item_index r <=? item_index x then r :: l else x :: insert_row r t
  end.

Fixpoint order_by_index (l : list list_row) : list list_row :=
  match l with
  | [] => []
  | r :: t => insert_row r (order_by_index t)
  end.

(* ------------------------------------------------------------------ *)
(** *** Scalar operations *)

Definition remove_key (key : string) (kv : list (string * json))
  : list (string * json) :=
  filter (fun p => negb (String.eqb (fst p) key)) kv.

(** [INSERT OR REPLACE INTO kv_store]: the row of the key, if any, is
    deleted and the new row is inserted. *)
Definition _set_key_value (key : string) (value : pyval) : M unit :=
  fun s =>
    match json_dumps value with
    | None => (Raise TypeError, s)
    | Some value_str =>
        (Ok tt, with_kv s (remove_key key (kv_store s) ++ [(key, value_str)]))
    end.

Definition _get_key_value (key : string) : M pyval :=
  fun s =>
    match dict_get String.eqb (kv_store s) key with
    | None => (Raise KeyError, s)
    | Some value_str => (Ok (json_loads value_str), s)
    end.

Definition __setitem__ (key : string) (value : pyval) : M unit :=
  _set_key_value key value.

Definition __getitem__ (key : string) : M pyval := _get_key_value key.

Definition __delitem__ (key : string) : M unit :=
  fun s =>
    match dict_get String.eqb (kv_store s) key with
    | None => (Raise KeyError, s)
    | Some _ => (Ok tt, with_kv s (remove_key key (kv_store s)))
    end.

Definition __contains__ (key : string) : M bool :=
  fun s =>
    match __getitem__ key s with
    | (Ok _, s') => (Ok true, s')
    | (Raise KeyError, s') => (Ok false, s')
    | (Raise e, s') => (Raise e, s')
    end.

(* ------------------------------------------------------------------ *)
(** *** List operations *)

(** [INSERT INTO list_store]: the UNIQUE(list_name, item_index)
    constraint rejects a second row at the same place. *)
Definition sql_insert (name : string) (index : Z) (value : json)
           (rows : list list_row) : res (list list_row) :=
  match find_row name index rows with
  | Some _ => Raise IntegrityError
  | None => Ok (rows ++ [mk_row name index value])%list
  end.

(** The loop of [_set_list]: [for index, item in enumerate(items)]. *)
Fixpoint insert_items (name : string) (index : Z) (items : list pyval)
         (rows : list list_row) : res (list list_row) :=
  match items with
  | [] => Ok rows
  | item :: rest =>
      match json_dumps item with
      | None => Raise TypeError
      | Some item_str =>
          match sql_insert name index item_str rows with
          | Ok rows' => insert_items name (index + 1) rest rows'
          | Raise e => Raise e
          end
      end
  end.

Definition delete_list (name : string) (rows : list list_row) : list list_row :=
  filter (fun r => negb (String.eqb (list_name r) name)) rows.

Definition _set_list (name : string) (items : list pyval) : M unit :=
  fun s =>
    match insert_items name 0 items (delete_list name (list_store s)) with
    | Ok rows' => (Ok tt, with_rows s rows')
    | Raise e => (Raise e, s)
    end.

Definition _is_list (name : string) : M bool :=
  fun s => (Ok (0 <? count_rows name (list_store s)), s).

(** [list_create] does nothing. *)
Definition list_create (name : string) : M unit := ret tt.

Definition list_append (name : string) (item : pyval) : M unit :=
  fun s =>
    let index := count_rows name (list_store s) in
    match json_dumps item with
    | None => (Raise TypeError, s)
    | Some item_str =>
        match sql_insert name index item_str (list_store s) with
        | Ok rows' => (Ok tt, with_rows s rows')
        | Raise e => (Raise e, s)
        end
    end.

Definition list_get (name : string) : M (list pyval) :=
  fun s =>
    (Ok (map (fun r => json_loads (item_value r))
             (order_by_index (rows_of name (list_store s)))), s).

(** [UPDATE list_store SET item_value = ? WHERE list_name = ? AND
    item_index = ?]. *)
Definition update_value (name : string) (index : Z) (value : json)
           (rows : list list_row) : list list_row :=
  map (fun r => if at_index name index r
                then mk_row (list_name r) (item_index r) value else r) rows.

Definition rowcount (name : string) (index : Z) (rows : list list_row) : Z :=
  Z.of_nat (List.length (filter (at_index name index) rows)).

(** An index is bound to a statement as a signed 64-bit INTEGER:
    [sqlite3] raises [OverflowError] for a Python [int] outside that
    range, before the statement runs.  The [item_index] of a stored row
    is such an INTEGER, so a statement with an index outside the range
    would select no row; the methods test the range where they find
    none. *)
Definition in_int64 (index : Z) : bool :=
  (- 2 ^ 63 <=? index) && (index <? 2 ^ 63).

Definition list_set (name : string) (index : Z) (item : pyval) : M unit :=
  fun s =>
    match json_dumps item with
    | None => (Raise TypeError, s)
    | Some item_str =>
        if rowcount name index (list_store s) =? 0 then
          if in_int64 index then
            let count := count_rows name (list_store s) in
            if index >=? count
            then (Raise IndexError, s)
            else (Raise (Failure "Failed to update list item"), s)
          else (Raise OverflowError, s)
        else (Ok tt, with_rows s (update_value name index item_str (list_store s)))
    end.

Definition list_get_item (name : string) (index : Z) : M pyval :=
  fun s =>
    match find_row name index (list_store s) with
    | None =>
        if in_int64 index then (Raise IndexError, s)
        else (Raise OverflowError, s)
    | Some r => (Ok (json_loads (item_value r)), s)
    end.

(** [UPDATE list_store SET item_index = item_index - 1 WHERE list_name = ?
    AND item_index > ?].  SQLite changes the rows it selects one by one,
    in [id] order, and checks UNIQUE(list_name, item_index) at each of
    them: a row whose new place is held by another row at that moment
    ends the statement with [IntegrityError].  [done] holds the rows
    already visited, [todo] the rows still to visit. *)
Fixpoint update_indices (name : string) (index : Z)
         (done todo : list list_row) : res (list list_row) :=
  match todo with
  | [] => Ok done
  | r :: rest =>
      if String.eqb (list_name r) name && (index <? item_index r) then
        match find_row name (item_index r - 1) (done ++ rest) with
        | Some _ => Raise IntegrityError
        | None =>
            update_indices name index
              (done ++ [mk_row (list_name r) (item_index r - 1) (item_value r)])
              rest
        end
      else update_indices name index (done ++ [r]) rest
  end.

(** The rows after that UPDATE when no row is refused: every index
    above [index] is one less. *)
Definition shift_down (name : string) (index : Z) (rows : list list_row)
  : list list_row :=
  map (fun r => if String.eqb (list_name r) name && (index <? item_index r)
                then mk_row (list_name r) (item_index r - 1) (item_value r)
                else r) rows.

Definition delete_at (name : string) (index : Z) (rows : list list_row)
  : list list_row :=
  filter (fun r => negb (at_index name index r)) rows.

(** The DELETE is not committed when the UPDATE raises. *)
Definition list_remove (name : string) (index : Z) : M unit :=
  fun s =>
    match find_row name index (list_store s) with
    | None =>
        if in_int64 index then (Raise IndexError, s)
        else (Raise OverflowError, s)
    | Some _ =>
        match update_indices name index [] (delete_at name index (list_store s)) with
        | Ok rows' => (Ok tt, with_rows s rows')
        | Raise e => (Raise e, s)
        end
    end.

Definition list_len (name : string) : M Z :=
  fun s => (Ok (count_rows name (list_store s)), s).

(* ------------------------------------------------------------------ *)
(** *** The list facade [EasyDBList] *)

Module EasyDBList.

(** The handle holds the name of its list (and the one store). *)
Definition __getitem__ (self : string) (index : Z) : M pyval :=
  list_get_item self index.

(** [for i in range(length, index): list_append(name, None)]. *)
Fixpoint append_none (self : string) (n : nat) : M unit :=
  match n with
  | O => ret tt
  | S n' => list_append self PyNone ;;; append_none self n'
  end.

Definition __setitem__ (self : string) (index : Z) (item : pyval) : M unit :=
  length <- list_len self ;;
  if index >=? length then
    append_none self (Z.to_nat (index - length)) ;;;
    list_append self item
  else list_set self index item.

Definition __len__ (self : string) : M Z := list_len self.

Definition append (self : string) (item : pyval) : M unit :=
  list_append self item.

Definition remove (self : string) (index : Z) : M unit :=
  list_remove self index.

End EasyDBList.

(* ------------------------------------------------------------------ *)
(** *** Enumerating the scalar table *)

(** The order of an index on a TEXT column: ascending byte by byte
    (the BINARY collation), a proper prefix first. *)
Fixpoint insert_key (k : string) (l : list string) : list string :=
  match l with
  | [] => [k]
  | x :: t => if String.leb k x then k :: l else x :: insert_key k t
  end.

Fixpoint sort_keys (l : list string) : list string :=
  match l with
  | [] => []
  | k :: t => insert_key k (sort_keys t)
  end.

(** [SELECT key FROM kv_store] asks for the indexed column alone: SQLite
    answers it from the index of the PRIMARY KEY, in the order of the
    keys.  [SELECT value] and [SELECT key, value] need the table and
    yield its rows in the order they are stored. *)
Definition keys : M (list string) :=
  fun s => (Ok (sort_keys (map fst (kv_store s))), s).


Definition items : M (list (string * pyval)) :=
  fun s => (Ok (map (fun p => (fst p, json_loads (snd p))) (kv_store s)), s).

(* ------------------------------------------------------------------ *)
(** *** The snapshot: [_get_all_data] *)

(** The dictionary [all_data]: name to value, in insertion order. *)
Definition snapshot : Type := list (string * pyval).

(** [SELECT DISTINCT list_name FROM list_store], answered from the
    index of UNIQUE(list_name, item_index): every name once, in the order
    of the names. *)
Definition distinct_list_names (rows : list list_row) : list string :=
  sort_keys (nodup string_dec (map list_name rows)).

Definition is_internal_table (name : string) : bool :=
  existsb (String.eqb name) ["kv_store"; "list_store"; "sqlite_sequence"].

(** One row of a foreign table as a dictionary column name to cell
    ([SELECT *] yields one cell per column). *)
Definition row_dict (columns : list string) (row : list pyval) : pyval :=
  PyDict (dict_of_pairs pykey_eqb (combine (map KStr columns) row)).

Definition table_data (t : foreign_table) : pyval :=
  PyList (map (row_dict (table_columns t)) (table_rows t)).

(** The body of the third [try]: the loop over the tables of
    [sqlite_master].  An [OperationalError] raised while a table is read
    leaves the loop; the dictionary keeps what was stored before. *)
Fixpoint read_tables (ts : list foreign_table) (all_data : snapshot)
  : res unit * snapshot :=
  match ts with
  | [] => (Ok tt, all_data)
  | t :: rest =>
      if is_internal_table (table_name t) then read_tables rest all_data
      else if table_readable t then
        read_tables rest
          (dict_set String.eqb all_data (table_name t) (table_data t))
      else (Raise OperationalError, all_data)
  end.

(** [self.list_get(list_name)], as the value stored in [all_data]. *)
Definition list_value (name : string) (rows : list list_row) : pyval :=
  PyList (map (fun r => json_loads (item_value r))
              (order_by_index (rows_of name rows))).

(** The scalars first, then every list under its name, then the other
    tables; a later entry replaces an earlier one of the same name.  The
    first two [try] blocks guard against a missing [kv_store] or
    [list_store]; a [db] always has both.  The third one swallows the
    [OperationalError] of the loop over the tables. *)
Definition _get_all_data : M snapshot :=
  fun s =>
    let all_data :=
      fold_left (fun d p => dict_set String.eqb d (fst p) (json_loads (snd p)))
                (kv_store s) [] in
    let all_data :=
      fold_left (fun d name =>
                   dict_set String.eqb d name (list_value name (list_store s)))
                (distinct_list_names (list_store s)) all_data in
    match read_tables (tables s) all_data with
    | (Ok _, all_data) => (Ok all_data, s)
    | (Raise OperationalError, all_data) => (Ok all_data, s)
    | (Raise e, _) => (Raise e, s)
    end.

(* ------------------------------------------------------------------ *)
(** *** The report: [_generate_html_report]

    The report is modelled by its content: the two overview counters, the
    entries of the "EasyDB data" section and the tables of the "data
    tables" section.  Markup, styling, the time stamp and the rendering
    of a cell as text ([str], [html.escape], the cut at 100 characters)
    are left out. *)

Record table_view : Type := mk_view {
  tv_name : string;
  tv_total : Z;                   (* the row count of the heading *)
  tv_columns : list string;       (* the header cells *)
  tv_rows : list (list pyval);    (* the body rows, cell by cell *)
  tv_notice : option Z            (* the "only the first 10 of N" note *)
}.

Record report : Type := mk_report {
  overview_tables : Z;
  overview_easydb : Z;
  easydb_section : list (string * pyval);
  table_section : list table_view
}.

(** [isinstance(v, list) and len(v) > 0 and isinstance(v[0], dict)]. *)
Definition is_table_like (v : pyval) : bool :=
  match v with
  | PyList (PyDict _ :: _) => true
  | _ => false
  end.

(** [html.escape(col)] needs a [str]. *)
Fixpoint header_cells (columns : list pykey) : res (list string) :=
  match columns with
  | [] => Ok []
  | KStr c :: rest =>
      match header_cells rest with
      | Ok cs => Ok (c :: cs)
      | Raise e => Raise e
      end
  | _ :: _ => Raise AttributeError
  end.

(** [row.get(col, '')] for every column: a row that is not a
    dictionary has no [get].  The call is made inside the loop over the
    columns, so with no column nothing is asked of the row. *)
Definition body_row (columns : list pykey) (row : pyval) : res (list pyval) :=
  match columns with
  | [] => Ok []
  | _ :: _ =>
      match row with
      | PyDict d =>
          Ok (map (fun col => match dict_get pykey_eqb d col with
                              | Some value => value
                              | None => PyStr ""
                              end) columns)
      | _ => Raise AttributeError
      end
  end.

Fixpoint body_rows (columns : list pykey) (rows : list pyval)
  : res (list (list pyval)) :=
  match rows with
  | [] => Ok []
  | row :: rest =>
      match body_row columns row with
      | Raise e => Raise e
      | Ok cells =>
          match body_rows columns rest with
          | Ok more => Ok (cells :: more)
          | Raise e => Raise e
          end
      end
  end.

Definition render_table (name : string) (v : pyval) : res table_view :=
  match v with
  | PyList ((PyDict first :: _) as rows) =>
      let columns := map fst first in
      match header_cells columns with
      | Raise e => Raise e
      | Ok head =>
          match body_rows columns (firstn 10 rows) with
          | Raise e => Raise e
          | Ok body =>
              let total := Z.of_nat (List.length rows) in
              Ok (mk_view name total head body
                    (if 10 <? total then Some total else None))
          end
      end
  | PyList [] =>
      (* [if rows:] fails: the "table is empty" paragraph *)
      Ok (mk_view name 0 [] [] None)
  | PyList (_ :: _) => Raise AttributeError   (* [rows[0].keys()] *)
  | _ => Raise TypeError                      (* [len(rows)] *)
  end.

Fixpoint render_tables (entries : snapshot) : res (list table_view) :=
  match entries with
  | [] => Ok []
  | (name, v) :: rest =>
      match render_table name v with
      | Raise e => Raise e
      | Ok view =>
          match render_tables rest with
          | Ok views => Ok (view :: views)
          | Raise e => Raise e
          end
      end
  end.

(** The "EasyDB data" entries are written with [json.dumps(value,
    indent=2)]. *)
Fixpoint render_entries (entries : snapshot) : res (list (string * pyval)) :=
  match entries with
  | [] => Ok []
  | (key, value) :: rest =>
      match json_dumps value with
      | None => Raise TypeError
      | Some _ =>
          match render_entries rest with
          | Ok more => Ok ((key, value) :: more)
          | Raise e => Raise e
          end
      end
  end.

Definition render_report (all_data : snapshot) : res report :=
  let easydb_data := filter (fun p => negb (is_table_like (snd p))) all_data in
  let table_data := filter (fun p => is_table_like (snd p)) all_data in
  match render_entries easydb_data with
  | Raise e => Raise e
  | Ok entries =>
      match render_tables table_data with
      | Raise e => Raise e
      | Ok views =>
          Ok (mk_report (Z.of_nat (List.length table_data))
                        (Z.of_nat (List.length easydb_data))
                        entries views)
      end
  end.

Definition _generate_html_report : M report :=
  all_data <- _get_all_data ;;
  fun s => (render_report all_data, s).

(* ------------------------------------------------------------------ *)
(** *** The attribute router *)

Definition starts_with_underscore (name : string) : bool :=
  String.prefix "_" name.

(** [super().__setattr__(name, value)]: the instance dictionary. *)
Definition object_setattr (name : string) (value : pyval) : M unit :=
  fun s => (Ok tt, with_attrs s (dict_set String.eqb (attrs s) name value)).

Definition __setattr__ (name : string) (value : pyval) : M unit :=
  if starts_with_underscore name || existsb (String.eqb name) ["db_name"]
  then object_setattr name value
  else if negb (starts_with_underscore name) then
    match value with
    | PyList items => _set_list name items
    | _ => _set_key_value name value
    end
  else object_setattr name value.

(** What reading an attribute yields. *)
Inductive attr_value : Type :=
| AllData (all_data : snapshot)
| HtmlReport (r : report)
| ListView (name : string)          (* [EasyDBList(self, name)] *)
| Value (v : pyval)
| Method (name : string).           (* a bound method of the class *)

Definition __getattr__ (name : string) : M attr_value :=
  if String.eqb name "all_data" then
    d <- _get_all_data ;; ret (AllData d)
  else if String.eqb name "html_report" then
    r <- _generate_html_report ;; ret (HtmlReport r)
  else
    is_list <- _is_list name ;;
    if (is_list : bool) then ret (ListView name)
    else
      fun s =>
        match _get_key_value name s with
        | (Ok v, s') => (Ok (Value v), s')
        | (Raise KeyError, s') => (Raise AttributeError, s')
        | (Raise e, s') => (Raise e, s')
        end.

(** The names the class body of [EasyDB] defines. *)
Definition class_attributes : list string :=
  ["__init__"; "_initialize_database"; "__setitem__"; "__getitem__";
   "__delitem__"; "__contains__"; "__setattr__"; "__getattr__";
   "_set_key_value"; "_get_key_value"; "_set_list"; "_is_list";
   "_get_all_data"; "_generate_html_report"; "_get_current_time";
   "keys"; "values"; "items"; "list_create"; "list_append"; "list_get";
   "list_set"; "list_get_item"; "list_remove"; "list_len"].

(** The expression [db.name]: Python looks the name up in the instance
    dictionary and in the class, and calls [__getattr__] only when both
    fail.  (The attributes every object inherits from [object] all start
    with two underscores; they are not listed.) *)
Definition attribute_read (name : string) : M attr_value :=
  fun s =>
    match dict_get String.eqb (attrs s) name with
    | Some v => (Ok (Value v), s)
    | None =>
        if existsb (String.eqb name) class_attributes
        then (Ok (Method name), s)
        else __getattr__ name s
    end.

(** The statement [db.name = value]. *)
Definition attribute_write (name : string) (value : pyval) : M unit :=
  __setattr__ name value.

(** A database file that holds nothing yet, seen from an object that
    has no attribute yet. *)
Definition empty_file : db := mk_db [] [] [] [].

(** [CREATE TABLE IF NOT EXISTS] for the two tables: a [db] always has
    them, so there is nothing to do. *)
Definition _initialize_database : M unit := ret tt.

Definition __init__ (db_name : string) : M unit :=
  __setattr__ "db_name" (PyStr db_name) ;;;
  _initialize_database.

(** [EasyDB(db_name)] on a file that does not exist yet. *)
Definition EasyDB (db_name : string) : db := snd (__init__ db_name empty_file).

(* ------------------------------------------------------------------ *)
(** *** Induction on values *)

Section PyvalInduction.

Variable P : pyval -> Prop.
Hypothesis HNone : P PyNone.
Hypothesis HBool : forall b, P (PyBool b).
Hypothesis HInt : forall z, P (PyInt z).
Hypothesis HStr : forall s, P (PyStr s).
Hypothesis HList : forall l, Forall P l -> P (PyList l).
Hypothesis HTuple : forall l, Forall P l -> P (PyTuple l).
Hypothesis HDict : forall d, Forall (fun p => P (snd p)) d -> P (PyDict d).
Hypothesis HBytes : forall b, P (PyBytes b).
Hypothesis HFloat : forall x, P (PyFloat x).

(** Induction on a value with the hypothesis available for every
    element of a list or tuple and every value of a dictionary. *)
Fixpoint pyval_nested_ind (v : pyval) : P v :=
  match v with
  | PyNone => HNone
  | PyBool b => HBool b
  | PyInt z => HInt z
  | PyStr s => HStr s
  | PyList l =>
      HList l ((fix all (l : list pyval) : Forall P l :=
                  match l with
                  | [] => Forall_nil _
                  | x :: r => Forall_cons x (pyval_nested_ind x) (all r)
                  end) l)
  | PyTuple l =>
      HTuple l ((fix all (l : list pyval) : Forall P l :=
                   match l with
                   | [] => Forall_nil _
                   | x :: r => Forall_cons x (pyval_nested_ind x) (all r)
                   end) l)
  | PyDict d =>
      HDict d ((fix all (d : list (pykey * pyval))
                  : Forall (fun p => P (snd p)) d :=
                  match d with
                  | [] => Forall_nil _
                  | p :: r =>
                      Forall_cons p (pyval_nested_ind (snd p)) (all r)
                  end) d)
  | PyBytes b => HBytes b
  | PyFloat x => HFloat x
  end.

End PyvalInduction.


(* ------------------------------------------------------------------ *)
(** *** The list invariant and the operations that write *)

(** The [item_index] values stored for a list. *)
Definition indices (name : string) (rows : list list_row) : list Z :=
  map item_index (rows_of name rows).

(** The indices of a list are exactly the range [[0, count)], [count]
    being the number of its rows. *)
Definition contiguous (name : string) (rows : list list_row) : Prop :=
  forall i, In i (indices name rows) <-> 0 <= i < count_rows name rows.

Definition list_invariant (s : db) : Prop :=
  forall name, contiguous name (list_store s).

(** The calls that can change the store. *)
Inductive operation : Type :=
| OpSetItem (key : string) (value : pyval)          (* db[key] = value *)
| OpDelItem (key : string)                          (* del db[key] *)
| OpSetAttr (name : string) (value : pyval)         (* db.name = value *)
| OpSetList (name : string) (items : list pyval)    (* _set_list *)
| OpListCreate (name : string)
| OpListAppend (name : string) (item : pyval)
| OpListSet (name : string) (index : Z) (item : pyval)
| OpListRemove (name : string) (index : Z)
| OpViewSetItem (name : string) (index : Z) (item : pyval) (* db.name[i] = v *)
| OpViewAppend (name : string) (item : pyval)
| OpViewRemove (name : string) (index : Z).

Definition run (op : operation) : M unit :=
  match op with
  | OpSetItem key value => __setitem__ key value
  | OpDelItem key => __delitem__ key
  | OpSetAttr name value => __setattr__ name value
  | OpSetList name items => _set_list name items
  | OpListCreate name => list_create name
  | OpListAppend name item => list_append name item
  | OpListSet name index item => list_set name index item
  | OpListRemove name index => list_remove name index
  | OpViewSetItem name index item => EasyDBList.__setitem__ name index item
  | OpViewAppend name item => EasyDBList.append name item
  | OpViewRemove name index => EasyDBList.remove name index
  end.

(** [range n] is the list [0; 1; ...; n-1]. *)
Definition range (n : nat) : list Z := map Z.of_nat (seq 0 n).

(** A list with the element at position [i] taken out. *)
Definition without_nth {A : Type} (i : nat) (l : list A) : list A :=
  (firstn i l ++ skipn (S i) l)%list.

(** A list with the element at position [i] replaced. *)
Definition with_nth {A : Type} (i : nat) (x : A) (l : list A) : list A :=
  (firstn i l ++ x :: skipn (S i) l)%list.


(** A computation keeps a property [P] of the rows of every list,
    whether it returns or raises. *)
Definition keeps {A : Type} (P : string -> list list_row -> Prop) (m : M A)
  : Prop :=
  forall s, (forall name, P name (list_store s)) ->
            forall name, P name (list_store (snd (m s))).

(** A computation keeps the list invariant. *)
Definition preserves {A : Type} (m : M A) : Prop := keeps contiguous m.

(** The rows of a list lie in the table in the order of their indices
    [0; 1; ...; count-1]. *)
Definition in_order (name : string) (rows : list list_row) : Prop :=
  indices name rows = range (List.length (rows_of name rows)).

(** [item_index - 1] for the indices above a removed one. *)
Definition renumber (index j : Z) : Z := if index <? j then j - 1 else j.

(** Rows in the order of their indices. *)
Definition sorted (l : list list_row) : Prop :=
  StronglySorted Z.le (map item_index l).


(* ------------------------------------------------------------------ *)
(** *** Names *)

(** The names [__setattr__] keeps on the instance. *)
Definition is_internal_name (name : string) : bool :=
  starts_with_underscore name || existsb (String.eqb name) ["db_name"].

(** The names [__getattr__] computes. *)
Definition is_reserved_name (name : string) : bool :=
  String.eqb name "all_data" || String.eqb name "html_report".

(** A name that the router sends to the two tables on write and on
    read: not internal, not reserved, not a method of the class. *)
Definition is_data_name (name : string) : bool :=
  negb (is_internal_name name) && negb (is_reserved_name name)
  && negb (existsb (String.eqb name) class_attributes).

(** The instance dictionary holds internal names only; [__setattr__]
    puts no other name there. *)
Definition attrs_internal (s : db) : bool :=
  forallb (fun p => is_internal_name (fst p)) (attrs s).

(** [isinstance(value, list)]. *)
Definition is_pylist (v : pyval) : bool :=
  match v with PyList _ => true | _ => false end.



Section JsonInduction.

Variable P : json -> Prop.
Hypothesis HNull : P JNull.
Hypothesis HBool : forall b, P (JBool b).
Hypothesis HNum : forall z, P (JNum z).
Hypothesis HStr : forall s, P (JStr s).
Hypothesis HArr : forall l, Forall P l -> P (JArr l).
Hypothesis HObj : forall m, Forall (fun p => P (snd p)) m -> P (JObj m).
Hypothesis HFloat : forall x, P (JFloat x).

(** Induction on a document with the hypothesis available for every
    element of an array and every member of an object. *)
Fixpoint json_nested_ind (j : json) : P j :=
  match j with
  | JNull => HNull
  | JBool b => HBool b
  | JNum z => HNum z
  | JStr s => HStr s
  | JArr l =>
      HArr l ((fix all (l : list json) : Forall P l :=
                 match l with
                 | [] => Forall_nil _
                 | x :: r => Forall_cons x (json_nested_ind x) (all r)
                 end) l)
  | JObj m =>
      HObj m ((fix all (m : list (string * json))
                 : Forall (fun p => P (snd p)) m :=
                 match m with
                 | [] => Forall_nil _
                 | p :: r => Forall_cons p (json_nested_ind (snd p)) (all r)
                 end) m)
  | JFloat x => HFloat x
  end.

End JsonInduction.

(** A value [json.dumps] accepts. *)
Definition serializable (v : pyval) : Prop := json_dumps v <> None.


(** The stores the methods can produce, starting on a database file in
    which another program may have left tables of its own. *)
Inductive reachable : db -> Prop :=
| reach_new (db_name : string) (ts : list foreign_table) :
    reachable (snd (__init__ db_name (mk_db [] [] ts [])))
| reach_run (op : operation) (s : db) :
    reachable s -> reachable (snd (run op s)).

(* ------------------------------------------------------------------ *)
(** *** Notions used by the further properties *)

(** A computation that writes to [list_store] only: the scalar table,
    the other tables and the instance dictionary are as before. *)
Definition writes_rows_only {A : Type} (m : M A) : Prop :=
  forall s, exists rows, snd (m s) = with_rows s rows.

(** [for item in items: db.list_append(name, item)], the loop of the
    usage example. *)
Fixpoint append_all (name : string) (items : list pyval) : M unit :=
  match items with
  | [] => ret tt
  | item :: rest => list_append name item ;;; append_all name rest
  end.

(** [isinstance(v, dict)]. *)
Definition is_pydict (v : pyval) : bool :=
  match v with PyDict _ => true | _ => false end.

(** A computation that leaves the rows of every list but [name] as
    they are. *)
Definition keeps_other_lists {A : Type} (name : string) (m : M A) : Prop :=
  forall s n, n <> name ->
              rows_of n (list_store (snd (m s))) = rows_of n (list_store s).

(** The list an operation is called on, for the operations on lists. *)
Definition list_of (op : operation) : option string :=
  match op with
  | OpSetItem _ _ | OpDelItem _ | OpSetAttr _ _ => None
  | OpSetList name _ | OpListCreate name | OpListAppend name _
  | OpListSet name _ _ | OpListRemove name _
  | OpViewSetItem name _ _ | OpViewAppend name _ | OpViewRemove name _ =>
      Some name
  end.

(** What a rendered table shows of its entry. *)
Definition shows (p : string * pyval) (tv : table_view) : Prop :=
  exists rows,
    snd p = PyList rows
    /\ tv_name tv = fst p
    /\ tv_total tv = Z.of_nat (List.length rows)
    /\ List.length (tv_rows tv) = Nat.min 10 (List.length rows)
    /\ Forall (fun cells => List.length cells = List.length (tv_columns tv))
              (tv_rows tv)
    /\ tv_notice tv
       = if 10 <? Z.of_nat (List.length rows)
         then Some (Z.of_nat (List.length rows)) else None.



(* ================================================================== *)
(** * Properties *)

(* ------------------------------------------------------------------ *)
(** ** The usage example at the end of [easydb.py] *)

(** [db['name'] = ...; db['age'] = 25; db['hobbies'] = [...]], then the
    reads and the membership test. *)
Example usage_scalars :
  let script :=
    __setitem__ "name" (PyStr "Zhang San") ;;;
    __setitem__ "age" (PyInt 25) ;;;
    __setitem__ "hobbies" (PyList [PyStr "reading"; PyStr "swimming"]) ;;;
    name <- __getitem__ "name" ;;
    age <- __getitem__ "age" ;;
    hobbies <- __getitem__ "hobbies" ;;
    present <- __contains__ "name" ;;
    absent <- __contains__ "nobody" ;;
    all <- items ;;
    ret (name, age, hobbies, present, absent, all) in
  fst (script (EasyDB "example.db"))
  = Ok (PyStr "Zhang San", PyInt 25,
        PyList [PyStr "reading"; PyStr "swimming"], true, false,
        [("name", PyStr "Zhang San"); ("age", PyInt 25);
         ("hobbies", PyList [PyStr "reading"; PyStr "swimming"])]).
Proof. reflexivity. Qed.

(** [for i in range(5): db.list_append('numbers', i * 2)], then
    [list_set('numbers', 2, 100)], [list_get_item('numbers', 0)] and
    [list_remove('numbers', 1)]. *)
Example usage_numbers :
  let script :=
    list_create "numbers" ;;;
    list_append "numbers" (PyInt 0) ;;;
    list_append "numbers" (PyInt 2) ;;;
    list_append "numbers" (PyInt 4) ;;;
    list_append "numbers" (PyInt 6) ;;;
    list_append "numbers" (PyInt 8) ;;;
    before <- list_get "numbers" ;;
    len <- list_len "numbers" ;;
    list_set "numbers" 2 (PyInt 100) ;;;
    changed <- list_get "numbers" ;;
    first <- list_get_item "numbers" 0 ;;
    list_remove "numbers" 1 ;;;
    after <- list_get "numbers" ;;
    ret (before, len, changed, first, after) in
  fst (script (EasyDB "example.db"))
  = Ok ([PyInt 0; PyInt 2; PyInt 4; PyInt 6; PyInt 8], 5,
        [PyInt 0; PyInt 2; PyInt 100; PyInt 6; PyInt 8], PyInt 0,
        [PyInt 0; PyInt 100; PyInt 6; PyInt 8]).
Proof. reflexivity. Qed.

(** The attribute syntax of the docstrings: [db.tasks = [...]],
    [db.tasks[index] = item], [len(db.tasks)]. *)
Example usage_attributes :
  let script :=
    attribute_write "tasks" (PyList [PyStr "a"; PyStr "b"]) ;;;
    view <- attribute_read "tasks" ;;
    EasyDBList.__setitem__ "tasks" 3 (PyStr "d") ;;;
    len <- EasyDBList.__len__ "tasks" ;;
    item <- EasyDBList.__getitem__ "tasks" 2 ;;
    all <- list_get "tasks" ;;
    ret (view, len, item, all) in
  fst (script (EasyDB "example.db"))
  = Ok (ListView "tasks", 4, PyNone,
        [PyStr "a"; PyStr "b"; PyNone; PyStr "d"]).
Proof. reflexivity. Qed.

(* ------------------------------------------------------------------ *)
(** ** Serialization *)


Lemma pykey_eqb_eq (a b : pykey) : pykey_eqb a b = true <-> a = b.
Proof.
  destruct a, b; simpl; split; intro H; try discriminate; try reflexivity.
  - apply String.eqb_eq in H. now subst.
  - injection H as ->. apply String.eqb_refl.
  - apply Z.eqb_eq in H. now subst.
  - injection H as ->. apply Z.eqb_refl.
  - apply Bool.eqb_prop in H. now subst.
  - injection H as ->. apply Bool.eqb_reflx.
Qed.

Lemma pykey_eqb_sym (a b : pykey) : pykey_eqb a b = pykey_eqb b a.
Proof.
  destruct (pykey_eqb a b) eqn:E; symmetry.
  - apply pykey_eqb_eq in E. subst. now apply pykey_eqb_eq.
  - destruct (pykey_eqb b a) eqn:E'; [|reflexivity].
    apply pykey_eqb_eq in E'. subst.
    rewrite (proj2 (pykey_eqb_eq a a) eq_refl) in E. discriminate.
Qed.

(** Assigning a key the dictionary does not have adds it at the end. *)
Lemma dict_set_fresh {V : Type} (d : list (pykey * V)) k v :
  existsb (pykey_eqb k) (map fst d) = false ->
  dict_set pykey_eqb d k v = (d ++ [(k, v)])%list.
Proof.
  induction d as [|[k' v'] d IH]; simpl; intro H; [reflexivity|].
  apply orb_false_iff in H as [Hk Hd].
  rewrite pykey_eqb_sym, Hk. now rewrite IH.
Qed.

Lemma existsb_app_false {A : Type} (f : A -> bool) l1 l2 :
  existsb f l1 = false -> existsb f l2 = false ->
  existsb f (l1 ++ l2) = false.
Proof. intros H1 H2. now rewrite existsb_app, H1, H2. Qed.

(** Pairs with pairwise distinct keys, none of them in the dictionary
    so far, are added in order. *)
Lemma fold_dict_set_distinct {V : Type} (ps acc : list (pykey * V)) :
  distinct_keys (map fst ps) = true ->
  (forall k, In k (map fst ps) -> existsb (pykey_eqb k) (map fst acc) = false) ->
  fold_left (fun d p => dict_set pykey_eqb d (fst p) (snd p)) ps acc
  = (acc ++ ps)%list.
Proof.
  revert acc.
  induction ps as [|[k v] ps IH]; intros acc Hd Hacc; simpl.
  - now rewrite app_nil_r.
  - simpl in Hd. apply andb_true_iff in Hd as [Hk Hd].
    apply negb_true_iff in Hk.
    rewrite dict_set_fresh by (apply Hacc; now left).
    rewrite IH; [now rewrite <- app_assoc | assumption |].
    intros k' Hin. rewrite map_app. apply existsb_app_false.
    + apply Hacc. now right.
    + simpl. rewrite orb_false_r.
      destruct (pykey_eqb k' k) eqn:E; [|reflexivity].
      apply pykey_eqb_eq in E. subst k'.
      assert (existsb (pykey_eqb k) (map fst ps) = true) as Hex.
      { apply existsb_exists. exists k. split; [assumption|].
        now apply pykey_eqb_eq. }
      congruence.
Qed.

Lemma dict_of_pairs_distinct {V : Type} (ps : list (pykey * V)) :
  distinct_keys (map fst ps) = true ->
  dict_of_pairs pykey_eqb ps = ps.
Proof.
  intro H. unfold dict_of_pairs.
  now rewrite fold_dict_set_distinct.
Qed.

(* ------------------------------------------------------------------ *)
(** ** Surrogate pairs *)

Section Surrogates.

Ltac byte_facts :=
  repeat match goal with
         | H : (_ && _) = true |- _ => apply andb_true_iff in H as [? ?]
         | H : (_ <=? _)%N = true |- _ => apply N.leb_le in H
         | H : (_ =? _)%N = true |- _ => apply N.eqb_eq in H
         end.

Lemma join_units_step (a : ascii) (t : list ascii) :
  join_units (a :: t)
  = if starts_pair (a :: t)
    then match t with
         | b :: c :: d :: e :: f :: rest =>
             (joined b c e f ++ join_units rest)%list
         | _ => []
         end
    else a :: join_units t.
Proof.
  destruct t as [|b [|c [|d [|e [|f rest]]]]]; reflexivity.
Qed.

(** Without a pair nothing is joined. *)
Lemma join_units_free (l : list ascii) :
  has_pair l = false -> join_units l = l.
Proof.
  induction l as [|a t IH]; [reflexivity|].
  cbn [has_pair]. intro H. apply orb_false_iff in H as [Hs Ht].
  rewrite join_units_step, Hs. now rewrite IH.
Qed.

(** The first byte of a joined pair is a lead byte of four. *)
Lemma byte_of_N (n : N) : (n < 256)%N -> byte (ascii_of_N n) = n.
Proof. apply N_ascii_embedding. Qed.

Lemma joined_shape (a b c d e f : ascii) :
  is_high_surrogate a b c = true -> is_low_surrogate d e f = true ->
  exists g1 g2 g3 g4,
    joined b c e f = [g1; g2; g3; g4]
    /\ is_lead4 g1 = true
    /\ (byte g2 <= 191 /\ byte g3 <= 191 /\ byte g4 <= 191)%N.
Proof.
  unfold is_high_surrogate, is_low_surrogate, is_continuation.
  intros Hh Hl.
  byte_facts.
  unfold joined. cbv zeta. do 4 eexists. split; [reflexivity|].
  set (code := (65536 + ((byte b - 160) * 64 + (byte c - 128)) * 1024
                + ((byte e - 176) * 64 + (byte f - 128)))%N).
  assert (code < 1114112)%N as Hcode by (unfold code; lia).
  assert (code / 262144 <= 4)%N as Hq.
  { apply N.lt_succ_r. apply N.Div0.div_lt_upper_bound. lia. }
  assert (forall x, x mod 64 < 64)%N as Hm by (intro x; apply N.mod_lt; lia).
  pose proof (Hm (code / 4096)%N) as K1. pose proof (Hm (code / 64)%N) as K2.
  pose proof (Hm code) as K3.
  revert Hq K1 K2 K3.
  generalize (code / 262144)%N ((code / 4096) mod 64)%N
             ((code / 64) mod 64)%N (code mod 64)%N.
  intros q x1 x2 x3 Hq K1 K2 K3.
  unfold is_lead4. rewrite !byte_of_N by lia.
  split; [apply N.leb_le; lia | lia].
Qed.

(** A lead byte of four is not part of a pair of surrogates. *)
Lemma starts_pair_head (a : ascii) (l : list ascii) :
  starts_pair (a :: l) = true -> byte a = 237%N.
Proof.
  destruct l as [|b [|c [|d [|e [|f rest]]]]]; try discriminate.
  cbn [starts_pair]. unfold is_high_surrogate. intro H.
  byte_facts. assumption.
Qed.

Lemma starts_pair_bytes (a : ascii) (l : list ascii) :
  starts_pair (a :: l) = true ->
  Forall (fun x => (byte x < 240)%N) (firstn 5 l).
Proof.
  destruct l as [|b [|c [|d [|e [|f rest]]]]]; try discriminate.
  cbn [starts_pair firstn].
  unfold is_high_surrogate, is_low_surrogate, is_continuation. intro H.
  byte_facts. repeat constructor; lia.
Qed.

Lemma starts_pair_firstn (a : ascii) (l : list ascii) :
  starts_pair (a :: l) = starts_pair (a :: firstn 5 l).
Proof. now destruct l as [|b [|c [|d [|e [|f rest]]]]]. Qed.

(** The first bytes of the result are those of the argument, up to the
    first joined pair. *)
Lemma join_units_prefix (n : nat) :
  forall l,
    firstn n (join_units l) = firstn n l
    \/ Exists (fun x => is_lead4 x = true) (firstn n (join_units l)).
Proof.
  induction n as [|n IH]; intro l; [now left|].
  destruct l as [|a t]; [now left|].
  rewrite join_units_step.
  destruct (starts_pair (a :: t)) eqn:E.
  - right.
    destruct t as [|b [|c [|d [|e [|f rest]]]]]; try discriminate.
    cbn [starts_pair] in E. apply andb_true_iff in E as [Hh Hl].
    destruct (joined_shape a b c d e f Hh Hl) as (g1 & g2 & g3 & g4 & -> & Hg & _).
    simpl. now constructor.
  - cbn [firstn]. destruct (IH t) as [H|H].
    + left. now rewrite H.
    + right. now constructor 2.
Qed.

Lemma no_pair_after (a : ascii) (t : list ascii) :
  starts_pair (a :: t) = false -> starts_pair (a :: join_units t) = false.
Proof.
  intro H. destruct (starts_pair (a :: join_units t)) eqn:E; [|reflexivity].
  pose proof (starts_pair_bytes _ _ E) as Hb.
  destruct (join_units_prefix 5 t) as [Hp|Hp].
  - rewrite starts_pair_firstn, Hp, <- starts_pair_firstn in E. congruence.
  - apply Exists_exists in Hp as (x & Hx & Hlead).
    rewrite Forall_forall in Hb. specialize (Hb x Hx).
    unfold is_lead4 in Hlead. apply N.leb_le in Hlead. lia.
Qed.

(** What [join_units] returns holds no pair. *)
Lemma join_units_joined (n : nat) :
  forall l, (List.length l <= n)%nat -> has_pair (join_units l) = false.
Proof.
  induction n as [|n IH]; intros l Hn.
  - destruct l; [reflexivity | simpl in Hn; lia].
  - destruct l as [|a t]; [reflexivity|].
    rewrite join_units_step. destruct (starts_pair (a :: t)) eqn:E.
    + destruct t as [|b [|c [|d [|e [|f rest]]]]]; try discriminate.
      cbn [starts_pair] in E. apply andb_true_iff in E as [Hh Hl].
      destruct (joined_shape a b c d e f Hh Hl)
        as (g1 & g2 & g3 & g4 & -> & Hg & H2 & H3 & H4).
      assert (has_pair (join_units rest) = false) as Hrest
          by (apply IH; simpl in Hn; lia).
      assert (forall x l', byte x <> 237%N -> starts_pair (x :: l') = false)
        as Hno.
      { intros x l' Hx. destruct (starts_pair (x :: l')) eqn:Es; [|reflexivity].
        apply starts_pair_head in Es. contradiction. }
      unfold is_lead4 in Hg. apply N.leb_le in Hg.
      cbn [app has_pair].
      rewrite !Hno by lia. now rewrite Hrest.
    + cbn [has_pair]. rewrite (no_pair_after _ _ E). simpl.
      apply IH. simpl in Hn. lia.
Qed.

Lemma join_surrogates_free (s : string) :
  has_surrogate_pair s = false -> join_surrogates s = s.
Proof.
  unfold has_surrogate_pair, join_surrogates. intro H.
  rewrite join_units_free by assumption.
  apply string_of_list_ascii_of_string.
Qed.

Lemma join_surrogates_joined (s : string) :
  has_surrogate_pair (join_surrogates s) = false.
Proof.
  unfold has_surrogate_pair, join_surrogates.
  rewrite list_ascii_of_string_of_list_ascii.
  now apply (join_units_joined (List.length (list_ascii_of_string s))).
Qed.

End Surrogates.

(** A value of the JSON data model is serializable and is read back as
    itself. *)
Lemma json_shaped_round_trip (v : pyval) :
  json_shaped v = true ->
  exists j, json_dumps v = Some j /\ json_loads j = v.
Proof.
  induction v as [| b | z | s | l IH | l IH | d IH | b | x]
    using pyval_nested_ind; simpl; intro Hs; try discriminate;
    try (eexists; split; reflexivity).
  - (* str *)
    apply negb_true_iff in Hs. exists (JStr s). split; [reflexivity|].
    simpl. now rewrite join_surrogates_free.
  - (* list *)
    assert (exists js,
      (fix items (l : list pyval) : option (list json) :=
         match l with
         | [] => Some []
         | x :: r =>
             match json_dumps x, items r with
             | Some j, Some js => Some (j :: js)
             | _, _ => None
             end
         end) l = Some js /\ map json_loads js = l) as (js & -> & Hjs).
    { induction l as [|x l IHl]; [now exists []|].
      simpl in Hs. apply andb_true_iff in Hs as [Hx Hl].
      inversion IH as [|? ? IHx IHr]; subst.
      destruct (IHx Hx) as (j & -> & Hj).
      destruct (IHl IHr Hl) as (js & -> & Hjs).
      exists (j :: js). simpl. now rewrite Hj, Hjs. }
    exists (JArr js). simpl. now rewrite Hjs.
  - (* dict *)
    apply andb_true_iff in Hs as [Hs Hvals].
    apply andb_true_iff in Hs as [Hstr Hdist].
    assert (exists ms,
      (fix members (d : list (pykey * pyval)) : option (list (string * json)) :=
         match d with
         | [] => Some []
         | (k, x) :: r =>
             match json_dumps x, members r with
             | Some j, Some js => Some ((key_text k, j) :: js)
             | _, _ => None
             end
         end) d = Some ms
      /\ map (fun p => let '(k, x) := p in
                        (KStr (join_surrogates k), json_loads x)) ms = d)
      as (ms & -> & Hms).
    { clear Hdist.
      induction d as [|[k x] d IHd]; [now exists []|].
      simpl in Hstr, Hvals.
      apply andb_true_iff in Hstr as [Hk Hstr].
      apply andb_true_iff in Hvals as [Hx Hvals].
      inversion IH as [|? ? IHx IHr]; subst. simpl in IHx.
      destruct (IHx Hx) as (j & -> & Hj).
      destruct (IHd IHr Hstr Hvals) as (ms & -> & Hms).
      exists ((key_text k, j) :: ms). simpl. rewrite Hj, Hms.
      destruct k as [t| | |]; try discriminate. simpl in Hk.
      apply negb_true_iff in Hk. simpl.
      now rewrite join_surrogates_free. }
    exists (JObj ms). simpl. rewrite Hms.
    now rewrite dict_of_pairs_distinct.
Qed.

(* ------------------------------------------------------------------ *)
(** ** Scalars *)

Lemma dict_get_remove_key (key : string) (kv l : list (string * json)) :
  dict_get String.eqb (remove_key key kv ++ l) key = dict_get String.eqb l key.
Proof.
  induction kv as [|[k' j'] kv IH]; simpl; [reflexivity|].
  destruct (String.eqb k' key) eqn:E; simpl; [assumption|].
  now rewrite E.
Qed.

Lemma get_after_set (s : db) (key : string) (value : pyval) (j : json) :
  json_dumps value = Some j ->
  exists s', _set_key_value key value s = (Ok tt, s')
             /\ _get_key_value key s' = (Ok (json_loads j), s').
Proof.
  intro Hj. unfold _set_key_value, _get_key_value. rewrite Hj.
  eexists. split; [reflexivity|]. simpl.
  rewrite dict_get_remove_key. simpl. now rewrite String.eqb_refl.
Qed.

(* ------------------------------------------------------------------ *)
(** ** Equality of what is read back *)

Section Equality.




End Equality.




(* ------------------------------------------------------------------ *)
(** ** The order of an index *)

Section KeyOrder.

Lemma insert_key_perm (k : string) (l : list string) :
  Permutation (insert_key k l) (k :: l).
Proof.
  induction l as [|x l IH]; simpl; [reflexivity|].
  destruct (String.leb k x); [reflexivity|].
  rewrite IH. apply perm_swap.
Qed.

Lemma sort_keys_perm (l : list string) : Permutation (sort_keys l) l.
Proof.
  induction l as [|k l IH]; simpl; [reflexivity|].
  rewrite insert_key_perm. now constructor.
Qed.

Lemma sort_keys_In (l : list string) (k : string) :
  In k (sort_keys l) <-> In k l.
Proof.
  split; apply Permutation_in;
    [apply sort_keys_perm | symmetry; apply sort_keys_perm].
Qed.

Lemma sort_keys_NoDup (l : list string) : NoDup l -> NoDup (sort_keys l).
Proof.
  apply Permutation_NoDup. symmetry. apply sort_keys_perm.
Qed.



End KeyOrder.

(* ------------------------------------------------------------------ *)
(** ** Rows, counts and indices *)

Section Rows.

Implicit Types (name n : string) (rows : list list_row) (i : Z).

Lemma rows_of_app name rows rows' :
  rows_of name (rows ++ rows') = (rows_of name rows ++ rows_of name rows')%list.
Proof. apply filter_app. Qed.

(** An update that keeps the list name of every row commutes with the
    selection of a list. *)
Lemma rows_of_map name (f : list_row -> list_row) rows :
  (forall r, list_name (f r) = list_name r) ->
  rows_of name (map f rows) = map f (rows_of name rows).
Proof.
  intro Hf. induction rows as [|r rows IH]; simpl; [reflexivity|].
  rewrite Hf. destruct (String.eqb (list_name r) name); simpl; now rewrite IH.
Qed.

Lemma rows_of_filter name (p : list_row -> bool) rows :
  rows_of name (filter p rows) = filter p (rows_of name rows).
Proof.
  induction rows as [|r rows IH]; simpl; [reflexivity|].
  destruct (p r) eqn:Hp, (String.eqb (list_name r) name) eqn:Hn; simpl;
    rewrite ?Hp, ?Hn, IH; reflexivity.
Qed.

Lemma rows_of_idem name rows : rows_of name (rows_of name rows) = rows_of name rows.
Proof.
  unfold rows_of. induction rows as [|r rows IH]; simpl; [reflexivity|].
  destruct (String.eqb (list_name r) name) eqn:Hn; simpl; rewrite ?Hn, IH;
    reflexivity.
Qed.

Lemma rows_of_name name rows r : In r (rows_of name rows) -> list_name r = name.
Proof. intro H. apply filter_In in H as [_ H]. now apply String.eqb_eq. Qed.

Lemma rows_of_delete_list_same name rows :
  rows_of name (delete_list name rows) = [].
Proof.
  induction rows as [|r rows IH]; simpl; [reflexivity|].
  destruct (String.eqb (list_name r) name) eqn:Hn; simpl; rewrite ?Hn; exact IH.
Qed.

Lemma rows_of_delete_list_other name n rows :
  n <> name -> rows_of n (delete_list name rows) = rows_of n rows.
Proof.
  intro Hne. induction rows as [|r rows IH]; simpl; [reflexivity|].
  destruct (String.eqb (list_name r) name) eqn:Hn; simpl.
  - apply String.eqb_eq in Hn.
    destruct (String.eqb (list_name r) n) eqn:Hn'; [|exact IH].
    apply String.eqb_eq in Hn'. congruence.
  - now rewrite IH.
Qed.

Lemma count_rows_indices name rows :
  count_rows name rows = Z.of_nat (List.length (indices name rows)).
Proof. unfold count_rows, indices. now rewrite length_map. Qed.

Lemma count_rows_nonneg name rows : 0 <= count_rows name rows.
Proof. unfold count_rows. lia. Qed.

Lemma in_indices name i rows :
  In i (indices name rows) <->
  exists r, In r rows /\ at_index name i r = true.
Proof.
  unfold indices, rows_of, at_index. rewrite in_map_iff. split.
  - intros (r & <- & Hr). apply filter_In in Hr as [Hin Hn].
    exists r. split; [assumption|]. now rewrite Hn, Z.eqb_refl.
  - intros (r & Hin & Hr). apply andb_true_iff in Hr as [Hn Hi].
    apply Z.eqb_eq in Hi. exists r. split; [assumption|].
    apply filter_In. now split.
Qed.

Lemma find_row_none name i rows :
  find_row name i rows = None <-> ~ In i (indices name rows).
Proof.
  rewrite in_indices. unfold find_row. split.
  - intros H (r & Hin & Hr). pose proof (find_none _ _ H r Hin). congruence.
  - intro H. destruct (find (at_index name i) rows) as [r|] eqn:E; [|reflexivity].
    apply find_some in E. exfalso. apply H. now exists r.
Qed.

Lemma find_row_some name i rows r :
  find_row name i rows = Some r ->
  In r rows /\ list_name r = name /\ item_index r = i.
Proof.
  intro H. apply find_some in H as [Hin Hr].
  apply andb_true_iff in Hr as [Hn Hi].
  apply String.eqb_eq in Hn. apply Z.eqb_eq in Hi. auto.
Qed.

Lemma rowcount_zero name i rows :
  (rowcount name i rows =? 0) = true <-> find_row name i rows = None.
Proof.
  unfold rowcount, find_row. rewrite Z.eqb_eq.
  induction rows as [|r rows IH]; simpl; [tauto|].
  destruct (at_index name i r); simpl; [|exact IH].
  split; [lia | discriminate].
Qed.

(** *** The range [[0, n)] *)

Lemma range_In (m : nat) i : In i (range m) <-> 0 <= i < Z.of_nat m.
Proof.
  unfold range. rewrite in_map_iff. split.
  - intros (k & <- & Hk). apply in_seq in Hk. lia.
  - intro H. exists (Z.to_nat i). split; [lia|]. apply in_seq. lia.
Qed.

Lemma range_NoDup (m : nat) : NoDup (range m).
Proof.
  unfold range. induction (seq_NoDup m 0) as [|k l Hk Hl IH]; simpl;
    constructor; [|assumption].
  rewrite in_map_iff. intros (k' & Heq & Hin).
  apply Nat2Z.inj in Heq. now subst.
Qed.

Lemma range_length (m : nat) : List.length (range m) = m.
Proof. unfold range. now rewrite length_map, length_seq. Qed.

(** A list whose indices fill [[0, count)] has no index twice: there
    are as many rows as there are places. *)
Lemma contiguous_NoDup name rows :
  contiguous name rows -> NoDup (indices name rows).
Proof.
  intro Hc.
  apply (Permutation_NoDup (l := range (List.length (indices name rows))));
    [|apply range_NoDup].
  apply NoDup_Permutation_bis.
  - apply range_NoDup.
  - now rewrite range_length.
  - intros i Hi. apply Hc. rewrite count_rows_indices.
    now apply range_In in Hi.
Qed.

(** Distinct indices that fill [[0, m)] make a list of [m] rows. *)
Lemma filled_range_length (L : list Z) (m : nat) :
  NoDup L -> (forall i, In i L <-> 0 <= i < Z.of_nat m) ->
  List.length L = m.
Proof.
  intros Hnd HL.
  rewrite <- (range_length m). apply Permutation_length.
  apply NoDup_Permutation; [assumption | apply range_NoDup |].
  intro i. now rewrite HL, range_In.
Qed.

Lemma contiguous_intro name rows (m : nat) :
  NoDup (indices name rows) ->
  (forall i, In i (indices name rows) <-> 0 <= i < Z.of_nat m) ->
  contiguous name rows.
Proof.
  intros Hnd HL i. rewrite count_rows_indices.
  rewrite (filled_range_length _ m Hnd HL). apply HL.
Qed.

(** Contiguity speaks of the rows of one list only. *)
Lemma contiguous_ext name rows rows' :
  indices name rows' = indices name rows ->
  contiguous name rows -> contiguous name rows'.
Proof.
  intros He Hc i. rewrite count_rows_indices, He, <- count_rows_indices.
  apply Hc.
Qed.

End Rows.

(* ------------------------------------------------------------------ *)
(** ** What the writers do to the rows *)

Section Writes.

Implicit Types (name n : string) (rows : list list_row) (i : Z).

(** *** INSERT *)

Lemma sql_insert_ok name i j rows rows' :
  sql_insert name i j rows = Ok rows' ->
  rows' = (rows ++ [mk_row name i j])%list.
Proof.
  unfold sql_insert. destruct (find_row name i rows); [discriminate|].
  now intros [= <-].
Qed.

Lemma sql_insert_fresh name i j rows :
  ~ In i (indices name rows) ->
  sql_insert name i j rows = Ok (rows ++ [mk_row name i j])%list.
Proof.
  intro H. apply find_row_none in H. unfold sql_insert. now rewrite H.
Qed.

Lemma rows_of_insert_same name i j rows :
  rows_of name (rows ++ [mk_row name i j])
  = (rows_of name rows ++ [mk_row name i j])%list.
Proof. rewrite rows_of_app. simpl. now rewrite String.eqb_refl. Qed.

Lemma rows_of_insert_other name n i j rows :
  n <> name -> rows_of n (rows ++ [mk_row name i j]) = rows_of n rows.
Proof.
  intro Hne. rewrite rows_of_app. simpl.
  destruct (String.eqb name n) eqn:E.
  - apply String.eqb_eq in E. congruence.
  - apply app_nil_r.
Qed.

Lemma indices_insert_same name i j rows :
  indices name (rows ++ [mk_row name i j]) = (indices name rows ++ [i])%list.
Proof. unfold indices. now rewrite rows_of_insert_same, map_app. Qed.

Lemma indices_insert_other name n i j rows :
  n <> name -> indices n (rows ++ [mk_row name i j]) = indices n rows.
Proof. intro H. unfold indices. now rewrite rows_of_insert_other. Qed.

Lemma count_rows_insert_same name i j rows :
  count_rows name (rows ++ [mk_row name i j]) = count_rows name rows + 1.
Proof.
  unfold count_rows. rewrite rows_of_insert_same, length_app. simpl. lia.
Qed.

Lemma list_append_ok name item s s' :
  list_append name item s = (Ok tt, s') ->
  exists j, json_dumps item = Some j
            /\ list_store s'
               = (list_store s
                  ++ [mk_row name (count_rows name (list_store s)) j])%list.
Proof.
  unfold list_append. destruct (json_dumps item) as [j|]; [|discriminate].
  destruct (sql_insert name _ j (list_store s)) as [rows'|e] eqn:E;
    [|discriminate].
  apply sql_insert_ok in E. intros [= <-]. now exists j.
Qed.

(** *** Wholesale assignment *)

Lemma insert_items_ok name items :
  forall k rows rows',
    insert_items name k items rows = Ok rows' ->
    (forall n, n <> name -> rows_of n rows' = rows_of n rows)
    /\ indices name rows'
       = (indices name rows
          ++ map (fun x => k + Z.of_nat x) (seq 0 (List.length items)))%list.
Proof.
  induction items as [|item items IH]; intros k rows rows' H; simpl in H.
  - injection H as <-. split; [reflexivity|]. simpl. now rewrite app_nil_r.
  - destruct (json_dumps item) as [j|]; [|discriminate].
    destruct (sql_insert name k j rows) as [rows1|e] eqn:E; [|discriminate].
    apply sql_insert_ok in E. subst rows1.
    apply IH in H as [Hother Hidx]. split.
    + intros n Hn. rewrite Hother by assumption.
      now apply rows_of_insert_other.
    + rewrite Hidx, indices_insert_same, <- app_assoc. f_equal.
      cbn [List.length seq map app]. f_equal; [lia|].
      rewrite <- seq_shift, map_map. apply map_ext. intro x. lia.
Qed.

Lemma _set_list_ok name items s s' :
  _set_list name items s = (Ok tt, s') ->
  indices name (list_store s') = range (List.length items)
  /\ forall n, n <> name -> indices n (list_store s') = indices n (list_store s).
Proof.
  unfold _set_list.
  destruct (insert_items name 0 items _) as [rows'|e] eqn:E; [|discriminate].
  intros [= <-]. apply insert_items_ok in E as [Hother Hidx]. simpl. split.
  - unfold indices in Hidx at 2. now rewrite rows_of_delete_list_same in Hidx.
  - intros n Hn. unfold indices. rewrite Hother by assumption.
    now rewrite rows_of_delete_list_other.
Qed.

(** *** Update in place *)

Lemma update_value_indices name n i j rows :
  indices n (update_value name i j rows) = indices n rows.
Proof.
  unfold indices, update_value. rewrite rows_of_map.
  - rewrite map_map. apply map_ext. intro r. now destruct (at_index name i r).
  - intro r. now destruct (at_index name i r).
Qed.

(** *** Removal *)

Lemma NoDup_map_in {A B : Type} (f : A -> B) (l : list A) :
  (forall x y, In x l -> In y l -> f x = f y -> x = y) ->
  NoDup l -> NoDup (map f l).
Proof.
  intros Hinj Hnd. induction Hnd as [|x l Hx Hl IH]; simpl; constructor.
  - rewrite in_map_iff. intros (y & Hy & Hin).
    apply Hinj in Hy; [subst; contradiction | now right | now left].
  - apply IH. intros a b Ha Hb. apply Hinj; now right.
Qed.

(** Taking [i] out of the indices [[0, m)] and moving the larger ones
    down by one gives [[0, m - 1)]. *)
Lemma renumber_range (L : list Z) (m : nat) i :
  NoDup L -> (forall j, In j L <-> 0 <= j < Z.of_nat m) ->
  0 <= i < Z.of_nat m ->
  NoDup (map (renumber i) (filter (fun j => negb (j =? i)) L))
  /\ forall k, In k (map (renumber i) (filter (fun j => negb (j =? i)) L))
               <-> 0 <= k < Z.of_nat (m - 1).
Proof.
  intros Hnd HL Hi. split.
  - apply NoDup_map_in; [|now apply NoDup_filter].
    intros x y Hx Hy. apply filter_In in Hx as [_ Hx], Hy as [_ Hy].
    apply negb_true_iff, Z.eqb_neq in Hx, Hy.
    unfold renumber.
    destruct (i <? x) eqn:Ex, (i <? y) eqn:Ey; lia.
  - intro k. rewrite in_map_iff. split.
    + intros (j & <- & Hj). apply filter_In in Hj as [Hin Hj].
      apply negb_true_iff, Z.eqb_neq in Hj. apply HL in Hin.
      unfold renumber. destruct (i <? j) eqn:E; lia.
    + intro Hk. destruct (Z.ltb_spec k i).
      * exists k. split.
        -- unfold renumber. destruct (i <? k) eqn:E; lia.
        -- apply filter_In. split; [apply HL; lia|].
           apply negb_true_iff, Z.eqb_neq. lia.
      * exists (k + 1). split.
        -- unfold renumber. destruct (i <? k + 1) eqn:E; lia.
        -- apply filter_In. split; [apply HL; lia|].
           apply negb_true_iff, Z.eqb_neq. lia.
Qed.

Lemma filter_all {A : Type} (p : A -> bool) (l : list A) :
  (forall x, In x l -> p x = true) -> filter p l = l.
Proof.
  intro H. induction l as [|x l IH]; simpl; [reflexivity|].
  rewrite (H x) by now left. f_equal. apply IH. intros y Hy. apply H. now right.
Qed.

Lemma filter_none {A : Type} (p : A -> bool) (l : list A) :
  (forall x, In x l -> p x = false) -> filter p l = [].
Proof.
  intro H. induction l as [|x l IH]; simpl; [reflexivity|].
  rewrite (H x) by now left. apply IH. intros y Hy. apply H. now right.
Qed.

Lemma map_fixed {A : Type} (f : A -> A) (l : list A) :
  (forall x, In x l -> f x = x) -> map f l = l.
Proof.
  intro H. rewrite <- (map_id l) at 2. now apply map_ext_in.
Qed.

Lemma other_name_eqb name n r :
  n <> name -> list_name r = n -> String.eqb (list_name r) name = false.
Proof. intros Hne <-. now apply String.eqb_neq. Qed.

Lemma rows_of_delete_at_other name n i rows :
  n <> name -> rows_of n (delete_at name i rows) = rows_of n rows.
Proof.
  intro Hne. unfold delete_at. rewrite rows_of_filter. apply filter_all.
  intros r Hr. apply rows_of_name in Hr. unfold at_index.
  now rewrite (other_name_eqb name n r).
Qed.

Lemma rows_of_shift_down name n i rows :
  rows_of n (shift_down name i rows) = shift_down name i (rows_of n rows).
Proof.
  apply rows_of_map. intro r.
  now destruct (String.eqb (list_name r) name && (i <? item_index r)).
Qed.

Lemma rows_of_shift_down_other name n i rows :
  n <> name -> rows_of n (shift_down name i rows) = rows_of n rows.
Proof.
  intro Hne. rewrite rows_of_shift_down. apply map_fixed.
  intros r Hr. apply rows_of_name in Hr.
  now rewrite (other_name_eqb name n r).
Qed.

(** The indices of the list after [DELETE] and [UPDATE]. *)
Lemma indices_removed name i rows :
  indices name (shift_down name i (delete_at name i rows))
  = map (renumber i) (filter (fun j => negb (j =? i)) (indices name rows)).
Proof.
  unfold indices. rewrite rows_of_shift_down.
  unfold delete_at. rewrite rows_of_filter, filter_map_swap.
  unfold shift_down. rewrite !map_map.
  rewrite (filter_ext_in (fun r => negb (at_index name i r))
                         (fun r => negb (item_index r =? i))).
  - apply map_ext_in. intros r Hr.
    apply filter_In in Hr as [Hr _]. apply rows_of_name in Hr.
    rewrite Hr, String.eqb_refl. unfold renumber. simpl.
    now destruct (i <? item_index r).
  - intros r Hr. apply rows_of_name in Hr. unfold at_index.
    now rewrite Hr, String.eqb_refl.
Qed.

Lemma indices_removed_other name n i rows :
  n <> name ->
  indices n (shift_down name i (delete_at name i rows)) = indices n rows.
Proof.
  intro Hne. unfold indices.
  now rewrite rows_of_shift_down_other, rows_of_delete_at_other.
Qed.

Lemma in_int64_inside i : - 2 ^ 63 <= i < 2 ^ 63 -> in_int64 i = true.
Proof.
  intro H. unfold in_int64. apply andb_true_iff.
  split; [apply Z.leb_le | apply Z.ltb_lt]; lia.
Qed.

Lemma in_int64_outside i : i < - 2 ^ 63 \/ 2 ^ 63 <= i -> in_int64 i = false.
Proof.
  intro H. unfold in_int64. apply andb_false_iff.
  destruct H; [left; apply Z.leb_gt | right; apply Z.ltb_ge]; lia.
Qed.

(** When the UPDATE runs to its end, every index above [i] is one
    less and nothing else has changed. *)
Lemma update_indices_ok name i (todo : list list_row) :
  forall done rows',
    update_indices name i done todo = Ok rows' ->
    rows' = (done ++ shift_down name i todo)%list.
Proof.
  induction todo as [|r todo IH]; intros done rows' H; simpl in *.
  - injection H as <-. now rewrite app_nil_r.
  - destruct (String.eqb (list_name r) name && (i <? item_index r)).
    + destruct (find_row name (item_index r - 1) (done ++ todo));
        [discriminate|].
      apply IH in H. now rewrite H, <- app_assoc.
    + apply IH in H. now rewrite H, <- app_assoc.
Qed.

(** It raises nothing but [IntegrityError]. *)
Lemma update_indices_outcome name i (todo : list list_row) :
  forall done,
    update_indices name i done todo = Ok (done ++ shift_down name i todo)%list
    \/ update_indices name i done todo = Raise IntegrityError.
Proof.
  induction todo as [|r todo IH]; intro done; simpl.
  - left. now rewrite app_nil_r.
  - destruct (String.eqb (list_name r) name && (i <? item_index r)).
    + destruct (find_row name (item_index r - 1) (done ++ todo));
        [now right|].
      destruct (IH (done ++ [mk_row (list_name r) (item_index r - 1)
                                    (item_value r)])%list) as [H|H];
        [left | now right].
      now rewrite H, <- app_assoc.
    + destruct (IH (done ++ [r])%list) as [H|H]; [left | now right].
      now rewrite H, <- app_assoc.
Qed.

(** With no index above [i] in the list, the UPDATE selects no row. *)
Lemma update_indices_none name i (todo : list list_row) :
  forall done,
    (forall r, In r todo -> list_name r = name -> item_index r <= i) ->
    update_indices name i done todo = Ok (done ++ todo)%list.
Proof.
  induction todo as [|r todo IH]; intros done H; simpl.
  - now rewrite app_nil_r.
  - destruct (String.eqb (list_name r) name && (i <? item_index r)) eqn:E.
    + apply andb_true_iff in E as [En Ei].
      apply String.eqb_eq in En. apply Z.ltb_lt in Ei.
      specialize (H r (or_introl eq_refl) En). lia.
    + rewrite IH by (intros r' Hr'; apply H; now right).
      now rewrite <- app_assoc.
Qed.

Lemma find_row_app name i (l1 l2 : list list_row) :
  find_row name i (l1 ++ l2)
  = match find_row name i l1 with
    | Some r => Some r
    | None => find_row name i l2
    end.
Proof.
  unfold find_row. induction l1 as [|r l1 IH]; simpl; [reflexivity|].
  now destruct (at_index name i r).
Qed.


(** [list_remove] returns with the index taken out and the larger ones
    moved down, or raises and leaves the store as it was. *)
Lemma list_remove_cases name i s :
  (find_row name i (list_store s) <> None
   /\ list_remove name i s
      = (Ok tt,
         with_rows s (shift_down name i (delete_at name i (list_store s)))))
  \/ (exists e, list_remove name i s = (Raise e, s)).
Proof.
  unfold list_remove.
  destruct (find_row name i (list_store s)) as [r|] eqn:E.
  - destruct (update_indices_outcome name i
                (delete_at name i (list_store s)) []) as [H|H]; rewrite H.
    + left. split; [discriminate | reflexivity].
    + right. now exists IntegrityError.
  - right. destruct (in_int64 i); eexists; reflexivity.
Qed.

Lemma list_remove_ok name i s s' :
  list_remove name i s = (Ok tt, s') ->
  In i (indices name (list_store s))
  /\ list_store s' = shift_down name i (delete_at name i (list_store s)).
Proof.
  intro H. destruct (list_remove_cases name i s) as [[Hrow E]|[e E]];
    rewrite E in H; [|discriminate].
  injection H as <-. split; [|reflexivity].
  destruct (In_dec Z.eq_dec i (indices name (list_store s))) as [Hin|Hin];
    [assumption|].
  apply find_row_none in Hin. congruence.
Qed.

(** *** The scalar table *)

Lemma _set_key_value_rows key value s :
  list_store (snd (_set_key_value key value s)) = list_store s.
Proof. unfold _set_key_value. now destruct (json_dumps value). Qed.

Lemma __delitem___rows key s :
  list_store (snd (__delitem__ key s)) = list_store s.
Proof.
  unfold __delitem__. now destruct (dict_get String.eqb (kv_store s) key).
Qed.

End Writes.

(* ------------------------------------------------------------------ *)
(** ** Invariants of the lists

    A property [P] of the rows of each list is kept by every operation
    as soon as it depends on the indices of the list only, holds of a
    list indexed [0 .. m-1], and survives the insertion at [count] and
    the removal of an index. *)

Section Invariant.

Variable P : string -> list list_row -> Prop.

Hypothesis P_ext :
  forall name rows rows',
    indices name rows' = indices name rows -> P name rows -> P name rows'.
Hypothesis P_range :
  forall name rows m, indices name rows = range m -> P name rows.
Hypothesis P_append :
  forall name rows j,
    P name rows -> P name (rows ++ [mk_row name (count_rows name rows) j]).
Hypothesis P_removed :
  forall name i rows,
    P name rows -> In i (indices name rows) ->
    P name (shift_down name i (delete_at name i rows)).

Implicit Types (name n : string) (rows : list list_row) (i : Z).

Lemma keeps_ret {A : Type} (a : A) : keeps P (ret a).
Proof. intros s H. exact H. Qed.

Lemma keeps_bind {A B : Type} (m : M A) (f : A -> M B) :
  keeps P m -> (forall a, keeps P (f a)) -> keeps P (bind m f).
Proof.
  intros Hm Hf s Hs. unfold bind. specialize (Hm s Hs).
  destruct (m s) as [[a|e] s']; simpl in *; [now apply Hf | assumption].
Qed.

(** A computation that leaves [list_store] alone keeps [P]. *)
Lemma keeps_same_rows {A : Type} (m : M A) :
  (forall s, list_store (snd (m s)) = list_store s) -> keeps P m.
Proof. intros H s Hs name. rewrite H. apply Hs. Qed.

Lemma list_append_keeps name item : keeps P (list_append name item).
Proof.
  intros s Hs n.
  destruct (list_append name item s) as [[[]|e] s'] eqn:E.
  - apply list_append_ok in E as (j & _ & Hrows). simpl. rewrite Hrows.
    destruct (string_dec n name) as [->|Hne]; [apply P_append, Hs|].
    eapply P_ext; [|apply (Hs n)]. now apply indices_insert_other.
  - unfold list_append in E. destruct (json_dumps item) as [j|];
      [|injection E as _ <-; apply Hs].
    destruct (sql_insert name _ j (list_store s)); [discriminate|].
    injection E as _ <-. apply Hs.
Qed.

Lemma _set_list_keeps name items : keeps P (_set_list name items).
Proof.
  intros s Hs n.
  destruct (_set_list name items s) as [[[]|e] s'] eqn:E.
  - apply _set_list_ok in E as [Hsame Hother]. simpl.
    destruct (string_dec n name) as [->|Hne]; [now apply P_range in Hsame|].
    eapply P_ext; [|apply (Hs n)]. now apply Hother.
  - unfold _set_list in E.
    destruct (insert_items name 0 items _); [discriminate|].
    injection E as _ <-. apply Hs.
Qed.

Lemma list_set_keeps name i item : keeps P (list_set name i item).
Proof.
  intros s Hs. unfold list_set.
  destruct (json_dumps item) as [j|]; [|exact Hs].
  destruct (rowcount name i (list_store s) =? 0).
  - destruct (in_int64 i); [|exact Hs].
    destruct (i >=? count_rows name (list_store s)); exact Hs.
  - intro n. simpl. eapply P_ext; [|apply (Hs n)].
    apply update_value_indices.
Qed.

Lemma list_remove_keeps name i : keeps P (list_remove name i).
Proof.
  intros s Hs n.
  destruct (list_remove name i s) as [[[]|e] s'] eqn:E.
  - apply list_remove_ok in E as [Hin Hrows]. simpl. rewrite Hrows.
    destruct (string_dec n name) as [->|Hne]; [now apply P_removed|].
    eapply P_ext; [|apply (Hs n)]. now apply indices_removed_other.
  - destruct (list_remove_cases name i s) as [[_ E']|[e' E']];
      rewrite E' in E; [discriminate|].
    injection E as _ <-. apply Hs.
Qed.

Lemma append_none_keeps name (k : nat) :
  keeps P (EasyDBList.append_none name k).
Proof.
  induction k as [|k IH]; simpl.
  - apply keeps_ret.
  - apply keeps_bind; [apply list_append_keeps | intros _; exact IH].
Qed.

Lemma view_setitem_keeps name i item :
  keeps P (EasyDBList.__setitem__ name i item).
Proof.
  unfold EasyDBList.__setitem__. apply keeps_bind.
  - now apply keeps_same_rows.
  - intro len. destruct (i >=? len).
    + apply keeps_bind; [apply append_none_keeps|].
      intros _. apply list_append_keeps.
    + apply list_set_keeps.
Qed.

Lemma __setattr___keeps name value : keeps P (__setattr__ name value).
Proof.
  unfold __setattr__.
  destruct (starts_with_underscore name || _); [now apply keeps_same_rows|].
  destruct (negb (starts_with_underscore name)); [|now apply keeps_same_rows].
  destruct value;
    try (apply keeps_same_rows; apply _set_key_value_rows).
  apply _set_list_keeps.
Qed.

Theorem run_keeps (op : operation) : keeps P (run op).
Proof.
  destruct op; simpl.
  - apply keeps_same_rows. apply _set_key_value_rows.
  - apply keeps_same_rows. apply __delitem___rows.
  - apply __setattr___keeps.
  - apply _set_list_keeps.
  - apply keeps_ret.
  - apply list_append_keeps.
  - apply list_set_keeps.
  - apply list_remove_keeps.
  - apply view_setitem_keeps.
  - apply list_append_keeps.
  - apply list_remove_keeps.
Qed.

End Invariant.

(* ------------------------------------------------------------------ *)
(** ** Contiguity *)

Section Contiguous.

Implicit Types (name n : string) (rows : list list_row) (i : Z).

Lemma contiguous_range name rows (m : nat) :
  indices name rows = range m -> contiguous name rows.
Proof.
  intro H. apply (contiguous_intro _ _ m); rewrite H.
  - apply range_NoDup.
  - intro i. apply range_In.
Qed.

(** A row added at index [count] keeps the list contiguous. *)
Lemma contiguous_append name rows j :
  contiguous name rows ->
  contiguous name (rows ++ [mk_row name (count_rows name rows) j]).
Proof.
  intros Hc i. rewrite count_rows_insert_same, indices_insert_same, in_app_iff.
  specialize (Hc i). pose proof (count_rows_nonneg name rows). simpl.
  split.
  - intros [H' | [<- | []]]; [apply Hc in H'|]; lia.
  - intro H'.
    destruct (Z.eq_dec i (count_rows name rows)) as [->|Hne].
    + right. now left.
    + left. apply Hc. lia.
Qed.

(** On a contiguous list, the place [count] is free. *)
Lemma contiguous_count_free name rows :
  contiguous name rows -> ~ In (count_rows name rows) (indices name rows).
Proof. intros Hc H. apply Hc in H. lia. Qed.

Lemma contiguous_removed name i rows :
  contiguous name rows -> In i (indices name rows) ->
  contiguous name (shift_down name i (delete_at name i rows)).
Proof.
  intros Hc Hi.
  pose proof (contiguous_NoDup _ _ Hc) as Hnd.
  assert (forall j, In j (indices name rows)
                    <-> 0 <= j < Z.of_nat (List.length (indices name rows)))
    as HL by (intro j; rewrite <- count_rows_indices; apply Hc).
  destruct (renumber_range _ _ i Hnd HL (proj1 (HL i) Hi)) as [Hnd' HL'].
  apply (contiguous_intro _ _ (List.length (indices name rows) - 1));
    now rewrite indices_removed.
Qed.

(** Every operation keeps every list contiguous. *)
Lemma run_preserves (op : operation) : preserves (run op).
Proof.
  apply (run_keeps contiguous).
  - apply contiguous_ext.
  - apply contiguous_range.
  - apply contiguous_append.
  - apply contiguous_removed.
Qed.

Lemma init_invariant (db_name : string) : list_invariant (EasyDB db_name).
Proof. intros name i. cbn. split; [tauto | lia]. Qed.

End Contiguous.

(* ------------------------------------------------------------------ *)
(** ** Storage order

    The rows of a list lie in the table in the order of their indices:
    a scan of the table meets the indices [0; 1; ...; count-1] in this
    order. *)

Section StorageOrder.

Implicit Types (name n : string) (rows : list list_row) (i : Z).

Lemma in_order_range name rows (m : nat) :
  indices name rows = range m -> in_order name rows.
Proof.
  intro H. unfold in_order. rewrite H. f_equal.
  rewrite <- (length_map item_index). fold (indices name rows).
  now rewrite H, range_length.
Qed.

Lemma in_order_ext name rows rows' :
  indices name rows' = indices name rows ->
  in_order name rows -> in_order name rows'.
Proof.
  intros He Ho. apply (in_order_range _ _ (List.length (rows_of name rows))).
  now rewrite He.
Qed.


Lemma range_S (m : nat) : range (S m) = (range m ++ [Z.of_nat m])%list.
Proof. unfold range. now rewrite seq_S, map_app. Qed.

Lemma in_order_append name rows j :
  in_order name rows ->
  in_order name (rows ++ [mk_row name (count_rows name rows) j]).
Proof.
  intro Ho. apply (in_order_range _ _ (S (List.length (rows_of name rows)))).
  rewrite indices_insert_same, Ho, range_S. reflexivity.
Qed.

(** Taking [i] out of [0; 1; ...; m-1] and moving the larger indices
    down by one gives [0; 1; ...; m-2], in this order. *)
Lemma renumber_in_order (m : nat) i :
  0 <= i < Z.of_nat m ->
  map (renumber i) (filter (fun j => negb (j =? i)) (range m)) = range (m - 1).
Proof.
  intro Hi. unfold range.
  replace m with (Z.to_nat i + S (m - 1 - Z.to_nat i))%nat at 1 by lia.
  rewrite seq_app, map_app, filter_app, map_app. cbn [seq map filter].
  replace (Z.of_nat (0 + Z.to_nat i)) with i by lia.
  rewrite Z.eqb_refl. cbn [negb].
  replace (m - 1)%nat with (Z.to_nat i + (m - 1 - Z.to_nat i))%nat at 2 by lia.
  rewrite seq_app, map_app. f_equal.
  - rewrite filter_all.
    + apply map_fixed. intros j Hj.
      apply in_map_iff in Hj as (k & <- & Hk). apply in_seq in Hk.
      unfold renumber. destruct (Z.ltb_spec i (Z.of_nat k)); lia.
    + intros j Hj. apply in_map_iff in Hj as (k & <- & Hk). apply in_seq in Hk.
      apply negb_true_iff, Z.eqb_neq. lia.
  - rewrite filter_all.
    + rewrite <- seq_shift, !map_map. apply map_ext_in.
      intros k Hk. apply in_seq in Hk. unfold renumber.
      destruct (Z.ltb_spec i (Z.of_nat (S k))); lia.
    + intros j Hj. apply in_map_iff in Hj as (k & <- & Hk). apply in_seq in Hk.
      apply negb_true_iff, Z.eqb_neq. lia.
Qed.

Lemma in_order_removed name i rows :
  in_order name rows -> In i (indices name rows) ->
  in_order name (shift_down name i (delete_at name i rows)).
Proof.
  intros Ho Hi. apply (in_order_range _ _ (List.length (rows_of name rows) - 1)).
  rewrite indices_removed, Ho. apply renumber_in_order.
  rewrite Ho in Hi. now apply range_In in Hi.
Qed.

(** Every operation keeps the rows of every list in index order. *)
Lemma run_in_order (op : operation) : keeps in_order (run op).
Proof.
  apply run_keeps.
  - apply in_order_ext.
  - apply in_order_range.
  - apply in_order_append.
  - apply in_order_removed.
Qed.

End StorageOrder.

(** C2: for every list name the stored indices are exactly [[0, count)],
    and every operation that writes to the store keeps it so, whether it
    returns or raises.  [list_append] inserts at index [count],
    [list_remove] takes the index out and moves every larger one down by
    one, [_set_list] leaves the list with the indices [0 .. len-1]. *)
Theorem list_indices_contiguous (s : db) :
  list_invariant s ->
  (forall op, list_invariant (snd (run op s)))
  /\ (forall name item s',
        list_append name item s = (Ok tt, s') ->
        indices name (list_store s')
        = (indices name (list_store s) ++ [count_rows name (list_store s)])%list)
  /\ (forall name index s',
        list_remove name index s = (Ok tt, s') ->
        indices name (list_store s')
        = map (renumber index)
              (filter (fun j => negb (j =? index)) (indices name (list_store s))))
  /\ (forall name items s',
        _set_list name items s = (Ok tt, s') ->
        indices name (list_store s') = range (List.length items)).
Proof.
  intro Hs. split; [|split; [|split]].
  - intro op. exact (run_preserves op s Hs).
  - intros name item s' H. apply list_append_ok in H as (j & _ & ->).
    apply indices_insert_same.
  - intros name index s' H. apply list_remove_ok in H as [_ ->].
    apply indices_removed.
  - intros name items s' H. now apply _set_list_ok in H.
Qed.

Lemma list_indices_contiguous_witness :
  let s := snd (run (OpSetAttr "tasks" (PyList [PyStr "a"; PyStr "b"; PyStr "c"]))
                    (EasyDB "easy.db")) in
  indices "tasks" (list_store s) = [0; 1; 2]
  /\ list_invariant (snd (run (OpListRemove "tasks" 1) s))
  /\ indices "tasks" (list_store (snd (run (OpListRemove "tasks" 1) s))) = [0; 1].
Proof.
  split; [reflexivity|]. split; [|reflexivity].
  apply (list_indices_contiguous
           (snd (run (OpSetAttr "tasks" (PyList [PyStr "a"; PyStr "b"; PyStr "c"]))
                     (EasyDB "easy.db")))).
  apply (list_indices_contiguous (EasyDB "easy.db")).
  intros name i. cbn. split; [tauto | lia].
Defined.

(* ------------------------------------------------------------------ *)
(** ** [ORDER BY item_index] *)

Section Ordering.

Implicit Types (r x : list_row) (l : list list_row).

Lemma insert_row_perm r l : Permutation (r :: l) (insert_row r l).
Proof.
  induction l as [|x l IH]; simpl; [reflexivity|].
  destruct (item_index r <=? item_index x); [reflexivity|].
  rewrite perm_swap. now constructor.
Qed.

Lemma order_by_index_perm l : Permutation l (order_by_index l).
Proof.
  induction l as [|r l IH]; simpl; [constructor|].
  rewrite <- insert_row_perm. now constructor.
Qed.

Lemma order_by_index_In l x : In x (order_by_index l) <-> In x l.
Proof.
  split; apply Permutation_in;
    [symmetry|]; apply order_by_index_perm.
Qed.

Lemma order_by_index_length l :
  List.length (order_by_index l) = List.length l.
Proof. symmetry. apply Permutation_length, order_by_index_perm. Qed.

Lemma sorted_inv x l :
  sorted (x :: l) ->
  sorted l /\ forall y, In y l -> item_index x <= item_index y.
Proof.
  intro H. apply StronglySorted_inv in H as [Hl Hx]. split; [assumption|].
  intros y Hy. rewrite Forall_forall in Hx. apply Hx. now apply in_map.
Qed.

Lemma sorted_cons x l :
  sorted l -> (forall y, In y l -> item_index x <= item_index y) ->
  sorted (x :: l).
Proof.
  intros Hl Hx. constructor; [assumption|].
  apply Forall_forall. intros j Hj. apply in_map_iff in Hj as (y & <- & Hy).
  now apply Hx.
Qed.

Lemma insert_row_sorted r l : sorted l -> sorted (insert_row r l).
Proof.
  induction l as [|x l IH]; simpl; intro Hs.
  - apply sorted_cons; [assumption | intros y []].
  - apply sorted_inv in Hs as Hinv. destruct Hinv as [Hl Hx].
    destruct (Z.leb_spec (item_index r) (item_index x)).
    + apply sorted_cons; [assumption|].
      intros y [<- | Hy]; [lia|]. specialize (Hx y Hy). lia.
    + apply sorted_cons; [now apply IH|].
      intros y Hy. apply (Permutation_in _ (Permutation_sym (insert_row_perm r l))) in Hy.
      destruct Hy as [<- | Hy]; [lia | now apply Hx].
Qed.

Lemma order_by_index_sorted l : sorted (order_by_index l).
Proof.
  induction l as [|r l IH]; simpl; [constructor|].
  now apply insert_row_sorted.
Qed.

(** A row not larger than any other goes in front. *)
Lemma insert_row_front r l :
  (forall y, In y l -> item_index r <= item_index y) ->
  insert_row r l = r :: l.
Proof.
  destruct l as [|x l]; simpl; [reflexivity|]. intro H.
  destruct (Z.leb_spec (item_index r) (item_index x)); [reflexivity|].
  specialize (H x (or_introl eq_refl)). lia.
Qed.

(** Sorting commutes with a selection. *)
Lemma insert_row_filter (p : list_row -> bool) r l :
  sorted l ->
  filter p (insert_row r l)
  = if p r then insert_row r (filter p l) else filter p l.
Proof.
  induction l as [|x l IH]; intro Hs.
  - simpl. now destruct (p r).
  - apply sorted_inv in Hs as [Hl Hx].
    assert (item_index r <= item_index x ->
            forall y, In y (filter p (x :: l)) -> item_index r <= item_index y)
      as Hfront.
    { intros Hlt y Hy. apply filter_In in Hy as [[<- | Hin] _]; [assumption|].
      specialize (Hx y Hin). lia. }
    cbn [insert_row].
    destruct (Z.leb_spec (item_index r) (item_index x)) as [Hlt|Hge].
    + rewrite (insert_row_front r (filter p (x :: l)) (Hfront Hlt)).
      cbn [filter]. now destruct (p r).
    + cbn [filter]. rewrite (IH Hl).
      destruct (p x), (p r); simpl; try reflexivity.
      destruct (Z.leb_spec (item_index r) (item_index x)); [lia | reflexivity].
Qed.

Lemma order_by_index_filter (p : list_row -> bool) l :
  order_by_index (filter p l) = filter p (order_by_index l).
Proof.
  induction l as [|r l IH]; simpl; [reflexivity|].
  rewrite insert_row_filter by apply order_by_index_sorted.
  destruct (p r); simpl; now rewrite IH.
Qed.

(** Sorting commutes with an update that keeps the order of the
    indices. *)
Lemma insert_row_map (f : list_row -> list_row) r l :
  (forall x, In x l ->
             (item_index (f r) <=? item_index (f x))
             = (item_index r <=? item_index x)) ->
  insert_row (f r) (map f l) = map f (insert_row r l).
Proof.
  induction l as [|x l IH]; intro H; simpl; [reflexivity|].
  rewrite (H x) by now left.
  destruct (item_index r <=? item_index x); simpl; [reflexivity|].
  f_equal. apply IH. intros y Hy. apply H. now right.
Qed.

Lemma order_by_index_map (f : list_row -> list_row) l :
  (forall x y, In x l -> In y l ->
               (item_index (f x) <=? item_index (f y))
               = (item_index x <=? item_index y)) ->
  order_by_index (map f l) = map f (order_by_index l).
Proof.
  induction l as [|r l IH]; intro H; simpl; [reflexivity|].
  rewrite IH by (intros x y Hx Hy; apply H; now right).
  apply insert_row_map. intros x Hx.
  apply (proj1 (order_by_index_In _ _)) in Hx.
  apply H; [now left | now right].
Qed.

End Ordering.

(* ------------------------------------------------------------------ *)
(** ** The stored sequence of a list *)

Section Sequence.

Implicit Types (name : string) (rows : list list_row) (i : Z).

(** A sorted list of distinct integers that fills the [length] places
    from [a] on is [a; a+1; ...]. *)
Lemma sorted_range (L : list Z) :
  forall a : nat,
    StronglySorted Z.le L -> NoDup L ->
    (forall j, In j L
               <-> Z.of_nat a <= j < Z.of_nat a + Z.of_nat (List.length L)) ->
    L = map Z.of_nat (seq a (List.length L)).
Proof.
  induction L as [|x t IH]; intros a Hs Hnd HL; [reflexivity|].
  apply StronglySorted_inv in Hs as [Hst Hx].
  rewrite Forall_forall in Hx.
  apply NoDup_cons_iff in Hnd as [Hxt Hndt].
  assert (x = Z.of_nat a) as ->.
  { assert (In (Z.of_nat a) (x :: t)) as [Ha | Ha]
        by (apply HL; simpl List.length; lia).
    - assumption.
    - specialize (Hx _ Ha).
      assert (Z.of_nat a <= x) by (apply HL; now left). lia. }
  simpl. f_equal. apply IH; try assumption.
  intro j. split.
  - intro Hj. assert (j <> Z.of_nat a) by congruence.
    assert (In j (Z.of_nat a :: t)) as Hj' by now right.
    apply HL in Hj'. simpl List.length in Hj'. lia.
  - intro Hj.
    assert (In j (Z.of_nat a :: t)) as [Hj' | Hj']
        by (apply HL; simpl List.length; lia); [lia | assumption].
Qed.

(** The rows of a contiguous list, read in index order, carry the
    indices [0; 1; ...; count-1]. *)
Lemma contiguous_sorted name rows :
  contiguous name rows ->
  map item_index (order_by_index (rows_of name rows))
  = range (List.length (rows_of name rows)).
Proof.
  intro Hc.
  assert (Permutation (indices name rows)
                      (map item_index (order_by_index (rows_of name rows))))
    as Hp by apply Permutation_map, order_by_index_perm.
  pose proof (sorted_range _ 0 (order_by_index_sorted (rows_of name rows))
                (Permutation_NoDup Hp (contiguous_NoDup _ _ Hc))) as H.
  rewrite length_map, order_by_index_length in H. apply H.
  intro j. split.
  - intro Hj. apply (Permutation_in _ (Permutation_sym Hp)), Hc in Hj.
    unfold count_rows in Hj. lia.
  - intro Hj. apply (Permutation_in _ Hp), Hc. unfold count_rows. lia.
Qed.

(** In a list of rows indexed [a; a+1; ...], dropping the rows of
    index [a + k] drops the row at position [k]. *)
Lemma filter_index (S : list list_row) :
  forall (a k : nat),
    map item_index S = map Z.of_nat (seq a (List.length S)) ->
    (k < List.length S)%nat ->
    filter (fun r => negb (item_index r =? Z.of_nat (a + k))) S
    = without_nth k S.
Proof.
  induction S as [|x t IH]; intros a k HS Hk; simpl in Hk; [lia|].
  simpl in HS. injection HS as Hx Ht.
  destruct k as [|k].
  - cbn [filter]. rewrite Hx, Nat.add_0_r, Z.eqb_refl. simpl.
    unfold without_nth. simpl. apply filter_all.
    intros y Hy. apply negb_true_iff, Z.eqb_neq.
    assert (In (item_index y) (map Z.of_nat (seq (S a) (List.length t))))
      as Hin by (rewrite <- Ht; now apply in_map).
    apply in_map_iff in Hin as (m & <- & Hm). apply in_seq in Hm. lia.
  - cbn [filter]. rewrite Hx.
    destruct (Z.eqb_spec (Z.of_nat a) (Z.of_nat (a + S k))); [lia|].
    simpl. unfold without_nth. simpl. f_equal.
    replace (a + S k)%nat with (S a + k)%nat by lia.
    apply IH; [assumption | lia].
Qed.

Lemma without_nth_map {A B : Type} (f : A -> B) (k : nat) (l : list A) :
  map f (without_nth k l) = without_nth k (map f l).
Proof. unfold without_nth. now rewrite map_app, firstn_map, skipn_map. Qed.

(** The rows of the list, in order, after [list_remove]. *)
Lemma removed_rows_sorted name i rows :
  contiguous name rows -> 0 <= i < count_rows name rows ->
  map item_value
      (order_by_index
         (rows_of name (shift_down name i (delete_at name i rows))))
  = without_nth (Z.to_nat i)
      (map item_value (order_by_index (rows_of name rows))).
Proof.
  intros Hc Hi.
  rewrite rows_of_shift_down. unfold delete_at. rewrite rows_of_filter.
  set (R := rows_of name rows).
  rewrite (filter_ext_in (fun r => negb (at_index name i r))
                         (fun r => negb (item_index r =? i)) R).
  2:{ intros r Hr. apply rows_of_name in Hr. unfold at_index.
      now rewrite Hr, String.eqb_refl. }
  unfold shift_down. rewrite order_by_index_map.
  - rewrite order_by_index_filter, map_map.
    rewrite (map_ext _ item_value).
    2:{ intro r. now destruct (String.eqb (list_name r) name
                                && (i <? item_index r)). }
    rewrite <- without_nth_map. f_equal.
    pose proof (filter_index (order_by_index R) 0 (Z.to_nat i)) as HF.
    replace (Z.of_nat (0 + Z.to_nat i)) with i in HF by lia.
    apply HF; rewrite order_by_index_length.
    + now apply contiguous_sorted.
    + unfold count_rows in Hi. fold R in Hi. lia.
  - intros x y Hx Hy.
    apply filter_In in Hx as [Hx Hxi], Hy as [Hy Hyi].
    apply rows_of_name in Hx, Hy.
    apply negb_true_iff, Z.eqb_neq in Hxi, Hyi.
    rewrite Hx, Hy, String.eqb_refl. simpl.
    destruct (Z.ltb_spec i (item_index x)), (Z.ltb_spec i (item_index y));
      simpl; destruct (Z.leb_spec (item_index x) (item_index y));
      try reflexivity; try (apply Z.leb_le; lia); try (apply Z.leb_gt; lia).
Qed.

End Sequence.

(* ------------------------------------------------------------------ *)
(** ** The renumbering of [list_remove] *)

Section Renumbering.

Implicit Types (name : string) (rows : list list_row) (i : Z) (s : db).





(** Nor is one when the last index of a contiguous list is removed:
    the UPDATE selects no row. *)
Lemma list_remove_last name i s :
  contiguous name (list_store s) ->
  0 <= i -> i = count_rows name (list_store s) - 1 ->
  list_remove name i s
  = (Ok tt, with_rows s (shift_down name i (delete_at name i (list_store s)))).
Proof.
  intros Hc H0 Hi. unfold list_remove.
  destruct (find_row name i (list_store s)) eqn:E.
  2:{ apply find_row_none in E. exfalso. apply E, Hc. lia. }
  assert (forall r, In r (delete_at name i (list_store s)) ->
                    list_name r = name -> item_index r <= i) as Hle.
  { intros r Hr Hn. apply filter_In in Hr as [Hr _].
    assert (In (item_index r) (indices name (list_store s))) as Hin.
    { apply in_map. apply filter_In. split; [assumption|].
      now apply String.eqb_eq. }
    apply Hc in Hin. lia. }
  rewrite (update_indices_none name i _ [] Hle). simpl.
  do 2 f_equal. unfold shift_down. symmetry. apply map_fixed.
  intros r Hr.
  destruct (String.eqb (list_name r) name && (i <? item_index r)) eqn:Eb;
    [|reflexivity].
  apply andb_true_iff in Eb as [En Ei].
  apply String.eqb_eq in En. apply Z.ltb_lt in Ei.
  specialize (Hle r Hr En). lia.
Qed.

(** What [list_get] returns once the index is out and the larger ones
    are one less. *)
Lemma list_get_removed name i s (l : list pyval) :
  contiguous name (list_store s) ->
  list_get name s = (Ok l, s) ->
  0 <= i < Z.of_nat (List.length l) ->
  list_get name
    (with_rows s (shift_down name i (delete_at name i (list_store s))))
  = (Ok (without_nth (Z.to_nat i) l),
     with_rows s (shift_down name i (delete_at name i (list_store s)))).
Proof.
  intros Hc Hl Hi. unfold list_get in Hl. injection Hl as <-.
  rewrite length_map, order_by_index_length in Hi.
  unfold list_get. simpl. f_equal. f_equal.
  rewrite <- (map_map item_value json_loads).
  rewrite removed_rows_sorted by (assumption || (unfold count_rows; lia)).
  now rewrite without_nth_map, map_map.
Qed.

End Renumbering.




(* ------------------------------------------------------------------ *)
(** ** Appending and updating in place *)

Section AppendUpdate.

Implicit Types (name : string) (rows : list list_row) (i : Z).

Lemma list_get_length name s l :
  list_get name s = (Ok l, s) ->
  Z.of_nat (List.length l) = count_rows name (list_store s).
Proof.
  unfold list_get. intros [= <-].
  now rewrite length_map, order_by_index_length.
Qed.

(** A row larger than all the others stays at the end. *)
Lemma insert_row_snoc r x l :
  item_index r < item_index x ->
  insert_row r (l ++ [x]) = (insert_row r l ++ [x])%list.
Proof.
  intro Hlt. induction l as [|y l IH]; simpl.
  - destruct (Z.leb_spec (item_index r) (item_index x)); [reflexivity | lia].
  - destruct (item_index r <=? item_index y); [reflexivity|].
    simpl. now rewrite IH.
Qed.

Lemma order_by_index_snoc x l :
  (forall y, In y l -> item_index y < item_index x) ->
  order_by_index (l ++ [x]) = (order_by_index l ++ [x])%list.
Proof.
  induction l as [|r l IH]; intro H; simpl; [reflexivity|].
  rewrite IH by (intros y Hy; apply H; now right).
  apply insert_row_snoc. apply H. now left.
Qed.

(** [list_append] on a contiguous list: it succeeds, the list stays
    contiguous and the item is the new last element. *)
Lemma list_append_spec name item j s l :
  contiguous name (list_store s) ->
  json_dumps item = Some j ->
  list_get name s = (Ok l, s) ->
  exists s', list_append name item s = (Ok tt, s')
             /\ contiguous name (list_store s')
             /\ list_get name s' = (Ok (l ++ [json_loads j])%list, s').
Proof.
  intros Hc Hj Hl. unfold list_append. rewrite Hj.
  rewrite sql_insert_fresh by now apply contiguous_count_free.
  eexists. split; [reflexivity|]. split.
  - simpl. now apply contiguous_append.
  - unfold list_get in *. injection Hl as <-. simpl. f_equal. f_equal.
    rewrite rows_of_insert_same, order_by_index_snoc.
    + now rewrite map_app.
    + intros y Hy. simpl.
      assert (In (item_index y) (indices name (list_store s))) as Hin
          by now apply in_map.
      apply Hc in Hin. lia.
Qed.

Lemma append_none_spec name (k : nat) :
  forall s l,
    contiguous name (list_store s) ->
    list_get name s = (Ok l, s) ->
    exists s', EasyDBList.append_none name k s = (Ok tt, s')
               /\ contiguous name (list_store s')
               /\ list_get name s' = (Ok (l ++ repeat PyNone k)%list, s').
Proof.
  induction k as [|k IH]; intros s l Hc Hl; simpl.
  - exists s. rewrite app_nil_r. split; [reflexivity | now split].
  - destruct (list_append_spec name PyNone JNull s l Hc eq_refl Hl)
      as (s1 & H1 & Hc1 & Hl1).
    destruct (IH s1 _ Hc1 Hl1) as (s2 & H2 & Hc2 & Hl2).
    exists s2. unfold bind. rewrite H1, H2.
    split; [reflexivity | split; [assumption|]].
    rewrite Hl2. now rewrite <- app_assoc.
Qed.

(** In a list of rows of one name indexed [a; a+1; ...], the update at
    index [a + k] changes the value at position [k]. *)
Lemma update_index name j (S : list list_row) :
  forall (a k : nat),
    (forall r, In r S -> list_name r = name) ->
    map item_index S = map Z.of_nat (seq a (List.length S)) ->
    (k < List.length S)%nat ->
    map item_value (update_value name (Z.of_nat (a + k)) j S)
    = with_nth k j (map item_value S).
Proof.
  induction S as [|x t IH]; intros a k Hn HS Hk; simpl in Hk; [lia|].
  simpl in HS. injection HS as Hx Ht.
  assert (list_name x = name) as Hnx by (apply Hn; now left).
  assert (forall r, In r t -> list_name r = name) as Hnt
      by (intros r Hr; apply Hn; now right).
  unfold update_value, at_index in *. cbn [map]. rewrite Hnx, String.eqb_refl, Hx.
  destruct k as [|k].
  - rewrite Nat.add_0_r, Z.eqb_refl. simpl. unfold with_nth. simpl. f_equal.
    rewrite map_map. apply map_ext_in. intros y Hy.
    assert (In (item_index y) (map Z.of_nat (seq (S a) (List.length t))))
      as Hin by (rewrite <- Ht; now apply in_map).
    apply in_map_iff in Hin as (m & Hm & Hin). apply in_seq in Hin.
    destruct (Z.eqb_spec (item_index y) (Z.of_nat a)); [lia|].
    now rewrite andb_false_r.
  - destruct (Z.eqb_spec (Z.of_nat a) (Z.of_nat (a + S k))); [lia|].
    simpl. unfold with_nth. simpl. f_equal.
    replace (a + S k)%nat with (S a + k)%nat by lia.
    apply IH; [assumption | assumption | lia].
Qed.

Lemma with_nth_map {A B : Type} (f : A -> B) (k : nat) (x : A) (l : list A) :
  map f (with_nth k x l) = with_nth k (f x) (map f l).
Proof.
  unfold with_nth. now rewrite map_app, firstn_map, skipn_map.
Qed.

(** [list_set] on a contiguous list, within range. *)
Lemma list_set_spec name i item j s l :
  contiguous name (list_store s) ->
  json_dumps item = Some j ->
  list_get name s = (Ok l, s) ->
  0 <= i < Z.of_nat (List.length l) ->
  exists s', list_set name i item s = (Ok tt, s')
             /\ list_get name s'
                = (Ok (with_nth (Z.to_nat i) (json_loads j) l), s').
Proof.
  intros Hc Hj Hl Hi. rewrite (list_get_length _ _ _ Hl) in Hi.
  unfold list_set. rewrite Hj.
  destruct (rowcount name i (list_store s) =? 0) eqn:E.
  { apply rowcount_zero, find_row_none in E. exfalso. apply E, Hc, Hi. }
  eexists. split; [reflexivity|].
  unfold list_get in *. injection Hl as <-. simpl. f_equal. f_equal.
  unfold update_value at 1. rewrite rows_of_map
    by (intro r; now destruct (at_index name i r)).
  rewrite order_by_index_map
    by (intros x y _ _; now destruct (at_index name i x), (at_index name i y)).
  rewrite <- (map_map item_value json_loads).
  pose proof (update_index name j (order_by_index (rows_of name (list_store s)))
                0 (Z.to_nat i)) as HU.
  replace (Z.of_nat (0 + Z.to_nat i)) with i in HU by lia.
  unfold update_value in HU. rewrite HU.
  - now rewrite with_nth_map, map_map.
  - intros r Hr. apply (proj1 (order_by_index_In _ _)) in Hr.
    now apply rows_of_name in Hr.
  - rewrite order_by_index_length. now apply contiguous_sorted.
  - rewrite order_by_index_length. unfold count_rows in Hi. lia.
Qed.

End AppendUpdate.

(** C4, as stated, fails for a negative index: [-1 < len], yet
    [db.tasks[-1] = "x"] replaces nothing; it raises the plain
    [Exception] of [list_set] and leaves the list as it was.  It also
    fails for a value outside the JSON data model: after
    [db.tasks[4] = (1,)] the element at index 4 is the list [[1]], not
    the tuple. *)
Lemma view_setitem_negative_counterexample :
  let s := snd (_set_list "tasks" [PyStr "a"; PyStr "b"; PyStr "c"]
                          (EasyDB "easy.db")) in
  list_get "tasks" s = (Ok [PyStr "a"; PyStr "b"; PyStr "c"], s)
  /\ EasyDBList.__setitem__ "tasks" (-1) (PyStr "x") s
     = (Raise (Failure "Failed to update list item"), s)
  /\ fst ((EasyDBList.__setitem__ "tasks" 4 (PyTuple [PyInt 1]) ;;;
           list_get "tasks") s)
     = Ok [PyStr "a"; PyStr "b"; PyStr "c"; PyNone; PyList [PyInt 1]]
  /\ PyList [PyInt 1] <> PyTuple [PyInt 1].
Proof. repeat split. discriminate. Qed.

(** C4 (amended): on a contiguous list with stored sequence [l] of
    length [n], and for a serializable [v] with JSON text [j]:
    [EasyDBList.__setitem__] at an index [i >= n] succeeds and the list
    becomes [l], then [None] at the places [n .. i-1], then the value
    read back from [j] at place [i] (length [i+1]); at an index
    [0 <= i < n] it succeeds and the list is [l] with the element at [i]
    replaced by that value, nothing else changed.  The value read back
    is [v] itself when [v] is of the JSON data model. *)
Theorem view_setitem_extends
        (s : db) (name : string) (i : Z) (v : pyval) (j : json) (l : list pyval) :
  contiguous name (list_store s) ->
  list_get name s = (Ok l, s) ->
  json_dumps v = Some j ->
  (Z.of_nat (List.length l) <= i ->
   exists s', EasyDBList.__setitem__ name i v s = (Ok tt, s')
              /\ list_get name s'
                 = (Ok (l ++ repeat PyNone (Z.to_nat (i - Z.of_nat (List.length l)))
                          ++ [json_loads j])%list, s'))
  /\ (0 <= i < Z.of_nat (List.length l) ->
      exists s', EasyDBList.__setitem__ name i v s = (Ok tt, s')
                 /\ list_get name s'
                    = (Ok (with_nth (Z.to_nat i) (json_loads j) l), s'))
  /\ (json_shaped v = true -> json_loads j = v).
Proof.
  intros Hc Hl Hj.
  pose proof (list_get_length _ _ _ Hl) as Hlen.
  unfold EasyDBList.__setitem__, bind, list_len. rewrite <- Hlen.
  split; [|split].
  - intro Hi. destruct (Z.geb_spec i (Z.of_nat (List.length l))); [|lia].
    destruct (append_none_spec name
                (Z.to_nat (i - Z.of_nat (List.length l))) s l Hc Hl)
      as (s1 & H1 & Hc1 & Hl1).
    destruct (list_append_spec name v j s1 _ Hc1 Hj Hl1) as (s2 & H2 & _ & Hl2).
    exists s2. rewrite H1, H2. split; [reflexivity|].
    now rewrite Hl2, <- app_assoc.
  - intro Hi. destruct (Z.geb_spec i (Z.of_nat (List.length l))); [lia|].
    now apply list_set_spec.
  - intro Hv. destruct (json_shaped_round_trip v Hv) as (j' & Hj' & Hload).
    congruence.
Qed.

Lemma view_setitem_extends_witness :
  let s := snd (_set_list "tasks" [PyStr "a"; PyStr "b"] (EasyDB "easy.db")) in
  (exists s', EasyDBList.__setitem__ "tasks" 4 (PyInt 7) s = (Ok tt, s')
              /\ list_get "tasks" s'
                 = (Ok [PyStr "a"; PyStr "b"; PyNone; PyNone; PyInt 7], s'))
  /\ (exists s', EasyDBList.__setitem__ "tasks" 1 (PyInt 7) s = (Ok tt, s')
                 /\ list_get "tasks" s' = (Ok [PyStr "a"; PyInt 7], s')).
Proof.
  pose proof (view_setitem_extends
                (snd (_set_list "tasks" [PyStr "a"; PyStr "b"] (EasyDB "easy.db")))
                "tasks" 4 (PyInt 7) (JNum 7) [PyStr "a"; PyStr "b"]
                ltac:(intro i; cbn; lia) eq_refl eq_refl) as [H4 _].
  pose proof (view_setitem_extends
                (snd (_set_list "tasks" [PyStr "a"; PyStr "b"] (EasyDB "easy.db")))
                "tasks" 1 (PyInt 7) (JNum 7) [PyStr "a"; PyStr "b"]
                ltac:(intro i; cbn; lia) eq_refl eq_refl) as [_ [H1 _]].
  split; [apply H4 | apply H1]; simpl; lia.
Defined.

(* ------------------------------------------------------------------ *)
(** ** The errors of [list_set] *)

Section ListSet.

Implicit Types (name n : string) (rows : list list_row) (i k : Z).



End ListSet.




(* ------------------------------------------------------------------ *)
(** ** The snapshot *)

Section Snapshot.

(** The loop over the tables raises nothing but [OperationalError]. *)
Lemma read_tables_outcome (ts : list foreign_table) (d : snapshot) :
  fst (read_tables ts d) = Ok tt
  \/ fst (read_tables ts d) = Raise OperationalError.
Proof.
  revert d. induction ts as [|t ts IH]; intro d; simpl; [now left|].
  destruct (is_internal_table (table_name t)); [apply IH|].
  destruct (table_readable t); [apply IH | now right].
Qed.


(** A table that cannot be read ends the loop: the tables listed
    after it are not read, whatever they are. *)
Lemma read_tables_stops (ts1 ts2 : list foreign_table) (t : foreign_table)
      (d : snapshot) :
  fst (read_tables ts1 d) = Ok tt ->
  is_internal_table (table_name t) = false ->
  table_readable t = false ->
  read_tables (ts1 ++ t :: ts2) d
  = (Raise OperationalError, snd (read_tables ts1 d)).
Proof.
  revert d. induction ts1 as [|t1 ts1 IH]; intros d H1 Hint Hread; simpl.
  - now rewrite Hint, Hread.
  - simpl in H1. destruct (is_internal_table (table_name t1)); [now apply IH|].
    destruct (table_readable t1); [now apply IH | discriminate].
Qed.

End Snapshot.

(** C1 fails on the code: the [try] encloses the whole loop over the
    tables, so the first table that cannot be read ends the scan.  With
    the foreign tables [broken] (unreadable) and [users] listed in this
    order, the snapshot holds neither, although only [broken] failed; no
    error reaches the caller.  Listed the other way round, [users] is
    kept. *)
Theorem snapshot_drops_tables_after_failure :
  let broken := mk_table "broken" ["id"] [] false in
  let users := mk_table "users" ["id"; "name"] [[PyInt 1; PyStr "Ann"]] true in
  let s := mk_db [] [] [broken; users] [("db_name", PyStr "easy.db")] in
  let s' := mk_db [] [] [users; broken] [("db_name", PyStr "easy.db")] in
  _get_all_data s = (Ok [], s)
  /\ _get_all_data s'
     = (Ok [("users",
             PyList [PyDict [(KStr "id", PyInt 1); (KStr "name", PyStr "Ann")]])],
        s').
Proof. split; reflexivity. Qed.

(* ------------------------------------------------------------------ *)
(** ** The attribute router *)

Section Router.

Implicit Types (name n : string) (s : db).

Lemma attrs_lookup_none s n :
  attrs_internal s = true -> is_internal_name n = false ->
  dict_get String.eqb (attrs s) n = None.
Proof.
  unfold attrs_internal. intros Ha Hn.
  induction (attrs s) as [|[k v] a IH]; simpl in *; [reflexivity|].
  apply andb_true_iff in Ha as [Hk Ha].
  destruct (String.eqb k n) eqn:E; [|now apply IH].
  apply String.eqb_eq in E. subst k. congruence.
Qed.

Lemma data_name_inv n :
  is_data_name n = true ->
  is_internal_name n = false
  /\ starts_with_underscore n = false
  /\ String.eqb n "all_data" = false
  /\ String.eqb n "html_report" = false
  /\ existsb (String.eqb n) class_attributes = false.
Proof.
  unfold is_data_name, is_reserved_name. intro H.
  apply andb_true_iff in H as [H Hc].
  apply andb_true_iff in H as [Hi Hr].
  apply negb_true_iff in Hi, Hr, Hc.
  apply orb_false_iff in Hr as [Hr1 Hr2].
  pose proof Hi as Hi'. unfold is_internal_name in Hi'.
  apply orb_false_iff in Hi' as [Hu _]. auto.
Qed.

(** Reading a data name goes through [__getattr__], past the two
    computed names, to the list test. *)
Lemma attribute_read_data_name s n :
  attrs_internal s = true -> is_data_name n = true ->
  attribute_read n s
  = if 0 <? count_rows n (list_store s) then (Ok (ListView n), s)
    else match dict_get String.eqb (kv_store s) n with
         | Some j => (Ok (Value (json_loads j)), s)
         | None => (Raise AttributeError, s)
         end.
Proof.
  intros Ha Hn. apply data_name_inv in Hn as (Hi & _ & H1 & H2 & Hc).
  unfold attribute_read. rewrite (attrs_lookup_none s n Ha Hi), Hc.
  unfold __getattr__. rewrite H1, H2. unfold bind, _is_list.
  destruct (0 <? count_rows n (list_store s)); [reflexivity|].
  unfold _get_key_value.
  now destruct (dict_get String.eqb (kv_store s) n).
Qed.

(** Writing a data name goes to one of the two tables. *)
Lemma attribute_write_data_name n v :
  is_data_name n = true ->
  attribute_write n v
  = match v with
    | PyList items => _set_list n items
    | _ => _set_key_value n v
    end.
Proof.
  intro Hn. apply data_name_inv in Hn as (Hi & Hu & _).
  unfold attribute_write, __setattr__. unfold is_internal_name in Hi.
  now rewrite Hi, Hu.
Qed.

(** Every operation keeps the instance dictionary to internal names. *)
Lemma list_append_attrs name item s :
  attrs (snd (list_append name item s)) = attrs s.
Proof.
  unfold list_append. destruct (json_dumps item); [|reflexivity].
  now destruct (sql_insert name _ _ (list_store s)).
Qed.

Lemma append_none_attrs name (k : nat) s :
  attrs (snd (EasyDBList.append_none name k s)) = attrs s.
Proof.
  revert s. induction k as [|k IH]; intro s; simpl; [reflexivity|].
  unfold bind. pose proof (list_append_attrs name PyNone s) as H.
  destruct (list_append name PyNone s) as [[[]|e] s1]; simpl in *;
    [now rewrite IH | assumption].
Qed.

Lemma list_set_attrs name i item s :
  attrs (snd (list_set name i item s)) = attrs s.
Proof.
  unfold list_set. destruct (json_dumps item); [|reflexivity].
  destruct (rowcount name i (list_store s) =? 0); [|reflexivity].
  destruct (in_int64 i); [|reflexivity].
  now destruct (i >=? count_rows name (list_store s)).
Qed.

Lemma _set_list_attrs name items s :
  attrs (snd (_set_list name items s)) = attrs s.
Proof. unfold _set_list. now destruct (insert_items name 0 items _). Qed.

Lemma _set_key_value_attrs key value s :
  attrs (snd (_set_key_value key value s)) = attrs s.
Proof. unfold _set_key_value. now destruct (json_dumps value). Qed.

Lemma list_remove_attrs name i s :
  attrs (snd (list_remove name i s)) = attrs s.
Proof.
  destruct (list_remove_cases name i s) as [[_ E]|[e E]]; now rewrite E.
Qed.

Lemma dict_set_internal (a : list (string * pyval)) name value :
  forallb (fun p => is_internal_name (fst p)) a = true ->
  is_internal_name name = true ->
  forallb (fun p => is_internal_name (fst p))
          (dict_set String.eqb a name value) = true.
Proof.
  intros Ha Hn. induction a as [|[k v] a IH]; simpl in *.
  - now rewrite Hn.
  - apply andb_true_iff in Ha as [Hk Ha].
    destruct (String.eqb k name); simpl; rewrite Hk; [assumption | now apply IH].
Qed.

Lemma run_attrs_internal (op : operation) s :
  attrs_internal s = true -> attrs_internal (snd (run op s)) = true.
Proof.
  unfold attrs_internal. intro Ha. destruct op; simpl.
  - unfold __setitem__. now rewrite _set_key_value_attrs.
  - unfold __delitem__.
    now destruct (dict_get String.eqb (kv_store s) key).
  - unfold __setattr__.
    destruct (starts_with_underscore name || existsb (String.eqb name) ["db_name"])
      eqn:E.
    + simpl. now apply dict_set_internal.
    + apply orb_false_iff in E as [-> _]. simpl.
      destruct value; rewrite ?_set_key_value_attrs, ?_set_list_attrs;
        assumption.
  - now rewrite _set_list_attrs.
  - assumption.
  - now rewrite list_append_attrs.
  - now rewrite list_set_attrs.
  - now rewrite list_remove_attrs.
  - unfold EasyDBList.__setitem__, bind, list_len.
    destruct (index >=? count_rows name (list_store s)).
    + pose proof (append_none_attrs name
                    (Z.to_nat (index - count_rows name (list_store s))) s) as H.
      destruct (EasyDBList.append_none name _ s) as [[[]|e] s1]; simpl in *.
      * now rewrite list_append_attrs, H.
      * now rewrite H.
    + now rewrite list_set_attrs.
  - unfold EasyDBList.append. now rewrite list_append_attrs.
  - unfold EasyDBList.remove. now rewrite list_remove_attrs.
Qed.

End Router.

(** Every store the methods can produce has contiguous lists, stored
    in index order, and an instance dictionary of internal names. *)
Lemma reachable_invariants (s : db) :
  reachable s ->
  list_invariant s
  /\ (forall name, in_order name (list_store s))
  /\ attrs_internal s = true.
Proof.
  induction 1 as [db_name ts | op s Hs (IHl & IHo & IHa)].
  - split; [|split; [|reflexivity]].
    + intros name i. cbn. split; [tauto | lia].
    + intro name. reflexivity.
  - split; [|split].
    + exact (run_preserves op s IHl).
    + exact (run_in_order op s IHo).
    + now apply run_attrs_internal.
Qed.

(** C9, as stated, fails for a reserved name: with rows stored for a
    list [all_data], [db.all_data = 5] followed by a read of
    [db.all_data] yields the snapshot, not a list view. *)
Lemma scalar_write_reserved_counterexample :
  let s := snd (_set_list "all_data" [PyInt 1] (EasyDB "easy.db")) in
  _is_list "all_data" s = (Ok true, s)
  /\ exists s',
       attribute_write "all_data" (PyInt 5) s = (Ok tt, s')
       /\ attribute_read "all_data" s'
          = (Ok (AllData [("all_data", PyList [PyInt 1])]), s').
Proof. split; [reflexivity|]. eexists. split; reflexivity. Qed.

(** C9 (amended): for a data name [n] (not starting with an underscore,
    not [db_name], not [all_data] or [html_report], not a method of the
    class) and a value [v] that is not a list, [db.n = v] is the scalar
    upsert of [n] (or raises [TypeError] and changes nothing when [v] is
    not serializable) and leaves [list_store] as it is; when [n] has list
    rows, a following read of [db.n] returns the list view of [n], not
    [v]. *)
Theorem scalar_write_keeps_list (s : db) (n : string) (v : pyval) :
  attrs_internal s = true -> is_data_name n = true -> is_pylist v = false ->
  list_store (snd (attribute_write n v s)) = list_store s
  /\ (forall j, json_dumps v = Some j ->
                attribute_write n v s
                = (Ok tt, with_kv s (remove_key n (kv_store s) ++ [(n, j)])))
  /\ (json_dumps v = None -> attribute_write n v s = (Raise TypeError, s))
  /\ (0 < count_rows n (list_store s) ->
      attribute_read n (snd (attribute_write n v s))
      = (Ok (ListView n), snd (attribute_write n v s))).
Proof.
  intros Ha Hn Hv.
  assert (attribute_write n v = _set_key_value n v) as Hw.
  { rewrite (attribute_write_data_name n v Hn).
    destruct v; try reflexivity. discriminate. }
  rewrite Hw.
  assert (list_store (snd (_set_key_value n v s)) = list_store s) as Hrows
      by apply _set_key_value_rows.
  split; [assumption|]. split; [|split].
  - intros j Hj. unfold _set_key_value. now rewrite Hj.
  - intro Hj. unfold _set_key_value. now rewrite Hj.
  - intro Hcount. rewrite attribute_read_data_name; [|  |assumption].
    + rewrite Hrows. now apply Z.ltb_lt in Hcount as ->.
    + unfold attrs_internal. now rewrite _set_key_value_attrs.
Qed.

Lemma scalar_write_keeps_list_witness :
  let s := snd (_set_list "tasks" [PyStr "a"] (EasyDB "easy.db")) in
  exists s',
    attribute_write "tasks" (PyInt 5) s = (Ok tt, s')
    /\ list_store s' = list_store s
    /\ _get_key_value "tasks" s' = (Ok (PyInt 5), s')
    /\ attribute_read "tasks" s' = (Ok (ListView "tasks"), s').
Proof.
  destruct (scalar_write_keeps_list
              (snd (_set_list "tasks" [PyStr "a"] (EasyDB "easy.db")))
              "tasks" (PyInt 5) eq_refl eq_refl eq_refl)
    as (Hrows & Hok & _ & Hread).
  eexists. split; [apply (Hok (JNum 5) eq_refl)|].
  split; [reflexivity|]. split; [reflexivity|].
  apply Hread. reflexivity.
Defined.

(** C10, as stated, fails for a reserved name: after [db.all_data = []]
    on a store with no scalar [all_data], reading [db.all_data] raises
    nothing; it yields the (empty) snapshot. *)
Lemma empty_list_reserved_counterexample :
  let s := EasyDB "easy.db" in
  dict_get String.eqb (kv_store s) "all_data" = None
  /\ exists s',
       attribute_write "all_data" (PyList []) s = (Ok tt, s')
       /\ _is_list "all_data" s' = (Ok false, s')
       /\ attribute_read "all_data" s' = (Ok (AllData []), s').
Proof. split; [reflexivity|]. eexists. repeat split. Qed.

(** C10 (amended): for a data name [n], [db.n = []] succeeds, deletes
    the list rows of [n] and inserts none, and leaves [kv_store] alone;
    afterwards [_is_list n] is false and, when no scalar [n] is stored,
    reading [db.n] raises [AttributeError]. *)
Theorem empty_list_not_readable (s : db) (n : string) :
  attrs_internal s = true -> is_data_name n = true ->
  exists s',
    attribute_write n (PyList []) s = (Ok tt, s')
    /\ list_store s' = delete_list n (list_store s)
    /\ rows_of n (list_store s') = []
    /\ kv_store s' = kv_store s
    /\ _is_list n s' = (Ok false, s')
    /\ (dict_get String.eqb (kv_store s) n = None ->
        attribute_read n s' = (Raise AttributeError, s')).
Proof.
  intros Ha Hn. rewrite (attribute_write_data_name n _ Hn).
  exists (with_rows s (delete_list n (list_store s))).
  split; [reflexivity|]. split; [reflexivity|].
  assert (rows_of n (delete_list n (list_store s)) = []) as Hrows
      by apply rows_of_delete_list_same.
  split; [assumption|]. split; [reflexivity|]. split.
  - unfold _is_list, count_rows. simpl. now rewrite Hrows.
  - intro Hkv. rewrite attribute_read_data_name by assumption.
    unfold count_rows. simpl. now rewrite Hrows, Hkv.
Qed.

Lemma empty_list_not_readable_witness :
  let s := snd (_set_list "tasks" [PyStr "a"; PyStr "b"] (EasyDB "easy.db")) in
  _is_list "tasks" s = (Ok true, s)
  /\ exists s',
       attribute_write "tasks" (PyList []) s = (Ok tt, s')
       /\ _is_list "tasks" s' = (Ok false, s')
       /\ attribute_read "tasks" s' = (Raise AttributeError, s').
Proof.
  split; [reflexivity|].
  destruct (empty_list_not_readable
              (snd (_set_list "tasks" [PyStr "a"; PyStr "b"] (EasyDB "easy.db")))
              "tasks" eq_refl eq_refl)
    as (s' & Hw & _ & _ & _ & Hl & Hr).
  exists s'. split; [exact Hw|]. split; [exact Hl|]. apply Hr. reflexivity.
Defined.

(* ------------------------------------------------------------------ *)
(** ** The report *)

Section Report.

(** What is read from the two tables can be written again. *)

Lemma serializable_list (l : list pyval) :
  Forall serializable l -> serializable (PyList l).
Proof.
  unfold serializable. intro H. simpl.
  assert ((fix items (l : list pyval) : option (list json) :=
             match l with
             | [] => Some []
             | x :: r =>
                 match json_dumps x, items r with
                 | Some j, Some js => Some (j :: js)
                 | _, _ => None
                 end
             end) l <> None) as Hl.
  { induction H as [|x l Hx Hl IH]; [discriminate|].
    destruct (json_dumps x); [|contradiction].
    match goal with |- match ?e with _ => _ end <> _ => destruct e end;
      [discriminate | contradiction]. }
  match goal with |- option_map _ ?e <> _ => destruct e end;
    [discriminate | contradiction].
Qed.

Lemma serializable_dict (d : list (pykey * pyval)) :
  Forall (fun p => serializable (snd p)) d -> serializable (PyDict d).
Proof.
  unfold serializable. intro H. simpl.
  assert ((fix members (d : list (pykey * pyval))
             : option (list (string * json)) :=
             match d with
             | [] => Some []
             | (k, x) :: r =>
                 match json_dumps x, members r with
                 | Some j, Some js => Some ((key_text k, j) :: js)
                 | _, _ => None
                 end
             end) d <> None) as Hd.
  { induction H as [|[k x] d Hx Hd IH]; [discriminate|]. simpl in Hx.
    destruct (json_dumps x); [|contradiction].
    match goal with |- match ?e with _ => _ end <> _ => destruct e end;
      [discriminate | contradiction]. }
  match goal with |- option_map _ ?e <> _ => destruct e end;
    [discriminate | contradiction].
Qed.

Lemma dict_set_Forall {K V : Type} (eqb : K -> K -> bool) (Q : V -> Prop)
      (d : list (K * V)) k v :
  Forall (fun p => Q (snd p)) d -> Q v ->
  Forall (fun p => Q (snd p)) (dict_set eqb d k v).
Proof.
  intros Hd Hv. induction Hd as [|[k' v'] d Hp Hd IH]; simpl.
  - now constructor.
  - destruct (eqb k' k); constructor; assumption.
Qed.

Lemma dict_of_pairs_Forall {K V : Type} (eqb : K -> K -> bool) (Q : V -> Prop)
      (ps : list (K * V)) :
  Forall (fun p => Q (snd p)) ps ->
  Forall (fun p => Q (snd p)) (dict_of_pairs eqb ps).
Proof.
  unfold dict_of_pairs.
  assert (forall acc, Forall (fun p => Q (snd p)) acc ->
                      Forall (fun p => Q (snd p)) ps ->
                      Forall (fun p => Q (snd p))
                             (fold_left (fun d p => dict_set eqb d (fst p) (snd p))
                                        ps acc)) as H.
  { induction ps as [|p ps IH]; intros acc Hacc Hps; simpl; [assumption|].
    inversion Hps; subst. apply IH; [|assumption].
    now apply dict_set_Forall. }
  intro Hps. apply H; [constructor | assumption].
Qed.

Lemma json_loads_serializable (j : json) : serializable (json_loads j).
Proof.
  induction j as [| b | z | s | l IH | m IH | x] using json_nested_ind;
    try (simpl; discriminate).
  - simpl. apply serializable_list.
    induction IH; simpl; constructor; assumption.
  - simpl. apply serializable_dict. apply dict_of_pairs_Forall.
    induction IH as [|[k x] m Hx Hm IHm]; simpl; constructor; assumption.
Qed.

(** The snapshot holds for a list what [list_get] returns. *)
Lemma list_value_list_get name s l :
  list_get name s = (Ok l, s) -> list_value name (list_store s) = PyList l.
Proof. unfold list_get. now intros [= <-]. Qed.

Lemma list_value_serializable name rows : serializable (list_value name rows).
Proof.
  unfold list_value. apply serializable_list.
  apply Forall_forall. intros v Hv. apply in_map_iff in Hv as (r & <- & _).
  apply json_loads_serializable.
Qed.

(** *** A foreign table with distinct columns and full rows *)

Lemma map_fst_combine {A B : Type} (ks : list A) (vs : list B) :
  List.length vs = List.length ks -> map fst (combine ks vs) = ks.
Proof.
  revert vs. induction ks as [|k ks IH]; intros [|v vs] H; simpl in *;
    try reflexivity; try discriminate.
  f_equal. apply IH. now injection H.
Qed.

Lemma distinct_str_keys (cols : list string) :
  NoDup cols -> distinct_keys (map KStr cols) = true.
Proof.
  induction 1 as [|c cols Hc Hnd IH]; simpl; [reflexivity|].
  rewrite IH, andb_true_r. apply negb_true_iff.
  destruct (existsb (pykey_eqb (KStr c)) (map KStr cols)) eqn:E; [|reflexivity].
  apply existsb_exists in E as (k & Hk & Heq).
  apply pykey_eqb_eq in Heq. subst k.
  apply in_map_iff in Hk as (c' & [= ->] & Hin). contradiction.
Qed.

Lemma row_dict_regular (cols : list string) (row : list pyval) :
  NoDup cols -> List.length row = List.length cols ->
  row_dict cols row = PyDict (combine (map KStr cols) row).
Proof.
  intros Hnd Hlen. unfold row_dict. f_equal.
  apply dict_of_pairs_distinct.
  rewrite map_fst_combine by now rewrite length_map.
  now apply distinct_str_keys.
Qed.

Lemma header_cells_str (cols : list string) :
  header_cells (map KStr cols) = Ok cols.
Proof. induction cols as [|c cols IH]; simpl; [|rewrite IH]; reflexivity. Qed.

(** Looking every column up in the row's dictionary gives the row. *)
Lemma cells_of_row (cols : list string) :
  forall row : list pyval,
    NoDup cols -> List.length row = List.length cols ->
    map (fun col => match dict_get pykey_eqb (combine (map KStr cols) row) col with
                    | Some value => value
                    | None => PyStr ""
                    end) (map KStr cols)
    = row.
Proof.
  induction cols as [|c cols IH]; intros [|v row] Hnd Hlen; simpl in *;
    try reflexivity; try discriminate.
  rewrite String.eqb_refl. f_equal.
  apply NoDup_cons_iff in Hnd as [Hc Hnd].
  etransitivity; [|apply (IH row Hnd); now injection Hlen].
  apply map_ext_in. intros k Hk.
  apply in_map_iff in Hk as (c' & <- & Hin). simpl.
  destruct (String.eqb_spec c c'); [subst; contradiction | reflexivity].
Qed.

(** A dictionary answers for every column. *)
Lemma body_row_dict (columns : list pykey) (d : list (pykey * pyval)) :
  body_row columns (PyDict d)
  = Ok (map (fun col => match dict_get pykey_eqb d col with
                        | Some value => value
                        | None => PyStr ""
                        end) columns).
Proof. now destruct columns. Qed.

Lemma body_rows_regular (cols : list string) (rows : list (list pyval)) :
  NoDup cols ->
  Forall (fun row => List.length row = List.length cols) rows ->
  body_rows (map KStr cols)
            (map (fun row => PyDict (combine (map KStr cols) row)) rows)
  = Ok rows.
Proof.
  intros Hnd Hreg. induction Hreg as [|row rows Hrow Hreg IH]; simpl;
    [reflexivity|].
  rewrite IH, body_row_dict. now rewrite cells_of_row.
Qed.

Lemma table_data_regular (t : foreign_table) :
  NoDup (table_columns t) ->
  Forall (fun row => List.length row = List.length (table_columns t))
         (table_rows t) ->
  table_data t
  = PyList (map (fun row => PyDict (combine (map KStr (table_columns t)) row))
                (table_rows t)).
Proof.
  intros Hnd Hreg. unfold table_data. f_equal. apply map_ext_in.
  intros row Hrow. rewrite Forall_forall in Hreg.
  now apply row_dict_regular; [|apply Hreg].
Qed.

Lemma Forall_firstn {A : Type} (Q : A -> Prop) (k : nat) (l : list A) :
  Forall Q l -> Forall Q (firstn k l).
Proof.
  revert l. induction k as [|k IH]; intros l H; simpl; [constructor|].
  destruct H; constructor; [assumption | now apply IH].
Qed.

Lemma render_table_cons (name : string) first (rest : list pyval) :
  render_table name (PyList (PyDict first :: rest))
  = match header_cells (map fst first) with
    | Raise e => Raise e
    | Ok head =>
        match body_rows (map fst first) (firstn 10 (PyDict first :: rest)) with
        | Raise e => Raise e
        | Ok body =>
            Ok (mk_view name (Z.of_nat (List.length (PyDict first :: rest)))
                  head body
                  (if 10 <? Z.of_nat (List.length (PyDict first :: rest))
                   then Some (Z.of_nat (List.length (PyDict first :: rest)))
                   else None))
        end
    end.
Proof. reflexivity. Qed.

(** The view of a table that has rows: all its columns, its first ten
    rows, and the note when there are more. *)
Lemma render_table_regular (name : string) (t : foreign_table) :
  NoDup (table_columns t) ->
  Forall (fun row => List.length row = List.length (table_columns t))
         (table_rows t) ->
  table_rows t <> [] ->
  render_table name (table_data t)
  = Ok (mk_view name (Z.of_nat (List.length (table_rows t)))
                (table_columns t) (firstn 10 (table_rows t))
                (if 10 <? Z.of_nat (List.length (table_rows t))
                 then Some (Z.of_nat (List.length (table_rows t)))
                 else None)).
Proof.
  intros Hnd Hreg Hne. rewrite table_data_regular by assumption.
  generalize dependent (table_rows t). generalize dependent (table_columns t).
  intros cols Hnd rows Hreg Hne.
  destruct rows as [|row rows]; [contradiction|].
  cbn [map]. rewrite render_table_cons.
  rewrite map_fst_combine.
  2:{ rewrite length_map. now inversion Hreg. }
  rewrite header_cells_str.
  change (PyDict (combine (map KStr cols) row)
          :: map (fun row0 => PyDict (combine (map KStr cols) row0)) rows)
    with (map (fun row0 => PyDict (combine (map KStr cols) row0)) (row :: rows)).
  rewrite firstn_map, body_rows_regular, length_map;
    [reflexivity | assumption | now apply Forall_firstn].
Qed.

Lemma table_data_is_table_like (t : foreign_table) :
  table_rows t <> [] -> is_table_like (table_data t) = true.
Proof.
  unfold table_data. destruct (table_rows t); [contradiction | reflexivity].
Qed.

(** The loop over the tables sees the foreign tables only. *)
Lemma read_tables_filter (ts : list foreign_table) (d : snapshot) :
  read_tables ts d
  = read_tables
      (filter (fun t => negb (is_internal_table (table_name t))) ts) d.
Proof.
  revert d. induction ts as [|t ts IH]; intro d; simpl; [reflexivity|].
  destruct (is_internal_table (table_name t)) eqn:E; simpl; [apply IH|].
  rewrite E. destruct (table_readable t); [apply IH | reflexivity].
Qed.

(** A duplicate-free list with exactly the two elements [a] and [b]. *)
Lemma two_names (l : list string) (a b : string) :
  NoDup l -> a <> b -> (forall n, In n l <-> n = a \/ n = b) ->
  l = [a; b] \/ l = [b; a].
Proof.
  intros Hnd Hab Hl. apply Permutation_length_2_inv.
  apply NoDup_Permutation.
  - constructor; [intros [H | []]; congruence|].
    constructor; [intros []|constructor].
  - assumption.
  - intro n. rewrite Hl. simpl. intuition congruence.
Qed.

End Report.

(** C6, as stated, fails when an EasyDB list holds dictionaries: with no
    scalars, the lists [a = [1]] and [b = [{"x": 1}]] and one foreign
    table of 15 rows, the list [b] is rendered in the tabular section,
    next to the table, and is absent from the EasyDB section. *)
Lemma report_list_of_dicts_counterexample :
  let users :=
    mk_table "users" ["id"; "name"]
             (map (fun k => [PyInt (Z.of_nat k); PyStr "u"]) (seq 0 15)) true in
  let s := mk_db [] [mk_row "a" 0 (JNum 1); mk_row "b" 0 (JObj [("x", JNum 1)])]
                 [users] [("db_name", PyStr "easy.db")] in
  exists r,
    _generate_html_report s = (Ok r, s)
    /\ map tv_name (table_section r) = ["b"; "users"]
    /\ map fst (easydb_section r) = ["a"].
Proof. eexists. split; [reflexivity|]. split; reflexivity. Qed.

(** C6 (amended): on a store with no scalars, exactly two lists [a] and
    [b] whose stored sequences do not start with a dictionary, and one
    readable foreign table [t] of 15 rows (distinct columns, one cell per
    column) whose name is neither [a] nor [b], the report is produced,
    its tabular section is the one view of [t], showing all columns, the
    first 10 rows and the note "15 in total", and its EasyDB section
    holds exactly the two lists. *)
Theorem report_truncates_and_classifies
        (s : db) (a b : string) (t : foreign_table) :
  kv_store s = [] ->
  a <> b ->
  (forall n, In n (map list_name (list_store s)) <-> n = a \/ n = b) ->
  filter (fun t => negb (is_internal_table (table_name t))) (tables s) = [t] ->
  table_readable t = true ->
  List.length (table_rows t) = 15%nat ->
  NoDup (table_columns t) ->
  Forall (fun row => List.length row = List.length (table_columns t))
         (table_rows t) ->
  table_name t <> a -> table_name t <> b ->
  is_table_like (list_value a (list_store s)) = false ->
  is_table_like (list_value b (list_store s)) = false ->
  exists r,
    _generate_html_report s = (Ok r, s)
    /\ table_section r
       = [mk_view (table_name t) 15 (table_columns t)
                  (firstn 10 (table_rows t)) (Some 15)]
    /\ List.length (firstn 10 (table_rows t)) = 10%nat
    /\ Permutation (easydb_section r)
                   [(a, list_value a (list_store s));
                    (b, list_value b (list_store s))].
Proof.
  intros Hkv Hab Hnames Htabs Hread Hlen Hnd Hreg Hta Htb Hla Hlb.
  assert (table_rows t <> []) as Hne
      by (intro E; rewrite E in Hlen; discriminate).
  assert (is_internal_table (table_name t) = false) as Hint.
  { assert (In t [t]) as Hin by now left.
    rewrite <- Htabs in Hin. apply filter_In in Hin as [_ Hin].
    now apply negb_true_iff in Hin. }
  (* the snapshot *)
  assert (forall x y,
             x <> y -> table_name t <> x -> table_name t <> y ->
             distinct_list_names (list_store s) = [x; y] ->
             _get_all_data s
             = (Ok [(x, list_value x (list_store s));
                    (y, list_value y (list_store s));
                    (table_name t, table_data t)], s)) as Hsnap.
  { intros x y Hxy Htx Hty Hn. unfold _get_all_data.
    rewrite Hkv, Hn, read_tables_filter, Htabs. cbn [fold_left fst snd].
    cbn [dict_set]. apply String.eqb_neq in Hxy. rewrite Hxy.
    cbn [read_tables]. rewrite Hint, Hread. cbn [dict_set].
    assert (String.eqb x (table_name t) = false) as ->
        by (apply String.eqb_neq; congruence).
    assert (String.eqb y (table_name t) = false) as ->
        by (apply String.eqb_neq; congruence).
    reflexivity. }
  (* the report of such a snapshot *)
  assert (forall x y,
             is_table_like (list_value x (list_store s)) = false ->
             is_table_like (list_value y (list_store s)) = false ->
             render_report [(x, list_value x (list_store s));
                            (y, list_value y (list_store s));
                            (table_name t, table_data t)]
             = Ok (mk_report 1 2
                     [(x, list_value x (list_store s));
                      (y, list_value y (list_store s))]
                     [mk_view (table_name t) 15 (table_columns t)
                              (firstn 10 (table_rows t)) (Some 15)])) as Hrep.
  { intros x y Hx Hy. unfold render_report. cbn [filter snd].
    rewrite Hx, Hy, (table_data_is_table_like t Hne). cbn [negb].
    cbn [render_entries].
    destruct (json_dumps (list_value x (list_store s))) as [jx|] eqn:Ex;
      [|now apply list_value_serializable in Ex].
    destruct (json_dumps (list_value y (list_store s))) as [jy|] eqn:Ey;
      [|now apply list_value_serializable in Ey].
    cbn [render_tables].
    rewrite (render_table_regular _ t Hnd Hreg Hne), Hlen. reflexivity. }
  assert (List.length (firstn 10 (table_rows t)) = 10%nat) as H10
      by (rewrite length_firstn, Hlen; reflexivity).
  unfold _generate_html_report, bind.
  destruct (two_names (distinct_list_names (list_store s)) a b) as [Hn | Hn];
    try assumption.
  - apply sort_keys_NoDup, NoDup_nodup.
  - intro n. unfold distinct_list_names. rewrite sort_keys_In, nodup_In.
    apply Hnames.
  - rewrite (Hsnap a b Hab Hta Htb Hn), (Hrep a b Hla Hlb).
    eexists. split; [reflexivity|]. split; [reflexivity|]. split; [assumption|].
    reflexivity.
  - rewrite (Hsnap b a (not_eq_sym Hab) Htb Hta Hn), (Hrep b a Hlb Hla).
    eexists. split; [reflexivity|]. split; [reflexivity|]. split; [assumption|].
    apply perm_swap.
Qed.

Lemma report_truncates_and_classifies_witness :
  let users :=
    mk_table "users" ["id"; "name"]
             (map (fun k => [PyInt (Z.of_nat k); PyStr "u"]) (seq 0 15)) true in
  let s := mk_db [] [mk_row "a" 0 (JNum 1); mk_row "b" 0 (JStr "x");
                     mk_row "a" 1 (JObj [("k", JNull)])]
                 [mk_table "sqlite_sequence" ["name"; "seq"] [] true; users]
                 [("db_name", PyStr "easy.db")] in
  exists r,
    _generate_html_report s = (Ok r, s)
    /\ table_section r
       = [mk_view "users" 15 ["id"; "name"]
                  (map (fun k => [PyInt (Z.of_nat k); PyStr "u"]) (seq 0 10))
                  (Some 15)]
    /\ List.length (firstn 10 (table_rows users)) = 10%nat
    /\ Permutation (easydb_section r)
                   [("a", PyList [PyInt 1; PyDict [(KStr "k", PyNone)]]);
                    ("b", PyList [PyStr "x"])].
Proof.
  intros users s.
  apply (report_truncates_and_classifies s "a" "b" users).
  - reflexivity.
  - discriminate.
  - intro n. simpl. intuition.
  - reflexivity.
  - reflexivity.
  - reflexivity.
  - repeat constructor; simpl; intuition discriminate.
  - repeat constructor.
  - discriminate.
  - discriminate.
  - reflexivity.
  - reflexivity.
Defined.

(* ================================================================== *)
(** * Further properties of the code *)

(* ------------------------------------------------------------------ *)
(** ** The scalar table: deletion, membership, enumeration *)

Section Scalars.

Implicit Types (key k : string) (kv : list (string * json)) (s : db).

Lemma dict_get_app {V : Type} (l1 l2 : list (string * V)) k :
  dict_get String.eqb (l1 ++ l2) k
  = match dict_get String.eqb l1 k with
    | Some v => Some v
    | None => dict_get String.eqb l2 k
    end.
Proof.
  induction l1 as [|[k' v'] l1 IH]; simpl; [reflexivity|].
  now destruct (String.eqb k' k).
Qed.

Lemma dict_get_remove_key_same key kv :
  dict_get String.eqb (remove_key key kv) key = None.
Proof.
  pose proof (dict_get_remove_key key kv []) as H.
  now rewrite app_nil_r in H.
Qed.

Lemma dict_get_remove_key_other key k kv :
  k <> key ->
  dict_get String.eqb (remove_key key kv) k = dict_get String.eqb kv k.
Proof.
  intro Hne. induction kv as [|[k' j'] kv IH]; simpl; [reflexivity|].
  destruct (String.eqb_spec k' key) as [->|Hk]; simpl.
  - destruct (String.eqb_spec key k); [congruence | exact IH].
  - now rewrite IH.
Qed.

(** [key in db] tells whether a row of the key is stored; it raises
    nothing and changes nothing. *)
Lemma __contains___spec key s :
  __contains__ key s
  = (Ok (match dict_get String.eqb (kv_store s) key with
         | Some _ => true
         | None => false
         end), s).
Proof.
  unfold __contains__, __getitem__, _get_key_value.
  now destruct (dict_get String.eqb (kv_store s) key).
Qed.

Lemma __getitem___spec key s :
  __getitem__ key s
  = (match dict_get String.eqb (kv_store s) key with
     | Some j => Ok (json_loads j)
     | None => Raise KeyError
     end, s).
Proof.
  unfold __getitem__, _get_key_value.
  now destruct (dict_get String.eqb (kv_store s) key).
Qed.

Lemma in_map_fst_remove_key key k kv :
  In k (map fst (remove_key key kv)) <-> In k (map fst kv) /\ k <> key.
Proof.
  unfold remove_key. rewrite !in_map_iff. split.
  - intros ([k' j] & <- & H). apply filter_In in H as [Hin Hk]. simpl in *.
    apply negb_true_iff, String.eqb_neq in Hk. split; [|assumption].
    now exists (k', j).
  - intros [([k' j] & <- & Hin) Hk]. exists (k', j). split; [reflexivity|].
    apply filter_In. split; [assumption|]. simpl.
    now apply negb_true_iff, String.eqb_neq.
Qed.

Lemma NoDup_remove_key key kv :
  NoDup (map fst kv) -> NoDup (map fst (remove_key key kv)).
Proof.
  induction kv as [|[k j] kv IH]; simpl; intro H; [constructor|].
  apply NoDup_cons_iff in H as [Hk H].
  destruct (String.eqb k key); simpl; [now apply IH|].
  constructor; [|now apply IH].
  intro Hin. apply in_map_fst_remove_key in Hin as [Hin _]. contradiction.
Qed.

Lemma NoDup_upsert key j kv :
  NoDup (map fst kv) -> NoDup (map fst (remove_key key kv ++ [(key, j)])).
Proof.
  intro H. rewrite map_app. simpl.
  apply (Permutation_NoDup (Permutation_cons_append _ key)).
  constructor; [|now apply NoDup_remove_key].
  intro Hin. apply in_map_fst_remove_key in Hin as [_ Hne]. congruence.
Qed.

Lemma combine_map {A B C : Type} (f : A -> B) (g : A -> C) (l : list A) :
  combine (map f l) (map g l) = map (fun p => (f p, g p)) l.
Proof. induction l as [|x l IH]; simpl; [|rewrite IH]; reflexivity. Qed.


Lemma dict_get_None {V : Type} (l : list (string * V)) k :
  dict_get String.eqb l k = None <-> ~ In k (map fst l).
Proof.
  induction l as [|[k' v'] l IH]; simpl; [tauto|].
  destruct (String.eqb_spec k' k) as [->|Hne].
  - split; [discriminate | tauto].
  - rewrite IH. tauto.
Qed.

End Scalars.

(** X1: [del db[key]] on a key that is not stored raises [KeyError] and
    changes nothing.  On a stored key it succeeds; afterwards the key is
    not in the store ([key in db] is false, [db[key]] and a second
    [del db[key]] raise [KeyError]), every other key reads as before and
    the list table is untouched. *)
Theorem delitem_removes (s : db) (key : string) :
  (__contains__ key s = (Ok false, s) ->
   __delitem__ key s = (Raise KeyError, s))
  /\ (__contains__ key s = (Ok true, s) ->
      exists s',
        __delitem__ key s = (Ok tt, s')
        /\ __contains__ key s' = (Ok false, s')
        /\ __getitem__ key s' = (Raise KeyError, s')
        /\ __delitem__ key s' = (Raise KeyError, s')
        /\ (forall k, k <> key ->
                      fst (__getitem__ k s') = fst (__getitem__ k s))
        /\ list_store s' = list_store s).
Proof.
  rewrite __contains___spec. unfold __delitem__.
  destruct (dict_get String.eqb (kv_store s) key) as [j|] eqn:E; split;
    try discriminate; intros _; [|reflexivity].
  eexists. split; [reflexivity|].
  rewrite __contains___spec, !__getitem___spec. simpl.
  rewrite dict_get_remove_key_same.
  repeat split.
  intros k Hk. rewrite !__getitem___spec. simpl.
  now rewrite dict_get_remove_key_other.
Qed.

Lemma delitem_removes_witness :
  let s := snd ((__setitem__ "name" (PyStr "Ann") ;;;
                 __setitem__ "age" (PyInt 25)) (EasyDB "easy.db")) in
  __delitem__ "city" s = (Raise KeyError, s)
  /\ exists s',
       __delitem__ "name" s = (Ok tt, s')
       /\ __contains__ "name" s' = (Ok false, s')
       /\ fst (__getitem__ "age" s') = Ok (PyInt 25).
Proof.
  pose (s := snd ((__setitem__ "name" (PyStr "Ann") ;;;
                   __setitem__ "age" (PyInt 25)) (EasyDB "easy.db"))).
  split.
  - apply (proj1 (delitem_removes s "city")). reflexivity.
  - destruct (proj2 (delitem_removes s "name") eq_refl)
      as (s' & Hd & Hc & _ & _ & Hk & _).
    exists s'. split; [exact Hd|]. split; [exact Hc|].
    rewrite (Hk "age") by discriminate. reflexivity.
Defined.

(** X2: [db[key] = value] with a value that is not serializable raises
    [TypeError] and changes nothing.  With a serializable value it
    succeeds, the key is then in the store, and no other key, no list
    row and no instance attribute is affected. *)
Theorem setitem_frame (s : db) (key : string) (value : pyval) :
  (json_dumps value = None ->
   __setitem__ key value s = (Raise TypeError, s))
  /\ (json_dumps value <> None ->
      exists s',
        __setitem__ key value s = (Ok tt, s')
        /\ __contains__ key s' = (Ok true, s')
        /\ (forall k, k <> key ->
                      fst (__getitem__ k s') = fst (__getitem__ k s)
                      /\ fst (__contains__ k s') = fst (__contains__ k s))
        /\ list_store s' = list_store s
        /\ attrs s' = attrs s).
Proof.
  unfold __setitem__, _set_key_value.
  destruct (json_dumps value) as [j|]; split; try discriminate;
    try contradiction; intros _; [|reflexivity].
  eexists. split; [reflexivity|].
  rewrite __contains___spec. simpl.
  rewrite dict_get_remove_key. simpl. rewrite String.eqb_refl.
  split; [reflexivity|]. split; [|split; reflexivity].
  intros k Hk. rewrite !__getitem___spec, !__contains___spec. simpl.
  rewrite dict_get_app, dict_get_remove_key_other by assumption. simpl.
  destruct (String.eqb_spec key k); [congruence|].
  now destruct (dict_get String.eqb (kv_store s) k).
Qed.

Lemma setitem_frame_witness :
  let s := snd (__setitem__ "age" (PyInt 25) (EasyDB "easy.db")) in
  __setitem__ "blob" (PyBytes "raw") s = (Raise TypeError, s)
  /\ exists s',
       __setitem__ "name" (PyStr "Ann") s = (Ok tt, s')
       /\ __contains__ "name" s' = (Ok true, s')
       /\ fst (__getitem__ "age" s') = Ok (PyInt 25).
Proof.
  pose (s := snd (__setitem__ "age" (PyInt 25) (EasyDB "easy.db"))).
  split.
  - apply (proj1 (setitem_frame s "blob" (PyBytes "raw"))). reflexivity.
  - destruct (proj2 (setitem_frame s "name" (PyStr "Ann")))
      as (s' & Hs & Hc & Hk & _); [discriminate|].
    exists s'. split; [exact Hs|]. split; [exact Hc|].
    rewrite (proj1 (Hk "age" ltac:(discriminate))). reflexivity.
Defined.

(* ------------------------------------------------------------------ *)
(** ** What an operation leaves alone *)

Section Frames.

Implicit Types (name n : string) (rows : list list_row) (i : Z) (s : db).

Lemma with_rows_same s : with_rows s (list_store s) = s.
Proof. now destruct s. Qed.

Lemma writes_rows_only_ret {A : Type} (a : A) : writes_rows_only (ret a).
Proof. intro s. exists (list_store s). simpl. now rewrite with_rows_same. Qed.

Lemma writes_rows_only_bind {A B : Type} (m : M A) (f : A -> M B) :
  writes_rows_only m -> (forall a, writes_rows_only (f a)) ->
  writes_rows_only (bind m f).
Proof.
  intros Hm Hf s. unfold bind. destruct (Hm s) as [rows1 H1].
  destruct (m s) as [[a|e] s1]; simpl in H1; subst s1.
  - destruct (Hf a (with_rows s rows1)) as [rows2 H2].
    exists rows2. now rewrite H2.
  - now exists rows1.
Qed.

Lemma list_append_rows_only name item : writes_rows_only (list_append name item).
Proof.
  intro s. unfold list_append.
  destruct (json_dumps item) as [j|].
  - destruct (sql_insert name _ j (list_store s)) as [rows'|e].
    + now exists rows'.
    + exists (list_store s). simpl. now rewrite with_rows_same.
  - exists (list_store s). simpl. now rewrite with_rows_same.
Qed.

Lemma list_set_rows_only name i item : writes_rows_only (list_set name i item).
Proof.
  intro s. unfold list_set.
  destruct (json_dumps item) as [j|];
    [destruct (rowcount name i (list_store s) =? 0);
     [destruct (in_int64 i);
      [destruct (i >=? count_rows name (list_store s))|]|]|];
    try (exists (list_store s); simpl; now rewrite with_rows_same).
  eexists. reflexivity.
Qed.

Lemma list_remove_rows_only name i : writes_rows_only (list_remove name i).
Proof.
  intro s. destruct (list_remove_cases name i s) as [[_ E]|[e E]]; rewrite E.
  - eexists. reflexivity.
  - exists (list_store s). simpl. now rewrite with_rows_same.
Qed.

Lemma _set_list_rows_only name items : writes_rows_only (_set_list name items).
Proof.
  intro s. unfold _set_list.
  destruct (insert_items name 0 items _) as [rows'|e].
  - now exists rows'.
  - exists (list_store s). simpl. now rewrite with_rows_same.
Qed.

Lemma append_none_rows_only name (k : nat) :
  writes_rows_only (EasyDBList.append_none name k).
Proof.
  induction k as [|k IH]; simpl.
  - apply writes_rows_only_ret.
  - apply writes_rows_only_bind; [apply list_append_rows_only | intros _; exact IH].
Qed.

Lemma view_setitem_rows_only name i item :
  writes_rows_only (EasyDBList.__setitem__ name i item).
Proof.
  unfold EasyDBList.__setitem__. apply writes_rows_only_bind.
  - intro s. exists (list_store s). simpl. now rewrite with_rows_same.
  - intro len. destruct (i >=? len).
    + apply writes_rows_only_bind; [apply append_none_rows_only|].
      intros _. apply list_append_rows_only.
    + apply list_set_rows_only.
Qed.

Lemma list_op_rows_only (op : operation) name :
  list_of op = Some name -> writes_rows_only (run op).
Proof.
  destruct op; simpl; try discriminate; intros _.
  - apply _set_list_rows_only.
  - apply writes_rows_only_ret.
  - apply list_append_rows_only.
  - apply list_set_rows_only.
  - apply list_remove_rows_only.
  - apply view_setitem_rows_only.
  - apply list_append_rows_only.
  - apply list_remove_rows_only.
Qed.

(** *** The other lists *)

Lemma keeps_other_lists_ret {A : Type} name (a : A) :
  keeps_other_lists name (ret a).
Proof. intros s n _. reflexivity. Qed.

Lemma keeps_other_lists_bind {A B : Type} name (m : M A) (f : A -> M B) :
  keeps_other_lists name m -> (forall a, keeps_other_lists name (f a)) ->
  keeps_other_lists name (bind m f).
Proof.
  intros Hm Hf s n Hn. unfold bind. specialize (Hm s n Hn).
  destruct (m s) as [[a|e] s1]; simpl in *; [|assumption].
  now rewrite (Hf a s1 n Hn).
Qed.

Lemma rows_of_update_other name n i j rows :
  n <> name -> rows_of n (update_value name i j rows) = rows_of n rows.
Proof.
  intro Hne. unfold update_value. rewrite rows_of_map.
  - apply map_fixed. intros r Hr. apply rows_of_name in Hr.
    unfold at_index. now rewrite (other_name_eqb name n r).
  - intro r. now destruct (at_index name i r).
Qed.

Lemma list_append_other name item : keeps_other_lists name (list_append name item).
Proof.
  intros s n Hn. unfold list_append.
  destruct (json_dumps item) as [j|]; [|reflexivity].
  destruct (sql_insert name _ j (list_store s)) as [rows'|e] eqn:E;
    [|reflexivity].
  apply sql_insert_ok in E. subst rows'. simpl.
  now apply rows_of_insert_other.
Qed.

Lemma list_set_other name i item : keeps_other_lists name (list_set name i item).
Proof.
  intros s n Hn. unfold list_set.
  destruct (json_dumps item) as [j|]; [|reflexivity].
  destruct (rowcount name i (list_store s) =? 0).
  - destruct (in_int64 i); [|reflexivity].
    now destruct (i >=? count_rows name (list_store s)).
  - simpl. now apply rows_of_update_other.
Qed.

Lemma list_remove_other name i : keeps_other_lists name (list_remove name i).
Proof.
  intros s n Hn.
  destruct (list_remove_cases name i s) as [[_ E]|[e E]]; rewrite E;
    [|reflexivity].
  simpl. now rewrite rows_of_shift_down_other, rows_of_delete_at_other.
Qed.

Lemma _set_list_other name items : keeps_other_lists name (_set_list name items).
Proof.
  intros s n Hn. unfold _set_list.
  destruct (insert_items name 0 items _) as [rows'|e] eqn:E; [|reflexivity].
  apply insert_items_ok in E as [Hother _]. simpl.
  rewrite Hother by assumption. now apply rows_of_delete_list_other.
Qed.

Lemma append_none_other name (k : nat) :
  keeps_other_lists name (EasyDBList.append_none name k).
Proof.
  induction k as [|k IH]; simpl.
  - apply keeps_other_lists_ret.
  - apply keeps_other_lists_bind; [apply list_append_other | intros _; exact IH].
Qed.

Lemma view_setitem_other name i item :
  keeps_other_lists name (EasyDBList.__setitem__ name i item).
Proof.
  unfold EasyDBList.__setitem__. apply keeps_other_lists_bind.
  - intros s n _. reflexivity.
  - intro len. destruct (i >=? len).
    + apply keeps_other_lists_bind; [apply append_none_other|].
      intros _. apply list_append_other.
    + apply list_set_other.
Qed.

Lemma list_op_other (op : operation) name :
  list_of op = Some name -> keeps_other_lists name (run op).
Proof.
  destruct op; simpl; try discriminate; intros [= <-].
  - apply _set_list_other.
  - apply keeps_other_lists_ret.
  - apply list_append_other.
  - apply list_set_other.
  - apply list_remove_other.
  - apply view_setitem_other.
  - apply list_append_other.
  - apply list_remove_other.
Qed.

(** The scalar table after an operation: as before, or with one key
    replaced, or with one key removed. *)
Lemma run_kv_store (op : operation) s :
  kv_store (snd (run op s)) = kv_store s
  \/ (exists key j,
        kv_store (snd (run op s)) = (remove_key key (kv_store s) ++ [(key, j)])%list)
  \/ (exists key, kv_store (snd (run op s)) = remove_key key (kv_store s)).
Proof.
  assert (forall key value,
             kv_store (snd (_set_key_value key value s)) = kv_store s
             \/ exists key' j,
                 kv_store (snd (_set_key_value key value s))
                 = (remove_key key' (kv_store s) ++ [(key', j)])%list) as Hset.
  { intros key value. unfold _set_key_value.
    destruct (json_dumps value) as [j|]; [right; now exists key, j | now left]. }
  destruct (list_of op) as [name|] eqn:E.
  - left. destruct (list_op_rows_only op name E s) as [rows ->]. reflexivity.
  - destruct op; simpl in E; try discriminate; simpl.
    + unfold __setitem__.
      destruct (Hset key value) as [H | H]; [now left | right; now left].
    + unfold __delitem__.
      destruct (dict_get String.eqb (kv_store s) key);
        [right; right; now exists key | now left].
    + unfold __setattr__.
      destruct (starts_with_underscore name || _); [now left|].
      destruct (negb (starts_with_underscore name)); [|now left].
      destruct value as [| b | z | str | l | l | d | b | x];
        try (match goal with
             | |- context [_set_key_value name ?v] =>
                 destruct (Hset name v) as [H | H]; [now left | right; now left]
             end).
      left. destruct (_set_list_rows_only name l s) as [rows ->]. reflexivity.
Qed.

End Frames.

(** X3: the keys of the scalar table stay pairwise distinct under every
    operation, whether it returns or raises: a write to a stored key
    replaces its row instead of adding one. *)
Theorem keys_stay_distinct (op : operation) (s : db) :
  NoDup (map fst (kv_store s)) ->
  NoDup (map fst (kv_store (snd (run op s)))).
Proof.
  intro H.
  destruct (run_kv_store op s) as [-> | [(key & j & ->) | (key & ->)]].
  - assumption.
  - now apply NoDup_upsert.
  - now apply NoDup_remove_key.
Qed.

Lemma keys_stay_distinct_witness :
  let s := snd (__setitem__ "age" (PyInt 25) (EasyDB "easy.db")) in
  NoDup (map fst (kv_store (snd (run (OpSetItem "age" (PyInt 26)) s))))
  /\ keys (snd (run (OpSetItem "age" (PyInt 26)) s))
     = (Ok ["age"], snd (run (OpSetItem "age" (PyInt 26)) s)).
Proof.
  split; [|reflexivity].
  apply (keys_stay_distinct (OpSetItem "age" (PyInt 26))
           (snd (__setitem__ "age" (PyInt 25) (EasyDB "easy.db")))).
  simpl. repeat constructor. intros [].
Defined.



(* ------------------------------------------------------------------ *)
(** ** Reading and writing the elements of a list *)

Section Elements.

Implicit Types (name n : string) (rows : list list_row) (i : Z) (s : db).

Lemma NoDup_map_inj {A B : Type} (f : A -> B) (l : list A) x y :
  NoDup (map f l) -> In x l -> In y l -> f x = f y -> x = y.
Proof.
  induction l as [|a l IH]; simpl; intros Hnd Hx Hy Hf; [contradiction|].
  apply NoDup_cons_iff in Hnd as [Ha Hnd].
  destruct Hx as [-> | Hx], Hy as [-> | Hy].
  - reflexivity.
  - exfalso. apply Ha. rewrite Hf. now apply in_map.
  - exfalso. apply Ha. rewrite <- Hf. now apply in_map.
  - now apply IH.
Qed.

(** Rows that lie in index order are left as they are by the sort. *)
Lemma order_by_index_in_order (R : list list_row) :
  forall a : nat,
    map item_index R = map Z.of_nat (seq a (List.length R)) ->
    order_by_index R = R.
Proof.
  induction R as [|x t IH]; intros a H; [reflexivity|].
  simpl in H. injection H as Hx Ht. simpl.
  rewrite (IH (S a) Ht). apply insert_row_front.
  intros y Hy.
  assert (In (item_index y) (map Z.of_nat (seq (S a) (List.length t)))) as Hin
      by (rewrite <- Ht; now apply in_map).
  apply in_map_iff in Hin as (m & <- & Hm). apply in_seq in Hm. lia.
Qed.

(** On a contiguous list, the row found at index [i] is the [i]-th row
    in index order. *)
Lemma find_row_nth name i rows :
  contiguous name rows -> 0 <= i < count_rows name rows ->
  exists r, find_row name i rows = Some r
            /\ nth_error (order_by_index (rows_of name rows)) (Z.to_nat i)
               = Some r.
Proof.
  intros Hc Hi.
  destruct (find_row name i rows) as [r|] eqn:E.
  2:{ apply find_row_none in E. exfalso. now apply E, Hc. }
  exists r. split; [reflexivity|].
  apply find_row_some in E as (Hin & Hn & Hidx).
  set (S := order_by_index (rows_of name rows)).
  assert (Z.to_nat i < List.length S)%nat as Hlt.
  { unfold S. rewrite order_by_index_length. unfold count_rows in Hi. lia. }
  destruct (nth_error S (Z.to_nat i)) as [r0|] eqn:E0.
  2:{ apply nth_error_None in E0. lia. }
  f_equal.
  assert (item_index r0 = i) as Hidx0.
  { pose proof (contiguous_sorted name rows Hc) as Hs. fold S in Hs.
    pose proof (map_nth_error item_index _ _ E0) as Hm. rewrite Hs in Hm.
    unfold range in Hm.
    rewrite nth_error_map, nth_error_seq in Hm.
    destruct (Z.to_nat i <? List.length (rows_of name rows))%nat;
      simpl in Hm; [|discriminate].
    injection Hm as Hm. lia. }
  apply nth_error_In in E0. unfold S in E0.
  apply (proj1 (order_by_index_In _ _)) in E0.
  apply (NoDup_map_inj item_index (rows_of name rows)).
  - now apply contiguous_NoDup.
  - assumption.
  - apply filter_In. split; [assumption|]. now apply String.eqb_eq.
  - congruence.
Qed.

End Elements.

(** X5: on a contiguous list with stored sequence [l],
    [list_get_item name i] (and [db.name[i]]) returns the element of [l]
    at position [i] when [0 <= i < len(l)].  For every other index in
    the signed 64-bit range, a negative one included, it raises
    [IndexError]: no Python-style indexing from the end.  For every
    other index outside that range it raises [OverflowError]. *)
Theorem list_get_item_bounds (s : db) (name : string) (i : Z) (l : list pyval) :
  contiguous name (list_store s) ->
  list_get name s = (Ok l, s) ->
  (0 <= i < Z.of_nat (List.length l) ->
   list_get_item name i s = (Ok (nth (Z.to_nat i) l PyNone), s)
   /\ EasyDBList.__getitem__ name i s = (Ok (nth (Z.to_nat i) l PyNone), s))
  /\ (i < 0 \/ Z.of_nat (List.length l) <= i ->
      - 2 ^ 63 <= i < 2 ^ 63 ->
      list_get_item name i s = (Raise IndexError, s)
      /\ EasyDBList.__getitem__ name i s = (Raise IndexError, s))
  /\ (i < 0 \/ Z.of_nat (List.length l) <= i ->
      i < - 2 ^ 63 \/ 2 ^ 63 <= i ->
      list_get_item name i s = (Raise OverflowError, s)
      /\ EasyDBList.__getitem__ name i s = (Raise OverflowError, s)).
Proof.
  intros Hc Hl. pose proof (list_get_length _ _ _ Hl) as Hlen.
  unfold EasyDBList.__getitem__, list_get_item.
  assert (i < 0 \/ Z.of_nat (List.length l) <= i ->
          find_row name i (list_store s) = None) as Hnone.
  { intro Hi. rewrite Hlen in Hi.
    apply find_row_none. intro Hin. apply Hc in Hin. lia. }
  split; [|split].
  - intro Hi. rewrite Hlen in Hi.
    destruct (find_row_nth name i (list_store s) Hc Hi) as (r & -> & Hnth).
    unfold list_get in Hl. injection Hl as <-.
    apply (map_nth_error (fun r => json_loads (item_value r))) in Hnth.
    now rewrite (nth_error_nth _ _ PyNone Hnth).
  - intros Hi H64. now rewrite (Hnone Hi), in_int64_inside.
  - intros Hi H64. now rewrite (Hnone Hi), in_int64_outside.
Qed.

Lemma list_get_item_bounds_witness :
  let s := snd (_set_list "numbers" [PyInt 0; PyInt 2; PyInt 4]
                          (EasyDB "example.db")) in
  list_get_item "numbers" 2 s = (Ok (PyInt 4), s)
  /\ list_get_item "numbers" 3 s = (Raise IndexError, s)
  /\ list_get_item "numbers" (-1) s = (Raise IndexError, s)
  /\ list_get_item "numbers" (2 ^ 63) s = (Raise OverflowError, s).
Proof.
  pose (s := snd (_set_list "numbers" [PyInt 0; PyInt 2; PyInt 4]
                            (EasyDB "example.db"))).
  assert (contiguous "numbers" (list_store s)) as Hc by (intro i; cbn; lia).
  pose proof (list_get_item_bounds s "numbers" 2 _ Hc eq_refl) as [H2 _].
  pose proof (list_get_item_bounds s "numbers" 3 _ Hc eq_refl) as [_ [H3 _]].
  pose proof (list_get_item_bounds s "numbers" (-1) _ Hc eq_refl) as [_ [Hm _]].
  pose proof (list_get_item_bounds s "numbers" (2 ^ 63) _ Hc eq_refl)
    as [_ [_ Hbig]].
  split; [|split; [|split]].
  - apply H2. simpl. lia.
  - apply H3; simpl; lia.
  - apply Hm; simpl; lia.
  - apply Hbig; simpl; lia.
Defined.

(** X6: appending the items of a sequence one by one to a contiguous
    list with stored sequence [l] succeeds when the items are of the JSON
    data model; the list then reads [l] followed by the items, in order,
    its length is the sum of the two lengths, and it is contiguous. *)
Theorem append_all_extends
        (s : db) (name : string) (items l : list pyval) :
  contiguous name (list_store s) ->
  list_get name s = (Ok l, s) ->
  forallb json_shaped items = true ->
  exists s',
    append_all name items s = (Ok tt, s')
    /\ list_get name s' = (Ok (l ++ items)%list, s')
    /\ list_len name s' = (Ok (Z.of_nat (List.length l + List.length items)), s')
    /\ contiguous name (list_store s').
Proof.
  revert s l. induction items as [|item items IH]; intros s l Hc Hl Hs.
  - exists s. simpl. rewrite app_nil_r, Nat.add_0_r.
    split; [reflexivity|]. split; [assumption|]. split; [|assumption].
    unfold list_len. now rewrite <- (list_get_length _ _ _ Hl).
  - simpl in Hs. apply andb_true_iff in Hs as [Hitem Hs].
    destruct (json_shaped_round_trip item Hitem) as (j & Hj & Hload).
    destruct (list_append_spec name item j s l Hc Hj Hl) as (s1 & H1 & Hc1 & Hl1).
    rewrite Hload in Hl1.
    destruct (IH s1 _ Hc1 Hl1 Hs) as (s2 & H2 & Hl2 & Hn2 & Hc2).
    exists s2. simpl. unfold bind. rewrite H1.
    split; [exact H2|]. split; [now rewrite Hl2, <- app_assoc|].
    split; [|assumption].
    rewrite Hn2, length_app. simpl. do 3 f_equal. lia.
Qed.

Lemma append_all_extends_witness :
  exists s',
    append_all "numbers" [PyInt 0; PyInt 2; PyInt 4; PyInt 6; PyInt 8]
               (EasyDB "example.db") = (Ok tt, s')
    /\ list_get "numbers" s'
       = (Ok [PyInt 0; PyInt 2; PyInt 4; PyInt 6; PyInt 8], s')
    /\ list_len "numbers" s' = (Ok 5, s').
Proof.
  destruct (append_all_extends (EasyDB "example.db") "numbers"
              [PyInt 0; PyInt 2; PyInt 4; PyInt 6; PyInt 8] []
              ltac:(intro i; cbn; lia) eq_refl eq_refl)
    as (s' & Ha & Hl & Hn & _).
  exists s'. split; [exact Ha|]. split; [exact Hl | exact Hn].
Defined.

(** X7: an operation on the list [name] ([_set_list], [list_create],
    [list_append], [list_set], [list_remove] and the three writers of
    the list view) leaves the scalar table, the other tables and the
    instance dictionary as they are, and every other list reads as
    before, whether the operation returns or raises. *)
Theorem list_operations_frame (op : operation) (name : string) (s : db) :
  list_of op = Some name ->
  kv_store (snd (run op s)) = kv_store s
  /\ tables (snd (run op s)) = tables s
  /\ attrs (snd (run op s)) = attrs s
  /\ forall n, n <> name ->
               fst (list_get n (snd (run op s))) = fst (list_get n s)
               /\ fst (list_len n (snd (run op s))) = fst (list_len n s).
Proof.
  intro Hop. destruct (list_op_rows_only op name Hop s) as [rows Hrows].
  split; [now rewrite Hrows|]. split; [now rewrite Hrows|].
  split; [now rewrite Hrows|].
  intros n Hn. pose proof (list_op_other op name Hop s n Hn) as Hother.
  unfold list_get, list_len, count_rows. simpl. now rewrite Hother.
Qed.

Lemma list_operations_frame_witness :
  let s := snd ((_set_list "a" [PyInt 1; PyInt 2] ;;;
                 _set_list "b" [PyStr "x"] ;;;
                 __setitem__ "k" (PyInt 7)) (EasyDB "easy.db")) in
  fst (list_get "b" (snd (run (OpListRemove "a" 0) s))) = Ok [PyStr "x"]
  /\ kv_store (snd (run (OpListRemove "a" 0) s)) = kv_store s.
Proof.
  intro s.
  destruct (list_operations_frame (OpListRemove "a" 0) "a" s eq_refl)
    as (Hkv & _ & _ & Hother).
  split; [|exact Hkv].
  rewrite (proj1 (Hother "b" ltac:(discriminate))). reflexivity.
Defined.

(* ------------------------------------------------------------------ *)
(** ** Wholesale assignment and failures half-way *)

Section WholeList.

Implicit Types (name n : string) (rows : list list_row) (i k : Z) (s : db).

(** The loop of [_set_list] on items of the JSON data model, started at
    an index above the indices in use: every insertion succeeds and the
    values of the list are the old ones followed by the items. *)
Lemma insert_items_shaped name (items : list pyval) :
  forall k rows,
    forallb json_shaped items = true ->
    (forall i, In i (indices name rows) -> i < k) ->
    exists rows',
      insert_items name k items rows = Ok rows'
      /\ map (fun r => json_loads (item_value r)) (rows_of name rows')
         = (map (fun r => json_loads (item_value r)) (rows_of name rows)
            ++ items)%list.
Proof.
  induction items as [|item items IH]; intros k rows Hs Hk; simpl.
  - exists rows. now rewrite app_nil_r.
  - simpl in Hs. apply andb_true_iff in Hs as [Hitem Hs].
    destruct (json_shaped_round_trip item Hitem) as (j & -> & Hload).
    rewrite sql_insert_fresh by (intro Hin; apply Hk in Hin; lia).
    destruct (IH (k + 1) (rows ++ [mk_row name k j])%list Hs) as (rows' & -> & Hv).
    + intros i Hi. rewrite indices_insert_same in Hi.
      apply in_app_iff in Hi as [Hi | [<- | []]]; [apply Hk in Hi|]; lia.
    + exists rows'. split; [reflexivity|].
      rewrite Hv, rows_of_insert_same, map_app, <- app_assoc. simpl.
      now rewrite Hload.
Qed.

(** The loop stops with [TypeError] at the first item that is not
    serializable. *)
Lemma insert_items_type_error name (items : list pyval) :
  forall k rows,
    (exists item, In item items /\ json_dumps item = None) ->
    (forall i, In i (indices name rows) -> i < k) ->
    insert_items name k items rows = Raise TypeError.
Proof.
  induction items as [|item items IH]; intros k rows (bad & Hin & Hbad) Hk;
    simpl; [contradiction|].
  destruct (json_dumps item) as [j|] eqn:Ej; [|reflexivity].
  rewrite sql_insert_fresh by (intro Hi; apply Hk in Hi; lia).
  apply IH.
  - destruct Hin as [-> | Hin]; [congruence|]. now exists bad.
  - intros i Hi. rewrite indices_insert_same in Hi.
    apply in_app_iff in Hi as [Hi | [<- | []]]; [apply Hk in Hi|]; lia.
Qed.

Lemma indices_delete_list name rows : indices name (delete_list name rows) = [].
Proof. unfold indices. now rewrite rows_of_delete_list_same. Qed.

(** [_set_list] with items of the JSON data model: the rows written are
    read back as the items. *)
Lemma _set_list_shaped name (items : list pyval) s :
  forallb json_shaped items = true ->
  exists rows',
    _set_list name items s = (Ok tt, with_rows s rows')
    /\ list_get name (with_rows s rows') = (Ok items, with_rows s rows')
    /\ count_rows name rows' = Z.of_nat (List.length items).
Proof.
  intro Hs.
  destruct (insert_items_shaped name items 0 (delete_list name (list_store s)) Hs)
    as (rows' & Hins & Hv).
  { intro i. rewrite indices_delete_list. intros []. }
  assert (_set_list name items s = (Ok tt, with_rows s rows')) as Hset
      by (unfold _set_list; now rewrite Hins).
  exists rows'. split; [exact Hset|].
  apply _set_list_ok in Hset as [Hidx _]. simpl in Hidx.
  assert (order_by_index (rows_of name rows') = rows_of name rows') as Hord.
  { apply (order_by_index_in_order _ 0).
    fold (indices name rows'). rewrite Hidx. unfold range. do 2 f_equal.
    rewrite <- (length_map item_index). fold (indices name rows').
    now rewrite Hidx, range_length. }
  rewrite rows_of_delete_list_same in Hv. simpl in Hv.
  split.
  - unfold list_get. simpl. now rewrite Hord, Hv.
  - unfold count_rows. f_equal.
    rewrite <- (length_map (fun r => json_loads (item_value r))). now rewrite Hv.
Qed.

End WholeList.

(** X8: [_set_list name items] with items of the JSON data model
    succeeds whatever the list held before; afterwards [list_get] returns
    exactly [items] and [list_len] their number.  When some item is not
    serializable it raises [TypeError] and the store, the old list
    included, is unchanged: the deletion is not committed. *)
Theorem set_list_replaces (s : db) (name : string) (items : list pyval) :
  (forallb json_shaped items = true ->
   exists s',
     _set_list name items s = (Ok tt, s')
     /\ list_get name s' = (Ok items, s')
     /\ list_len name s' = (Ok (Z.of_nat (List.length items)), s'))
  /\ ((exists item, In item items /\ json_dumps item = None) ->
      _set_list name items s = (Raise TypeError, s)).
Proof.
  split.
  - intro Hs.
    destruct (_set_list_shaped name items s Hs) as (rows' & Hset & Hget & Hlen).
    exists (with_rows s rows'). split; [exact Hset|]. split; [exact Hget|].
    unfold list_len. simpl. now rewrite Hlen.
  - intro Hbad. unfold _set_list.
    rewrite (insert_items_type_error name items 0 _ Hbad); [reflexivity|].
    intro i. rewrite indices_delete_list. intros [].
Qed.

Lemma set_list_replaces_witness :
  let s := snd (_set_list "tasks" [PyStr "old"; PyStr "older"] (EasyDB "easy.db")) in
  (exists s', _set_list "tasks" [PyInt 1; PyNone; PyStr "c"] s = (Ok tt, s')
              /\ list_get "tasks" s' = (Ok [PyInt 1; PyNone; PyStr "c"], s'))
  /\ _set_list "tasks" [PyInt 1; PyBytes "raw"] s = (Raise TypeError, s)
  /\ list_get "tasks" s = (Ok [PyStr "old"; PyStr "older"], s).
Proof.
  intro s. split; [|split; [|reflexivity]].
  - destruct (proj1 (set_list_replaces s "tasks" [PyInt 1; PyNone; PyStr "c"])
                eq_refl) as (s' & Hs & Hl & _).
    exists s'. now split.
  - apply (proj2 (set_list_replaces s "tasks" [PyInt 1; PyBytes "raw"])).
    exists (PyBytes "raw"). split; [simpl; tauto | reflexivity].
Defined.

(** X9: [db.name[i] = item] is not one transaction.  With an item that
    is not serializable and an index at or beyond the length [n] of a
    contiguous list, it raises [TypeError] after the [i - n] placeholders
    have been appended and committed: the list is then [l] followed by
    [i - n] times [None].  With an index below the length it raises
    [TypeError] and changes nothing. *)
Theorem view_setitem_partial
        (s : db) (name : string) (i : Z) (item : pyval) (l : list pyval) :
  contiguous name (list_store s) ->
  list_get name s = (Ok l, s) ->
  json_dumps item = None ->
  (Z.of_nat (List.length l) <= i ->
   exists s',
     EasyDBList.__setitem__ name i item s = (Raise TypeError, s')
     /\ list_get name s'
        = (Ok (l ++ repeat PyNone (Z.to_nat (i - Z.of_nat (List.length l))))%list,
           s'))
  /\ (i < Z.of_nat (List.length l) ->
      EasyDBList.__setitem__ name i item s = (Raise TypeError, s)).
Proof.
  intros Hc Hl Hj. pose proof (list_get_length _ _ _ Hl) as Hlen.
  unfold EasyDBList.__setitem__, bind, list_len. rewrite <- Hlen. split.
  - intro Hi. destruct (Z.geb_spec i (Z.of_nat (List.length l))); [|lia].
    destruct (append_none_spec name
                (Z.to_nat (i - Z.of_nat (List.length l))) s l Hc Hl)
      as (s1 & H1 & _ & Hl1).
    exists s1. rewrite H1. unfold list_append. rewrite Hj. now split.
  - intro Hi. destruct (Z.geb_spec i (Z.of_nat (List.length l))); [lia|].
    unfold list_set. now rewrite Hj.
Qed.

Lemma view_setitem_partial_witness :
  let s := snd (_set_list "tasks" [PyStr "a"] (EasyDB "easy.db")) in
  exists s',
    EasyDBList.__setitem__ "tasks" 3 (PyBytes "raw") s = (Raise TypeError, s')
    /\ list_get "tasks" s' = (Ok [PyStr "a"; PyNone; PyNone], s').
Proof.
  intro s.
  destruct (view_setitem_partial s "tasks" 3 (PyBytes "raw") [PyStr "a"]
              ltac:(intro i; cbn; lia) eq_refl eq_refl) as [H _].
  destruct H as (s' & Hs & Hl); [simpl; lia|].
  exists s'. now split.
Defined.

(* ------------------------------------------------------------------ *)
(** ** Removal, and a list that becomes empty *)

Section Removal.

Implicit Types (name n : string) (i : Z) (s : db).

(** [list_remove] at the last place of a contiguous list: no index
    is renumbered. *)
Lemma list_remove_spec name i s (l : list pyval) :
  contiguous name (list_store s) ->
  list_get name s = (Ok l, s) ->
  0 <= i -> i = Z.of_nat (List.length l) - 1 ->
  exists rows',
    list_remove name i s = (Ok tt, with_rows s rows')
    /\ list_get name (with_rows s rows')
       = (Ok (without_nth (Z.to_nat i) l), with_rows s rows')
    /\ contiguous name rows'.
Proof.
  intros Hc Hl H0 Hi. pose proof (list_get_length _ _ _ Hl) as Hlen.
  assert (In i (indices name (list_store s))) as Hin by (apply Hc; lia).
  eexists. split; [|split].
  - apply list_remove_last; [assumption | assumption | lia].
  - apply list_get_removed; [assumption | assumption | lia].
  - now apply contiguous_removed.
Qed.

Lemma without_nth_last {A : Type} (l : list A) (x : A) :
  without_nth (List.length l) (l ++ [x])%list = l.
Proof.
  unfold without_nth.
  rewrite (skipn_all2 (n := S (List.length l)))
    by (rewrite length_app; simpl; lia).
  rewrite firstn_app, Nat.sub_diag, firstn_all. simpl.
  now rewrite !app_nil_r.
Qed.

End Removal.

(** X10: a list disappears with its last element.  When the only
    element of the list of a data name [n] is removed, [_is_list n] turns
    false and [list_len n] is 0; reading [db.n], which gave the list view
    before, now gives the scalar stored under [n], or raises
    [AttributeError] when there is none. *)
Theorem emptied_list_falls_back (s : db) (n : string) (x : pyval) :
  attrs_internal s = true -> is_data_name n = true ->
  contiguous n (list_store s) ->
  list_get n s = (Ok [x], s) ->
  exists s',
    list_remove n 0 s = (Ok tt, s')
    /\ attribute_read n s = (Ok (ListView n), s)
    /\ _is_list n s' = (Ok false, s')
    /\ list_len n s' = (Ok 0, s')
    /\ attribute_read n s'
       = (match dict_get String.eqb (kv_store s) n with
          | Some j => Ok (Value (json_loads j))
          | None => Raise AttributeError
          end, s').
Proof.
  intros Ha Hn Hc Hl.
  destruct (list_remove_spec n 0 s [x] Hc Hl ltac:(lia) eq_refl)
    as (rows' & Hrm & Hget & _).
  pose proof (list_get_length _ _ _ Hl) as Hlen.
  pose proof (list_get_length _ _ _ Hget) as Hlen'. simpl in Hlen, Hlen'.
  exists (with_rows s rows'). split; [exact Hrm|]. split; [|split; [|split]].
  - rewrite attribute_read_data_name by assumption. now rewrite <- Hlen.
  - unfold _is_list. simpl. now rewrite <- Hlen'.
  - unfold list_len. simpl. now rewrite <- Hlen'.
  - rewrite attribute_read_data_name by assumption. simpl. rewrite <- Hlen'. simpl.
    now destruct (dict_get String.eqb (kv_store s) n).
Qed.

Lemma emptied_list_falls_back_witness :
  let s := snd ((__setitem__ "tasks" (PyStr "none left") ;;;
                 list_append "tasks" (PyInt 1)) (EasyDB "easy.db")) in
  exists s',
    list_remove "tasks" 0 s = (Ok tt, s')
    /\ attribute_read "tasks" s = (Ok (ListView "tasks"), s)
    /\ attribute_read "tasks" s' = (Ok (Value (PyStr "none left")), s').
Proof.
  intro s.
  destruct (emptied_list_falls_back s "tasks" (PyInt 1) eq_refl eq_refl
              ltac:(intro i; cbn; lia) eq_refl)
    as (s' & Hrm & Hr & _ & _ & Hr').
  exists s'. split; [exact Hrm|]. split; [exact Hr | exact Hr'].
Defined.

(** X11: appending an item to a contiguous list and removing the last
    place again gives back the list as it was read before; the item is
    required to be serializable only. *)
Theorem append_then_remove_last
        (s : db) (name : string) (item : pyval) (l : list pyval) :
  contiguous name (list_store s) ->
  list_get name s = (Ok l, s) ->
  json_dumps item <> None ->
  exists s',
    (list_append name item ;;; list_remove name (Z.of_nat (List.length l))) s
    = (Ok tt, s')
    /\ list_get name s' = (Ok l, s')
    /\ contiguous name (list_store s')
    /\ kv_store s' = kv_store s.
Proof.
  intros Hc Hl Hj. destruct (json_dumps item) as [j|] eqn:Ej; [|congruence].
  destruct (list_append_spec name item j s l Hc Ej Hl) as (s1 & H1 & Hc1 & Hl1).
  destruct (list_remove_spec name (Z.of_nat (List.length l)) s1 _ Hc1 Hl1)
    as (rows' & Hrm & Hget & Hc').
  { lia. }
  { rewrite length_app. simpl. lia. }
  exists (with_rows s1 rows'). unfold bind. rewrite H1, Hrm.
  split; [reflexivity|]. split; [|split; [exact Hc'|]].
  - rewrite Hget, Nat2Z.id. now rewrite without_nth_last.
  - simpl. unfold list_append in H1. rewrite Ej in H1.
    destruct (sql_insert name _ j (list_store s)); now inversion H1.
Qed.

Lemma append_then_remove_last_witness :
  let s := snd (_set_list "tasks" [PyStr "a"; PyStr "b"] (EasyDB "easy.db")) in
  exists s',
    (list_append "tasks" (PyTuple [PyInt 1]) ;;; list_remove "tasks" 2) s
    = (Ok tt, s')
    /\ list_get "tasks" s' = (Ok [PyStr "a"; PyStr "b"], s').
Proof.
  intro s.
  destruct (append_then_remove_last s "tasks" (PyTuple [PyInt 1])
              [PyStr "a"; PyStr "b"] ltac:(intro i; cbn; lia) eq_refl
              ltac:(discriminate))
    as (s' & H & Hl & _).
  exists s'. split; [exact H | exact Hl].
Defined.

(* ------------------------------------------------------------------ *)
(** ** The two access paths *)

Section Paths.

Implicit Types (name n k : string) (s : db).

Lemma dict_get_set_same {V : Type} (d : list (string * V)) k (v : V) :
  dict_get String.eqb (dict_set String.eqb d k v) k = Some v.
Proof.
  induction d as [|[k' v'] d IH]; simpl.
  - now rewrite String.eqb_refl.
  - destruct (String.eqb k' k) eqn:E; simpl; now rewrite E.
Qed.

Lemma dict_get_set_other {V : Type} (d : list (string * V)) k k' (v : V) :
  k' <> k ->
  dict_get String.eqb (dict_set String.eqb d k v) k' = dict_get String.eqb d k'.
Proof.
  intro Hne. induction d as [|[k0 v0] d IH]; simpl.
  - destruct (String.eqb_spec k k'); [congruence | reflexivity].
  - destruct (String.eqb_spec k0 k) as [->|Hk]; simpl.
    + destruct (String.eqb_spec k k'); [congruence | reflexivity].
    + now rewrite IH.
Qed.

(** A public method name is no internal name. *)
Lemma public_method_not_internal name :
  existsb (String.eqb name) class_attributes = true ->
  starts_with_underscore name = false ->
  is_internal_name name = false.
Proof.
  intros Hc Hu. unfold is_internal_name. rewrite Hu. simpl.
  destruct (String.eqb_spec name "db_name") as [->|]; [discriminate | reflexivity].
Qed.

End Paths.

(** X12: an internal name (one that starts with an underscore, or
    [db_name]) stays on the object.  [db.name = v] succeeds for every
    value, serializable or not, writes nothing to the database, and
    [db.name] then reads [v] itself, with no JSON coercion; the other
    attributes of the object are as before.  (Names that start with two
    underscores, where the descriptors of [object] may step in, are left
    out.) *)
Theorem internal_attribute_round_trip (s : db) (name : string) (v : pyval) :
  is_internal_name name = true ->
  String.prefix "__" name = false ->
  exists s',
    attribute_write name v s = (Ok tt, s')
    /\ attribute_read name s' = (Ok (Value v), s')
    /\ kv_store s' = kv_store s
    /\ list_store s' = list_store s
    /\ tables s' = tables s
    /\ forall n, n <> name ->
                 dict_get String.eqb (attrs s') n = dict_get String.eqb (attrs s) n.
Proof.
  intros Hn _. unfold is_internal_name in Hn.
  exists (with_attrs s (dict_set String.eqb (attrs s) name v)).
  split; [|split; [|repeat split]].
  - unfold attribute_write, __setattr__. now rewrite Hn.
  - unfold attribute_read. simpl. now rewrite dict_get_set_same.
  - intros n Hne. simpl. now apply dict_get_set_other.
Qed.

Lemma internal_attribute_round_trip_witness :
  let s := EasyDB "easy.db" in
  exists s',
    attribute_write "_cache" (PyTuple [PyBytes "raw"; PyInt 1]) s = (Ok tt, s')
    /\ attribute_read "_cache" s' = (Ok (Value (PyTuple [PyBytes "raw"; PyInt 1])), s')
    /\ kv_store s' = kv_store s
    /\ attribute_read "db_name" s' = (Ok (Value (PyStr "easy.db")), s').
Proof.
  intro s.
  destruct (internal_attribute_round_trip s "_cache"
              (PyTuple [PyBytes "raw"; PyInt 1]) eq_refl eq_refl)
    as (s' & Hw & Hr & Hkv & _ & _ & Hother).
  exists s'. split; [exact Hw|]. split; [exact Hr|]. split; [exact Hkv|].
  unfold attribute_read. now rewrite (Hother "db_name" ltac:(discriminate)).
Defined.

(** X13: a non-empty list of values of the JSON data model written
    through the attribute of a data name is read back through the
    attribute as a list view whose content is the list written.  The
    scalar table is not touched: [db[n]] yields what it yielded before,
    so [KeyError] when no scalar [n] was stored. *)
Theorem attribute_list_round_trip (s : db) (n : string) (items : list pyval) :
  attrs_internal s = true -> is_data_name n = true ->
  forallb json_shaped items = true -> items <> [] ->
  exists s',
    attribute_write n (PyList items) s = (Ok tt, s')
    /\ attribute_read n s' = (Ok (ListView n), s')
    /\ list_get n s' = (Ok items, s')
    /\ kv_store s' = kv_store s
    /\ __getitem__ n s' = (fst (__getitem__ n s), s').
Proof.
  intros Ha Hn Hs Hne. rewrite (attribute_write_data_name n _ Hn).
  destruct (_set_list_shaped n items s Hs) as (rows' & Hset & Hget & Hlen).
  exists (with_rows s rows'). split; [exact Hset|].
  split; [|split; [exact Hget|split; [reflexivity|]]].
  - rewrite attribute_read_data_name by assumption. simpl. rewrite Hlen.
    destruct items; [congruence | reflexivity].
  - now rewrite !__getitem___spec.
Qed.

Lemma attribute_list_round_trip_witness :
  let s := EasyDB "easy.db" in
  exists s',
    attribute_write "tasks" (PyList [PyStr "a"; PyInt 2]) s = (Ok tt, s')
    /\ attribute_read "tasks" s' = (Ok (ListView "tasks"), s')
    /\ list_get "tasks" s' = (Ok [PyStr "a"; PyInt 2], s')
    /\ __getitem__ "tasks" s' = (Raise KeyError, s').
Proof.
  intro s.
  destruct (attribute_list_round_trip s "tasks" [PyStr "a"; PyInt 2]
              eq_refl eq_refl eq_refl ltac:(discriminate))
    as (s' & Hw & Hr & Hl & _ & Hg).
  exists s'. split; [exact Hw|]. split; [exact Hr|]. split; [exact Hl | exact Hg].
Defined.

(** X14: a list written with brackets is a scalar.  [db[n] = items]
    stores the list as one JSON value in the scalar table and writes no
    row of the list table, so [_is_list n] and [list_get n] are as
    before.  When [n] is a data name with no list rows, [db.n] then reads
    the plain list, not a list view. *)
Theorem bracket_list_is_scalar (s : db) (n : string) (items : list pyval) :
  attrs_internal s = true -> is_data_name n = true ->
  json_shaped (PyList items) = true ->
  exists s',
    __setitem__ n (PyList items) s = (Ok tt, s')
    /\ __getitem__ n s' = (Ok (PyList items), s')
    /\ list_store s' = list_store s
    /\ _is_list n s' = (fst (_is_list n s), s')
    /\ list_get n s' = (fst (list_get n s), s')
    /\ (count_rows n (list_store s) = 0 ->
        attribute_read n s' = (Ok (Value (PyList items)), s')).
Proof.
  intros Ha Hn Hs.
  destruct (json_shaped_round_trip _ Hs) as (j & Hj & Hload).
  exists (with_kv s (remove_key n (kv_store s) ++ [(n, j)])).
  assert (dict_get String.eqb (remove_key n (kv_store s) ++ [(n, j)]) n = Some j)
    as Hget.
  { rewrite dict_get_remove_key. simpl. now rewrite String.eqb_refl. }
  split; [|split; [|split; [reflexivity|split; [reflexivity|split; [reflexivity|]]]]].
  - unfold __setitem__, _set_key_value. now rewrite Hj.
  - rewrite __getitem___spec. simpl. now rewrite Hget, Hload.
  - intro Hcount. rewrite attribute_read_data_name by assumption. simpl.
    now rewrite Hcount, Hget, Hload.
Qed.

Lemma bracket_list_is_scalar_witness :
  let s := EasyDB "easy.db" in
  exists s',
    __setitem__ "tasks" (PyList [PyStr "a"; PyInt 2]) s = (Ok tt, s')
    /\ _is_list "tasks" s' = (Ok false, s')
    /\ attribute_read "tasks" s' = (Ok (Value (PyList [PyStr "a"; PyInt 2])), s').
Proof.
  intro s.
  destruct (bracket_list_is_scalar s "tasks" [PyStr "a"; PyInt 2]
              eq_refl eq_refl eq_refl)
    as (s' & Hw & _ & _ & Hl & _ & Hr).
  exists s'. split; [exact Hw|]. split; [exact Hl|]. now apply Hr.
Defined.

(** X15: the public method names are writable but not readable.  For a
    name the class defines without a leading underscore ([keys],
    [values], [items], [list_get], ...), [db.name = v] with a value of the
    JSON data model is carried out on the tables like any other write,
    but [db.name] still reads the method: the value is reachable with
    brackets (scalar) or [list_get] (list) only. *)
Theorem method_names_shadow (s : db) (name : string) (v : pyval) :
  attrs_internal s = true ->
  existsb (String.eqb name) class_attributes = true ->
  starts_with_underscore name = false ->
  json_shaped v = true ->
  exists s',
    attribute_write name v s = (Ok tt, s')
    /\ attribute_read name s' = (Ok (Method name), s')
    /\ (is_pylist v = false -> __getitem__ name s' = (Ok v, s'))
    /\ (forall l, v = PyList l -> list_get name s' = (Ok l, s')).
Proof.
  intros Ha Hc Hu Hs.
  pose proof (public_method_not_internal name Hc Hu) as Hi.
  assert (forall s', attrs s' = attrs s ->
                     attribute_read name s' = (Ok (Method name), s')) as Hread.
  { intros s' Hs'. unfold attribute_read.
    rewrite (attrs_lookup_none s' name); [now rewrite Hc | | exact Hi].
    unfold attrs_internal. now rewrite Hs'. }
  unfold attribute_write, __setattr__. unfold is_internal_name in Hi.
  rewrite Hi, Hu. simpl.
  destruct (is_pylist v) eqn:Hl.
  - destruct v as [| | | |l| | | |]; try discriminate.
    assert (forallb json_shaped l = true) as Hall.
    { simpl in Hs. exact Hs. }
    destruct (_set_list_shaped name l s Hall) as (rows' & Hset & Hget & _).
    exists (with_rows s rows'). split; [exact Hset|].
    split; [now apply Hread|]. split; [discriminate|].
    now intros l' [= <-].
  - destruct (json_shaped_round_trip v Hs) as (j & Hj & Hload).
    destruct (get_after_set s name v j Hj) as (s' & Hset & Hget).
    exists s'.
    assert (attrs s' = attrs s) as Hattrs.
    { pose proof (_set_key_value_attrs name v s) as H. now rewrite Hset in H. }
    split; [|split; [now apply Hread|split]].
    + destruct v; try exact Hset. discriminate.
    + intros _. unfold __getitem__. now rewrite Hget, Hload.
    + intros l ->. discriminate.
Qed.

Lemma method_names_shadow_witness :
  let s := EasyDB "easy.db" in
  exists s',
    attribute_write "keys" (PyInt 5) s = (Ok tt, s')
    /\ attribute_read "keys" s' = (Ok (Method "keys"), s')
    /\ __getitem__ "keys" s' = (Ok (PyInt 5), s').
Proof.
  intro s.
  destruct (method_names_shadow s "keys" (PyInt 5) eq_refl eq_refl eq_refl eq_refl)
    as (s' & Hw & Hr & Hg & _).
  exists s'. split; [exact Hw|]. split; [exact Hr|]. now apply Hg.
Defined.

(* ------------------------------------------------------------------ *)
(** ** What the snapshot holds under a name *)

Section SnapshotLookup.

Implicit Types (n : string) (s : db) (d : snapshot) (ts : list foreign_table).

(** The first loop of [_get_all_data]. *)
Lemma fold_kv_lookup (kv : list (string * json)) :
  forall d n,
    NoDup (map fst kv) ->
    dict_get String.eqb
      (fold_left (fun d p => dict_set String.eqb d (fst p) (json_loads (snd p)))
                 kv d) n
    = match dict_get String.eqb kv n with
      | Some j => Some (json_loads j)
      | None => dict_get String.eqb d n
      end.
Proof.
  induction kv as [|[k j] kv IH]; intros d n Hnd; simpl; [reflexivity|].
  apply NoDup_cons_iff in Hnd as [Hk Hnd]. rewrite (IH _ _ Hnd).
  destruct (String.eqb_spec k n) as [->|Hne].
  - rewrite (proj2 (dict_get_None kv n) Hk). apply dict_get_set_same.
  - destruct (dict_get String.eqb kv n); [reflexivity|].
    apply dict_get_set_other. congruence.
Qed.

(** The second loop. *)
Lemma fold_names_lookup (f : string -> pyval) (names : list string) :
  forall d n,
    dict_get String.eqb
      (fold_left (fun d name => dict_set String.eqb d name (f name)) names d) n
    = if existsb (String.eqb n) names then Some (f n) else dict_get String.eqb d n.
Proof.
  induction names as [|name names IH]; intros d n; simpl; [reflexivity|].
  rewrite IH.
  destruct (existsb (String.eqb n) names); [now rewrite orb_true_r|].
  rewrite orb_false_r.
  destruct (String.eqb_spec n name) as [->|Hne].
  - apply dict_get_set_same.
  - now apply dict_get_set_other.
Qed.

(** [SELECT DISTINCT list_name] yields the names that have a row. *)
Lemma distinct_list_names_In n (rows : list list_row) :
  In n (distinct_list_names rows) <-> 0 < count_rows n rows.
Proof.
  unfold distinct_list_names, count_rows, rows_of.
  rewrite sort_keys_In, nodup_In.
  induction rows as [|r rows IH]; simpl; [lia|].
  destruct (String.eqb_spec (list_name r) n) as [->|Hne]; simpl.
  - split; [lia | now left].
  - rewrite <- IH. split; [|tauto]. intros [H|H]; [congruence | assumption].
Qed.

(** The loop over the tables writes under the names of the tables it
    reads only. *)
Lemma read_tables_lookup ts :
  forall d n,
    (forall t, In t ts -> is_internal_table (table_name t) = false ->
               table_name t <> n) ->
    dict_get String.eqb (snd (read_tables ts d)) n = dict_get String.eqb d n.
Proof.
  induction ts as [|t ts IH]; intros d n Hn; simpl; [reflexivity|].
  destruct (is_internal_table (table_name t)) eqn:Ei.
  - apply IH. intros t' Hin. apply Hn. now right.
  - destruct (table_readable t); [|reflexivity].
    rewrite IH by (intros t' Hin; apply Hn; now right).
    apply dict_get_set_other. intro H. symmetry in H. revert H.
    apply Hn; [now left | assumption].
Qed.

(** With every table readable the loop runs to its end. *)
Lemma read_tables_all_readable ts :
  forall d,
    (forall t, In t ts -> is_internal_table (table_name t) = false ->
               table_readable t = true) ->
    fst (read_tables ts d) = Ok tt.
Proof.
  induction ts as [|t ts IH]; intros d Hr; simpl; [reflexivity|].
  destruct (is_internal_table (table_name t)) eqn:Ei.
  - apply IH. intros t' Hin. apply Hr. now right.
  - rewrite (Hr t (or_introl eq_refl) Ei).
    apply IH. intros t' Hin. apply Hr. now right.
Qed.

Lemma read_tables_readable ts :
  forall d t,
    (forall t', In t' ts -> is_internal_table (table_name t') = false ->
                table_readable t' = true) ->
    NoDup (map table_name ts) ->
    In t ts -> is_internal_table (table_name t) = false ->
    dict_get String.eqb (snd (read_tables ts d)) (table_name t)
    = Some (table_data t).
Proof.
  induction ts as [|t0 ts IH]; intros d t Hr Hnd Hin Hi; simpl; [contradiction|].
  apply NoDup_cons_iff in Hnd as [H0 Hnd].
  destruct Hin as [->|Hin].
  - rewrite Hi, (Hr t (or_introl eq_refl) Hi).
    rewrite read_tables_lookup; [apply dict_get_set_same|].
    intros t' Hin' _ Heq. apply H0. rewrite <- Heq. now apply in_map.
  - assert (forall t', In t' ts -> is_internal_table (table_name t') = false ->
                       table_readable t' = true) as Hr'
        by (intros t' Hin'; apply Hr; now right).
    destruct (is_internal_table (table_name t0)) eqn:E0; [now apply IH|].
    rewrite (Hr t0 (or_introl eq_refl) E0). now apply IH.
Qed.

(** The handler of the third [try]. *)
Lemma read_tables_handled ts d s :
  match read_tables ts d with
  | (Ok _, all_data) => (Ok all_data, s)
  | (Raise OperationalError, all_data) => (Ok all_data, s)
  | (Raise e, _) => (Raise e, s)
  end = (Ok (snd (read_tables ts d)), s).
Proof.
  destruct (read_tables_outcome ts d) as [H | H];
    destruct (read_tables ts d) as [r d']; simpl in H; subst r; reflexivity.
Qed.

(** [_get_all_data] in terms of the loop over the tables. *)
Lemma _get_all_data_tables s :
  _get_all_data s
  = (Ok (snd (read_tables (tables s)
           (fold_left (fun d name =>
                         dict_set String.eqb d name (list_value name (list_store s)))
                      (distinct_list_names (list_store s))
                      (fold_left (fun d p => dict_set String.eqb d (fst p)
                                                      (json_loads (snd p)))
                                 (kv_store s) [])))), s).
Proof. unfold _get_all_data. cbv zeta. apply read_tables_handled. Qed.

End SnapshotLookup.

(** X16: what the snapshot holds under a name that no foreign table
    bears (the keys of the scalar table being distinct, as its primary
    key makes them).  A name with list rows maps to the list as
    [list_get] returns it, whether or not a scalar of that name is
    stored; any other name maps to its scalar, and is absent from the
    snapshot when there is none. *)
Theorem snapshot_lookup (s : db) (n : string) :
  NoDup (map fst (kv_store s)) ->
  (forall t, In t (tables s) -> is_internal_table (table_name t) = false ->
             table_name t <> n) ->
  exists d,
    _get_all_data s = (Ok d, s)
    /\ (forall l, _is_list n s = (Ok true, s) -> list_get n s = (Ok l, s) ->
                  dict_get String.eqb d n = Some (PyList l))
    /\ (_is_list n s = (Ok false, s) ->
        dict_get String.eqb d n
        = match fst (__getitem__ n s) with
          | Ok v => Some v
          | Raise _ => None
          end).
Proof.
  intros Hnd Ht. eexists. split; [apply _get_all_data_tables|].
  rewrite (read_tables_lookup _ _ _ Ht).
  rewrite (fold_names_lookup (fun name => list_value name (list_store s))).
  unfold _is_list. split.
  - intros l [= Hc] Hl. apply Z.ltb_lt, distinct_list_names_In in Hc.
    destruct (existsb (String.eqb n) (distinct_list_names (list_store s))) eqn:E.
    + now rewrite (list_value_list_get _ _ _ Hl).
    + exfalso. apply Bool.not_true_iff_false in E. apply E.
      apply existsb_exists. exists n. split; [assumption | apply String.eqb_refl].
  - intros [= Hc]. apply Z.ltb_ge in Hc.
    destruct (existsb (String.eqb n) (distinct_list_names (list_store s))) eqn:E.
    { apply existsb_exists in E as (n' & Hin & Heq).
      apply String.eqb_eq in Heq. subst n'.
      apply distinct_list_names_In in Hin. lia. }
    rewrite (fold_kv_lookup _ _ _ Hnd), __getitem___spec. simpl.
    now destruct (dict_get String.eqb (kv_store s) n).
Qed.

Lemma snapshot_lookup_witness :
  let s := snd ((__setitem__ "n" (PyInt 1) ;;; __setitem__ "m" (PyInt 2) ;;;
                 _set_list "n" [PyStr "a"]) (EasyDB "easy.db")) in
  exists d,
    _get_all_data s = (Ok d, s)
    /\ dict_get String.eqb d "n" = Some (PyList [PyStr "a"])
    /\ dict_get String.eqb d "m" = Some (PyInt 2)
    /\ dict_get String.eqb d "o" = None.
Proof.
  intro s.
  assert (NoDup (map fst (kv_store s))) as Hnd.
  { repeat constructor; simpl; intuition discriminate. }
  destruct (snapshot_lookup s "n" Hnd ltac:(intros t [])) as (d & Hd & Hn & _).
  destruct (snapshot_lookup s "m" Hnd ltac:(intros t [])) as (d' & Hd' & _ & Hm).
  destruct (snapshot_lookup s "o" Hnd ltac:(intros t [])) as (d'' & Hd'' & _ & Ho).
  assert (d' = d) as -> by congruence. assert (d'' = d) as -> by congruence.
  exists d. split; [exact Hd|]. split; [|split].
  - now apply Hn.
  - now apply Hm.
  - now apply Ho.
Defined.

(** X17: when every foreign table can be read (their names being
    distinct, as SQLite makes them), the snapshot maps the name of each
    one to its rows, each a dictionary from column name to cell, whatever
    scalar or list is stored under the same name. *)
Theorem snapshot_holds_readable_tables (s : db) (t : foreign_table) :
  (forall t', In t' (tables s) -> is_internal_table (table_name t') = false ->
              table_readable t' = true) ->
  NoDup (map table_name (tables s)) ->
  In t (tables s) ->
  is_internal_table (table_name t) = false ->
  exists d,
    _get_all_data s = (Ok d, s)
    /\ dict_get String.eqb d (table_name t)
       = Some (PyList (map (row_dict (table_columns t)) (table_rows t))).
Proof.
  intros Hr Hnd Hin Hi. eexists. split; [apply _get_all_data_tables|].
  now apply read_tables_readable.
Qed.

Lemma snapshot_holds_readable_tables_witness :
  let users := mk_table "users" ["id"; "name"] [[PyInt 1; PyStr "Ann"]] true in
  let logs := mk_table "logs" ["line"] [] true in
  let s := mk_db [("users", JNum 7)] [mk_row "logs" 0 (JStr "x")] [logs; users] [] in
  exists d,
    _get_all_data s = (Ok d, s)
    /\ dict_get String.eqb d "users"
       = Some (PyList [PyDict [(KStr "id", PyInt 1); (KStr "name", PyStr "Ann")]])
    /\ dict_get String.eqb d "logs" = Some (PyList []).
Proof.
  intros users logs s.
  assert (forall t', In t' (tables s) -> is_internal_table (table_name t') = false ->
                     table_readable t' = true) as Hr.
  { intros t' [<-|[<-|[]]] _; reflexivity. }
  assert (NoDup (map table_name (tables s))) as Hnd.
  { repeat constructor; simpl; intuition discriminate. }
  destruct (snapshot_holds_readable_tables s users Hr Hnd
              ltac:(simpl; tauto) eq_refl) as (d & Hd & Hu).
  destruct (snapshot_holds_readable_tables s logs Hr Hnd
              ltac:(simpl; tauto) eq_refl) as (d' & Hd' & Hl).
  assert (d' = d) as -> by congruence.
  exists d. split; [exact Hd|]. split; [exact Hu | exact Hl].
Defined.

(** X18: the scan of the foreign tables ends at the first one that
    cannot be read.  When the tables listed before an unreadable table
    [t] are all readable, the snapshot is the one of the same database
    without [t] and without every table listed after [t]; no error is
    raised. *)
Theorem snapshot_ends_at_unreadable
        (s : db) (ts1 ts2 : list foreign_table) (t : foreign_table) :
  tables s = (ts1 ++ t :: ts2)%list ->
  (forall t', In t' ts1 -> is_internal_table (table_name t') = false ->
              table_readable t' = true) ->
  is_internal_table (table_name t) = false ->
  table_readable t = false ->
  exists d,
    _get_all_data s = (Ok d, s)
    /\ _get_all_data (mk_db (kv_store s) (list_store s) ts1 (attrs s))
       = (Ok d, mk_db (kv_store s) (list_store s) ts1 (attrs s)).
Proof.
  intros Hts Hr Hi Hu. eexists. split; [apply _get_all_data_tables|].
  rewrite _get_all_data_tables. simpl. rewrite Hts.
  rewrite read_tables_stops; [reflexivity | | assumption | assumption].
  now apply read_tables_all_readable.
Qed.

Lemma snapshot_ends_at_unreadable_witness :
  let users := mk_table "users" ["id"] [[PyInt 1]] true in
  let broken := mk_table "my table" ["id"] [[PyInt 2]] false in
  let logs := mk_table "logs" ["line"] [[PyStr "x"]] true in
  let s := mk_db [("k", JNum 7)] [] [users; broken; logs] [] in
  exists d,
    _get_all_data s = (Ok d, s)
    /\ d = [("k", PyInt 7); ("users", PyList [PyDict [(KStr "id", PyInt 1)]])].
Proof.
  intros users broken logs s.
  destruct (snapshot_ends_at_unreadable s [users] [logs] broken eq_refl)
    as (d & Hd & Hd'); try reflexivity.
  { intros t' [<-|[]] _. reflexivity. }
  exists d. split; [exact Hd|]. now injection Hd' as <-.
Defined.

(* ------------------------------------------------------------------ *)
(** ** The content of the report *)

Section ReportContent.

Lemma render_entries_ok (entries : snapshot) (out : list (string * pyval)) :
  render_entries entries = Ok out -> out = entries.
Proof.
  revert out. induction entries as [|[k v] entries IH]; simpl; intros out H.
  - now injection H as <-.
  - destruct (json_dumps v); [|discriminate].
    destruct (render_entries entries) as [more|]; [|discriminate].
    injection H as <-. now rewrite (IH more eq_refl).
Qed.

Lemma body_rows_length (columns : list pykey) (rows : list pyval) body :
  body_rows columns rows = Ok body -> List.length body = List.length rows.
Proof.
  revert body. induction rows as [|row rows IH]; simpl; intros body H.
  - now injection H as <-.
  - destruct (body_row columns row); [|discriminate].
    destruct (body_rows columns rows) as [more|]; [|discriminate].
    injection H as <-. simpl. now rewrite (IH more eq_refl).
Qed.

Lemma body_rows_width (columns : list pykey) (rows : list pyval) body :
  body_rows columns rows = Ok body ->
  Forall (fun cells => List.length cells = List.length columns) body.
Proof.
  revert body. induction rows as [|row rows IH]; simpl; intros body H.
  - injection H as <-. constructor.
  - destruct (body_row columns row) as [cells|] eqn:E; [|discriminate].
    destruct (body_rows columns rows) as [more|]; [|discriminate].
    injection H as <-. constructor; [|now apply IH].
    destruct columns as [|c columns]; [now injection E as <-|].
    destruct row; try discriminate. injection E as <-.
    simpl. f_equal. apply length_map.
Qed.

Lemma header_cells_length (columns : list pykey) head :
  header_cells columns = Ok head -> List.length head = List.length columns.
Proof.
  revert head. induction columns as [|c columns IH]; simpl; intros head H.
  - now injection H as <-.
  - destruct c; try discriminate.
    destruct (header_cells columns) as [cs|]; [|discriminate].
    injection H as <-. simpl. now rewrite (IH cs eq_refl).
Qed.

Lemma render_table_shows (name : string) (v : pyval) (tv : table_view) :
  is_table_like v = true -> render_table name v = Ok tv -> shows (name, v) tv.
Proof.
  intros Hv H. destruct v as [| | | |rows| | | |]; try discriminate.
  destruct rows as [|[| | | | | |first| |] rows]; try discriminate.
  unfold render_table in H.
  destruct (header_cells (map fst first)) as [head|] eqn:Eh; [|discriminate].
  destruct (body_rows (map fst first) (firstn 10 (PyDict first :: rows)))
    as [body|] eqn:Eb; [|discriminate].
  injection H as <-. exists (PyDict first :: rows). simpl.
  repeat split.
  - rewrite (body_rows_length _ _ _ Eb). apply length_firstn.
  - rewrite (header_cells_length _ _ Eh). now apply body_rows_width in Eb.
Qed.

Lemma render_tables_shows (entries : snapshot) (views : list table_view) :
  forallb (fun p => is_table_like (snd p)) entries = true ->
  render_tables entries = Ok views ->
  Forall2 shows entries views.
Proof.
  revert views. induction entries as [|[name v] entries IH]; simpl;
    intros views Hall H.
  - injection H as <-. constructor.
  - apply andb_true_iff in Hall as [Hv Hall].
    destruct (render_table name v) as [view|] eqn:E; [|discriminate].
    destruct (render_tables entries) as [more|]; [|discriminate].
    injection H as <-. constructor; [|now apply IH].
    now apply render_table_shows.
Qed.

Lemma forallb_filter {A : Type} (f : A -> bool) (l : list A) :
  forallb f (filter f l) = true.
Proof.
  induction l as [|x l IH]; simpl; [reflexivity|].
  destruct (f x) eqn:E; simpl; [now rewrite E|assumption].
Qed.

(** With a column to fill, a row without [get] among the rows shown
    stops the rendering. *)
Lemma body_rows_raises (columns : list pykey) (rows : list pyval) row :
  columns <> [] -> In row rows -> is_pydict row = false ->
  body_rows columns rows = Raise AttributeError.
Proof.
  intros Hcol Hin Hrow. destruct columns as [|c columns]; [congruence|].
  induction rows as [|r rows IH]; simpl; [contradiction|].
  destruct Hin as [->|Hin].
  - destruct row; try reflexivity. discriminate.
  - destruct r; try reflexivity. now rewrite IH.
Qed.

Lemma render_tables_raises (entries : snapshot) name v e :
  In (name, v) entries -> render_table name v = Raise e ->
  exists e', render_tables entries = Raise e'.
Proof.
  intros Hin Hr. induction entries as [|[name' v'] entries IH]; simpl;
    [contradiction|].
  destruct Hin as [[= -> ->]|Hin].
  - rewrite Hr. now exists e.
  - destruct (render_table name' v'); [|eexists; reflexivity].
    destruct (IH Hin) as [e' ->]. now exists e'.
Qed.

End ReportContent.

(** X19: the content of a report that is produced.  The entries of the
    snapshot that are non-empty lists starting with a dictionary make up
    the table section, in the order of the snapshot, all the others the
    EasyDB section, unchanged; the two counters of the overview are the
    sizes of the two sections.  Each table is shown under the name of its
    entry with the number of all its rows, at most 10 body rows (all of
    them when there are 10 or fewer), one cell per header column, and the
    notice with the total exactly when it has more than 10 rows. *)
Theorem report_content (all_data : snapshot) (r : report) :
  render_report all_data = Ok r ->
  easydb_section r = filter (fun p => negb (is_table_like (snd p))) all_data
  /\ Forall2 shows (filter (fun p => is_table_like (snd p)) all_data)
             (table_section r)
  /\ overview_easydb r = Z.of_nat (List.length (easydb_section r))
  /\ overview_tables r = Z.of_nat (List.length (table_section r)).
Proof.
  unfold render_report. intro H.
  destruct (render_entries _) as [entries|] eqn:Ee; [|discriminate].
  destruct (render_tables _) as [views|] eqn:Et; [|discriminate].
  injection H as <-. simpl.
  apply render_entries_ok in Ee. subst entries.
  apply render_tables_shows in Et; [|apply forallb_filter].
  split; [reflexivity|]. split; [exact Et|]. split; [reflexivity|].
  now rewrite (Forall2_length Et).
Qed.

Lemma report_content_witness :
  let all_data :=
    [("title", PyStr "t");
     ("users", PyList (repeat (PyDict [(KStr "id", PyInt 1)]) 12));
     ("tags", PyList [PyStr "a"])] in
  exists r,
    render_report all_data = Ok r
    /\ easydb_section r = [("title", PyStr "t"); ("tags", PyList [PyStr "a"])]
    /\ overview_tables r = 1.
Proof.
  intro all_data.
  destruct (render_report all_data) as [r|] eqn:E; [|discriminate].
  exists r. split; [reflexivity|].
  destruct (report_content all_data r E) as (He & Ht & _ & Hn).
  split; [exact He|]. rewrite Hn.
  now rewrite <- (Forall2_length Ht).
Defined.

(** X20: no report is produced when the snapshot has an entry that is a
    list starting with a non-empty dictionary in which one of the next
    nine elements is not a dictionary: the rendering of its rows raises.
    Such a list is a legitimate JSON value of the scalar table or of a
    list.  (With an empty first dictionary there is no column, and no
    row is asked for a cell.) *)
Theorem report_fails_on_mixed_rows
        (all_data : snapshot) (name : string)
        (first : list (pykey * pyval)) (rows : list pyval) (row : pyval) :
  In (name, PyList (PyDict first :: rows)) all_data ->
  first <> [] ->
  In row (firstn 9 rows) -> is_pydict row = false ->
  exists e, render_report all_data = Raise e.
Proof.
  intros Hin Hfirst Hrow Hbad. unfold render_report.
  destruct (render_entries _); [|eexists; reflexivity].
  assert (exists e, render_table name (PyList (PyDict first :: rows)) = Raise e)
    as [e He].
  { unfold render_table.
    destruct (header_cells (map fst first)); [|eexists; reflexivity].
    rewrite (body_rows_raises _ _ row);
      [eexists; reflexivity | | | assumption].
    - destruct first; [congruence | discriminate].
    - simpl. now right. }
  destruct (render_tables_raises
              (filter (fun p => is_table_like (snd p)) all_data)
              name (PyList (PyDict first :: rows)) e) as [e' ->];
    [|assumption|now exists e'].
  apply filter_In. now split.
Qed.

Lemma report_fails_on_mixed_rows_witness :
  let s := snd (__setitem__ "x" (PyList [PyDict [(KStr "a", PyInt 1)]; PyInt 5])
                            (EasyDB "easy.db")) in
  let t := snd (__setitem__ "x" (PyList [PyDict []; PyInt 5])
                            (EasyDB "easy.db")) in
  _get_all_data s = (Ok [("x", PyList [PyDict [(KStr "a", PyInt 1)]; PyInt 5])], s)
  /\ (exists e, render_report [("x", PyList [PyDict [(KStr "a", PyInt 1)]; PyInt 5])]
                = Raise e)
  /\ attribute_read "html_report" s = (Raise AttributeError, s)
  /\ (exists r, attribute_read "html_report" t = (Ok (HtmlReport r), t)).
Proof.
  intros s t. split; [reflexivity|]. split; [|split; [reflexivity|]].
  - apply (report_fails_on_mixed_rows _ "x" [(KStr "a", PyInt 1)] [PyInt 5]
             (PyInt 5)); simpl; try tauto. discriminate.
  - eexists. reflexivity.
Defined.

(* ------------------------------------------------------------------ *)
(** ** Values that were read *)

Section ReadValues.

Lemma dict_set_keys {V : Type} (d : list (pykey * V)) k (v : V) :
  map fst (dict_set pykey_eqb d k v)
  = if existsb (pykey_eqb k) (map fst d) then map fst d
    else (map fst d ++ [k])%list.
Proof.
  induction d as [|[k' v'] d IH]; simpl; [reflexivity|].
  rewrite (pykey_eqb_sym k k').
  destruct (pykey_eqb k' k); simpl; [reflexivity|].
  rewrite IH. now destruct (existsb (pykey_eqb k) (map fst d)).
Qed.

Lemma distinct_keys_snoc (l : list pykey) k :
  distinct_keys l = true -> existsb (pykey_eqb k) l = false ->
  distinct_keys (l ++ [k]) = true.
Proof.
  induction l as [|k0 l IH]; simpl; intros Hd Hk; [reflexivity|].
  apply andb_true_iff in Hd as [H0 Hd]. apply orb_false_iff in Hk as [Hk0 Hk].
  rewrite existsb_app. simpl. rewrite (pykey_eqb_sym k0 k), Hk0, orb_false_r.
  rewrite H0. simpl. now apply IH.
Qed.

(** A dictionary built from pairs has distinct keys, and keys of the
    kind the pairs have. *)
Lemma dict_of_pairs_keys {V : Type} (q : pykey -> bool)
      (ps : list (pykey * V)) :
  forallb q (map fst ps) = true ->
  forallb q (map fst (dict_of_pairs pykey_eqb ps)) = true
  /\ distinct_keys (map fst (dict_of_pairs pykey_eqb ps)) = true.
Proof.
  unfold dict_of_pairs.
  assert (forall acc : list (pykey * V),
            forallb q (map fst acc) = true ->
            distinct_keys (map fst acc) = true ->
            forallb q (map fst ps) = true ->
            forallb q
              (map fst (fold_left (fun d p => dict_set pykey_eqb d (fst p) (snd p))
                                  ps acc)) = true
            /\ distinct_keys
                 (map fst (fold_left (fun d p => dict_set pykey_eqb d (fst p) (snd p))
                                     ps acc)) = true) as H.
  { induction ps as [|[k v] ps IH]; intros acc Hs Hd Hps; simpl; [now split|].
    simpl in Hps. apply andb_true_iff in Hps as [Hk Hps].
    apply IH; [| |assumption]; rewrite dict_set_keys;
      destruct (existsb (pykey_eqb k) (map fst acc)) eqn:E; try assumption.
    - rewrite forallb_app, Hs. simpl. now rewrite Hk.
    - now apply distinct_keys_snoc. }
  intro Hps. now apply H.
Qed.

(** What [json.loads] returns is a value of the JSON data model. *)
Lemma json_loads_shaped (j : json) : json_shaped (json_loads j) = true.
Proof.
  induction j as [| b | z | s | l IH | m IH | x] using json_nested_ind;
    try reflexivity; simpl.
  - now rewrite join_surrogates_joined.
  - induction IH as [|x l Hx Hl IHl]; simpl; [reflexivity|].
    now rewrite Hx, IHl.
  - destruct (dict_of_pairs_keys is_text_key
                (map (fun p : string * json =>
                        let '(k, x) := p in
                        (KStr (join_surrogates k), json_loads x)) m))
      as [Hs Hd].
    { clear IH. induction m as [|[k x] m IHm]; simpl; [reflexivity|].
      now rewrite join_surrogates_joined. }
    rewrite Hs, Hd. clear Hs Hd. simpl.
    apply forallb_forall. apply Forall_forall.
    apply (dict_of_pairs_Forall pykey_eqb (fun v => json_shaped v = true)).
    induction IH as [|[k x] m Hx Hm IHm]; simpl; [constructor|].
    constructor; assumption.
Qed.

Lemma remove_key_idem (key : string) (kv : list (string * json)) j :
  remove_key key (remove_key key kv ++ [(key, j)]) = remove_key key kv.
Proof.
  unfold remove_key. rewrite filter_app. simpl.
  rewrite String.eqb_refl. simpl. rewrite app_nil_r.
  induction kv as [|[k x] kv IH]; simpl; [reflexivity|].
  destruct (String.eqb k key) eqn:E; simpl; [assumption|].
  now rewrite E, IH.
Qed.

Lemma remove_key_absent (key : string) (kv : list (string * json)) :
  dict_get String.eqb kv key = None -> remove_key key kv = kv.
Proof.
  induction kv as [|[k x] kv IH]; simpl; [reflexivity|].
  destruct (String.eqb k key); [discriminate|]. simpl. intro H.
  now rewrite IH.
Qed.

End ReadValues.

(** X21: what has been read can be stored again as it is.  A value
    read from the scalar table or from a place of a list is of the JSON
    data model, so storing it under any key succeeds and the key then
    reads the same value: copying loses nothing. *)
Theorem read_values_copy
        (s : db) (key name target : string) (i : Z) (v : pyval) :
  __getitem__ key s = (Ok v, s) \/ list_get_item name i s = (Ok v, s) ->
  json_shaped v = true
  /\ exists s',
       __setitem__ target v s = (Ok tt, s')
       /\ __getitem__ target s' = (Ok v, s').
Proof.
  intro H.
  assert (exists j, v = json_loads j) as [j ->].
  { destruct H as [H|H].
    - unfold __getitem__, _get_key_value in H.
      destruct (dict_get String.eqb (kv_store s) key) as [j|]; [|discriminate].
      exists j. now injection H.
    - unfold list_get_item in H.
      destruct (find_row name i (list_store s)) as [r|];
        [|destruct (in_int64 i); discriminate].
      exists (item_value r). now injection H. }
  pose proof (json_loads_shaped j) as Hs. split; [exact Hs|].
  destruct (json_shaped_round_trip _ Hs) as (j' & Hj' & Hload).
  destruct (get_after_set s target _ j' Hj') as (s' & Hset & Hget).
  exists s'. split; [exact Hset|].
  unfold __getitem__. now rewrite Hget, Hload.
Qed.

Lemma read_values_copy_witness :
  let s := snd ((__setitem__ "a" (PyDict [(KInt 1, PyTuple [PyInt 2])]) ;;;
                 list_append "l" (PyTuple [PyNone]))
                  (EasyDB "easy.db")) in
  __getitem__ "a" s = (Ok (PyDict [(KStr "1", PyList [PyInt 2])]), s)
  /\ (exists s', __setitem__ "b" (PyDict [(KStr "1", PyList [PyInt 2])]) s
                 = (Ok tt, s')
                 /\ __getitem__ "b" s'
                    = (Ok (PyDict [(KStr "1", PyList [PyInt 2])]), s'))
  /\ (exists s', __setitem__ "b" (PyList [PyNone]) s = (Ok tt, s')
                 /\ __getitem__ "b" s' = (Ok (PyList [PyNone]), s')).
Proof.
  intro s. split; [reflexivity|]. split.
  - apply (read_values_copy s "a" "l" "b" 0). now left.
  - apply (read_values_copy s "a" "l" "b" 0). now right.
Defined.

(** X22: scalar writes compose as assignments do.  Of two writes of
    serializable values to one key the second alone decides the store:
    nothing of the first is left.  Writing a key that was absent and
    deleting it again gives back the store as it was. *)
Theorem scalar_writes_compose (s : db) (key : string) (v1 v2 : pyval) :
  json_dumps v1 <> None ->
  (json_dumps v2 <> None ->
   (__setitem__ key v1 ;;; __setitem__ key v2) s = __setitem__ key v2 s)
  /\ (__contains__ key s = (Ok false, s) ->
      (__setitem__ key v1 ;;; __delitem__ key) s = (Ok tt, s)).
Proof.
  intro H1. destruct (json_dumps v1) as [j1|] eqn:E1; [|congruence].
  unfold __setitem__, _set_key_value, bind. rewrite E1. split.
  - intro H2. destruct (json_dumps v2) as [j2|] eqn:E2; [|congruence].
    simpl. unfold with_kv. simpl. now rewrite remove_key_idem.
  - rewrite __contains___spec. intros [= Hc].
    destruct (dict_get String.eqb (kv_store s) key) as [j|] eqn:Eg; [discriminate|].
    unfold __delitem__. simpl.
    rewrite dict_get_remove_key. simpl. rewrite String.eqb_refl.
    unfold with_kv. simpl.
    rewrite remove_key_idem, (remove_key_absent _ _ Eg).
    now destruct s.
Qed.

Lemma scalar_writes_compose_witness :
  let s := snd (__setitem__ "other" (PyInt 0) (EasyDB "easy.db")) in
  (__setitem__ "k" (PyInt 1) ;;; __setitem__ "k" (PyStr "two")) s
  = __setitem__ "k" (PyStr "two") s
  /\ (__setitem__ "k" (PyInt 1) ;;; __delitem__ "k") s = (Ok tt, s).
Proof.
  intro s.
  destruct (scalar_writes_compose s "k" (PyInt 1) (PyStr "two")
              ltac:(discriminate)) as [H1 H2].
  split; [apply H1; discriminate | now apply H2].
Defined.

(* ------------------------------------------------------------------ *)
(** ** The reserved names *)

Section Reserved.

Implicit Types (s : db) (d : snapshot) (v : pyval).









(** *** The rendering of such a snapshot *)










End Reserved.



